(** * videoToaudio: the FFmpeg conversion worker of [m4sTmp3-y.py]

    A shallow embedding of the class [FFmpegWorker] (the per-file
    conversion worker), of the slots of [MainWindow] that coordinate a
    batch, and the properties of their event contract.

    Conventions of the embedding.
    - Python [str] values are [string]s (sequences of bytes); [\d] and
      [str.strip] are modelled on the ASCII range.
    - The numbers the worker reads from text are Python [float]s: binary64
      values with [inf] and [nan], every operation rounded to nearest,
      ties to even (module [Float]).  [int] is CPython's: unbounded, with
      the default limit of 4300 digits on the text it converts, and
      [OverflowError] when an [int] too large is added to a [float].
    - The readings of the clock and the arithmetic of the window on its
      progress bar are rationals ([Q]).
    - The external tool, the clock and the filesystem are an explicit
      environment: what a subprocess prints, its exit code, whether it
      writes its output file, when [cancel()] arrives while the worker
      waits for it, and what errors the operating system answers with.
    - [os.path] is [posixpath]; a path exists when the string is found in
      the set of the path names that exist, where a directory [d] is also
      found as [d ++ "/"].  [os.makedirs] makes the directory and those
      above it; [os.remove] raises on a missing path, on a directory and
      when the operating system refuses.
    - An exception raised in a slot that a signal of [QProcess] calls is
      printed by the binding and ends the slot; it does not reach [run].
    - The worker's effects are recorded in a trace of actions: signals
      emitted, processes started, directories made and files removed. *)

From Stdlib Require Import ZArith QArith Qfield String Ascii List Lia.
From stdpp Require Import base option gmap strings pretty.

Open Scope string_scope.

(* Appending to a string that starts with a known character reduces. *)
#[local] Arguments String.append !s1 s2 : simpl nomatch.

(** ** Results and exceptions *)

(** What a call returns: a value, or an exception with its text. *)
Inductive Res (A : Type) : Type :=
| Ok (a : A)
| Raise (e : string).
Arguments Ok {A} a.
Arguments Raise {A} e.

#[global] Instance Res_ret : MRet Res := fun A a => Ok a.
#[global] Instance Res_bind : MBind Res := fun A B f r =>
  match r with
  | Ok a => f a
  | Raise e => Raise e
  end.

(** ** Python floats *)

Module Float.

(** A [float] that is not negative: a binary64 value [m * 2^e] in
    canonical form ([0 <= m < 2^53] and [-1074 <= e <= 971], with
    [2^52 <= m] unless [e = -1074]), [inf] or [nan].  The worker reads its
    numbers from digits, adds and divides them: none is negative. *)
Inductive t : Type :=
| Finite (m e : Z)
| Inf
| NaN.

Definition zero : t := Finite 0 (-1074).
Definition one : t := Finite (2 ^ 52) (-52).

(** The integer nearest to [n/d], the even one of two that are as near. *)
Definition rne (n d : Z) : Z :=
  let q := (n / d)%Z in
  match (2 * (n mod d) ?= d)%Z with
  | Lt => q
  | Gt => (q + 1)%Z
  | Eq => if Z.even q then q else (q + 1)%Z
  end.

(** The canonical form of [m * 2^e] when rounding has carried [m] up to
    [2^53]; what lies beyond the largest value is [inf]. *)
Definition normal (m e : Z) : t :=
  let (m, e) := if (m =? 2 ^ 53)%Z then (2 ^ 52, e + 1)%Z else (m, e) in
  if (971 <? e)%Z then Inf else Finite m e.

(** The exponent of the last place of [N/d], a number counted in units of
    [2^-1074]: the integer part of its binary logarithm less 52, and 0 for
    the smallest numbers. *)
Definition expo (N d : Z) : Z := Z.max (Z.log2 (N / d) - 52) 0.

(** [n/d] rounded to the nearest binary64 value, ties to even, for
    [n >= 0] and [d > 0].  Counted in units of [2^-1074] the number is
    [N/d]; the result is a multiple of [2^E] units, [E] the exponent of
    its last place. *)
Definition round (n d : Z) : t :=
  if (n =? 0)%Z then zero
  else
    let N := (n * 2 ^ 1074)%Z in
    let E := expo N d in
    normal (rne N (d * 2 ^ E)) (E - 1074).

(** A finite value counted in units of the smallest one, [2^-1074]. *)
Definition scale (m e : Z) : Z := (m * 2 ^ (e + 1074))%Z.

Definition to_Q (x : t) : option Q :=
  match x with
  | Finite m e => Some (Qmake (scale m e) (Z.to_pos (2 ^ 1074)))
  | _ => None
  end.

(** [float(n)] for an [int] that is not negative: rounded, and
    [OverflowError] beyond the largest value. *)
Definition of_Z (n : Z) : Res t :=
  match round n 1 with
  | Inf => Raise "int too large to convert to float"
  | x => Ok x
  end.

(** [x + y] *)
Definition add (x y : t) : t :=
  match x, y with
  | NaN, _ | _, NaN => NaN
  | Inf, _ | _, Inf => Inf
  | Finite m1 e1, Finite m2 e2 => round (scale m1 e1 + scale m2 e2) (2 ^ 1074)
  end.

(** The quotient of [x] by [y], for [y] other than zero. *)
Definition div (x y : t) : t :=
  match x, y with
  | NaN, _ | _, NaN => NaN
  | Inf, Inf => NaN
  | Inf, Finite _ _ => Inf
  | Finite _ _, Inf => zero
  | Finite m1 e1, Finite m2 e2 => round (scale m1 e1) (scale m2 e2)
  end.

Definition is_zero (x : t) : bool :=
  match x with
  | Finite m _ => (m =? 0)%Z
  | _ => false
  end.

(** [x / y] *)
Definition truediv (x y : t) : Res t :=
  if is_zero y then Raise "float division by zero" else Ok (div x y).

(** [x > 0] *)
Definition pos (x : t) : bool :=
  match x with
  | Finite m _ => (0 <? m)%Z
  | Inf => true
  | NaN => false
  end.

(** [x <= y] *)
Definition leb (x y : t) : bool :=
  match x, y with
  | NaN, _ | _, NaN => false
  | _, Inf => true
  | Inf, Finite _ _ => false
  | Finite m1 e1, Finite m2 e2 => (scale m1 e1 <=? scale m2 e2)%Z
  end.

(** [x < y] *)
Definition ltb (x y : t) : bool :=
  match x, y with
  | NaN, _ | _, NaN => false
  | Inf, _ => false
  | Finite _ _, Inf => true
  | Finite m1 e1, Finite m2 e2 => (scale m1 e1 <? scale m2 e2)%Z
  end.

(** The values in canonical form. *)
Definition canonical (x : t) : Prop :=
  match x with
  | Finite m e =>
      (0 <= m < 2 ^ 53)%Z /\ (-1074 <= e <= 971)%Z /\
      (2 ^ 52 <= m \/ e = -1074)%Z
  | _ => True
  end.

Definition is_finite (x : t) : bool :=
  match x with Finite _ _ => true | _ => false end.

End Float.

(** ** Python text primitives *)

Module Py.

(** [c.isdigit()] on the ASCII range: '0' .. '9'. *)
Definition is_digit (c : ascii) : bool :=
  let n := nat_of_ascii c in (48 <=? n)%nat && (n <=? 57)%nat.

(** [c.isspace()] on the ASCII range: TAB, LF, VT, FF, CR, FS, GS, RS,
    US and the space. *)
Definition is_space (c : ascii) : bool :=
  let n := nat_of_ascii c in
  ((9 <=? n)%nat && (n <=? 13)%nat) || ((28 <=? n)%nat && (n <=? 32)%nat).

Definition digit_value (c : ascii) : Z := Z.of_nat (nat_of_ascii c) - 48.

Fixpoint all_chars (p : ascii -> bool) (s : string) : bool :=
  match s with
  | EmptyString => true
  | String c s' => p c && all_chars p s'
  end.

(** A non-empty run of decimal digits: the strings [\d+] matches. *)
Definition is_digits (s : string) : bool :=
  match s with
  | EmptyString => false
  | _ => all_chars is_digit s
  end.

Fixpoint digits_value (acc : Z) (s : string) : Z :=
  match s with
  | EmptyString => acc
  | String c s' => digits_value (10 * acc + digit_value c) s'
  end.

(** [sys.get_int_max_str_digits()], the default of CPython. *)
Definition int_max_str_digits : nat := 4300.

(** [int(s)] for a run of decimal digits: [ValueError] when the run is
    longer than the limit, zeros included, as on the empty string and on
    text that is not a number.  (Signs, surrounding blanks and
    underscores, which [int] also accepts, never reach it from the
    worker's patterns.) *)
Definition int (s : string) : Res Z :=
  if is_digits s then
    if (int_max_str_digits <? String.length s)%nat
    then Raise ("Exceeds the limit (4300 digits) for integer string conversion: value has "
                ++ pretty (String.length s)
                ++ " digits; use sys.set_int_max_str_digits() to increase the limit")
    else Ok (digits_value 0 s)
  else Raise ("invalid literal for int() with base 10: '" ++ s ++ "'").

(** [s.split(sep)] for a one-character separator: never empty. *)
Fixpoint split (sep : ascii) (s : string) : list string :=
  match s with
  | EmptyString => [EmptyString]
  | String c s' =>
      if Ascii.eqb c sep then EmptyString :: split sep s'
      else match split sep s' with
           | [] => [String c EmptyString]
           | h :: t => String c h :: t
           end
  end.

(** [float(s)] for an unsigned decimal without exponent: digits, or
    digits around one point with at least one digit in all.  The value
    of [i.f], the number written [if] over ten to the length of [f], is
    rounded to the nearest [float]; there is no limit on the digits, and
    what is too large becomes [inf]. *)
Definition float (s : string) : Res Float.t :=
  match split "." s with
  | [i] =>
      if is_digits i then Ok (Float.round (digits_value 0 i) 1)
      else Raise ("could not convert string to float: '" ++ s ++ "'")
  | [i; f] =>
      if all_chars is_digit i && all_chars is_digit f && is_digits (i ++ f)
      then Ok (Float.round (digits_value 0 (i ++ f)) (10 ^ Z.of_nat (String.length f)))
      else Raise ("could not convert string to float: '" ++ s ++ "'")
  | _ => Raise ("could not convert string to float: '" ++ s ++ "'")
  end.

(** [n + x] for an [int] and a [float]: the [int] is converted first. *)
Definition int_add_float (n : Z) (x : Float.t) : Res Float.t :=
  y ← Float.of_Z n; Ok (Float.add y x).

(** [sep.join(parts)]. *)
Fixpoint join (sep : string) (parts : list string) : string :=
  match parts with
  | [] => ""
  | [p] => p
  | p :: rest => p ++ sep ++ join sep rest
  end.

Fixpoint lstrip (s : string) : string :=
  match s with
  | String c s' => if is_space c then lstrip s' else s
  | EmptyString => EmptyString
  end.

(** [rstrip] keeps a character when it is not a blank or when something
    that is kept follows it. *)
Fixpoint rstrip (s : string) : string :=
  match s with
  | EmptyString => EmptyString
  | String c s' =>
      match rstrip s' with
      | EmptyString => if is_space c then EmptyString else String c EmptyString
      | r => String c r
      end
  end.

(** [s.strip()]. *)
Definition strip (s : string) : string := rstrip (lstrip s).

(** Truth value of a string: non-empty. *)
Definition truthy (s : string) : bool := negb (String.eqb s "").

Fixpoint startswith (p s : string) : bool :=
  match p, s with
  | EmptyString, _ => true
  | String a p', String b s' => Ascii.eqb a b && startswith p' s'
  | String _ _, EmptyString => false
  end.

Fixpoint endswith_char (c : ascii) (s : string) : bool :=
  match s with
  | EmptyString => false
  | String a EmptyString => Ascii.eqb a c
  | String _ s' => endswith_char c s'
  end.

End Py.

(** [s.rstrip('/')] *)
Fixpoint rstrip_sep (s : string) : string :=
  match s with
  | EmptyString => EmptyString
  | String c s' =>
      match rstrip_sep s' with
      | EmptyString => if Ascii.eqb c "/" then EmptyString else String c EmptyString
      | r => String c r
      end
  end.

(** ** Paths: [os.path] on a POSIX host *)

Module OsPath.

(** [s] around its last [c]: what precedes it and what follows it;
    [None] when [c] does not occur ([s.rfind(c) = -1]). *)
Fixpoint rsplit_char (c : ascii) (s : string) : option (string * string) :=
  match s with
  | EmptyString => None
  | String a s' =>
      match rsplit_char c s' with
      | Some (pre, post) => Some (String a pre, post)
      | None => if Ascii.eqb a c then Some (EmptyString, s') else None
      end
  end.

(** [os.path.basename(p)]: [p[p.rfind('/') + 1:]]. *)
Definition basename (p : string) : string :=
  match rsplit_char "/" p with
  | Some (_, name) => name
  | None => p
  end.

(** The directory prefix [p[:p.rfind('/') + 1]], separator included. *)
Definition dirprefix (p : string) : string :=
  match rsplit_char "/" p with
  | Some (pre, _) => pre ++ "/"
  | None => ""
  end.

(** [os.path.dirname(p)]: the directory prefix without its trailing
    separators, unless it is made of separators only. *)
Definition dirname (p : string) : string :=
  let head := dirprefix p in
  if Py.truthy head && negb (Py.all_chars (Ascii.eqb "/") head)
  then rstrip_sep head else head.

(** [splitext] on a file name without separator: split at the last dot
    unless nothing but dots precedes it. *)
Definition splitext_name (name : string) : string * string :=
  match rsplit_char "." name with
  | Some (root, ext) =>
      if Py.all_chars (Ascii.eqb ".") root then (name, "")
      else (root, String "." ext)
  | None => (name, "")
  end.

(** [os.path.splitext(p)]: the last dot counts only when it comes after
    the last separator, and leading dots of the file name are skipped. *)
Definition splitext (p : string) : string * string :=
  let (root, ext) := splitext_name (basename p) in
  (dirprefix p ++ root, ext).

(** [os.path.join(a, b)]. *)
Definition join (a b : string) : string :=
  if Py.startswith "/" b then b
  else if negb (Py.truthy a) || Py.endswith_char "/" a then a ++ b
  else a ++ "/" ++ b.

(** The directories above [p], nearest first: [dirname] again and again
    until it is empty or stays the same. *)
Fixpoint parents_upto (fuel : nat) (p : string) : list string :=
  match fuel with
  | O => []
  | S n =>
      let d := dirname p in
      if String.eqb d "" || String.eqb d p then [] else d :: parents_upto n d
  end.

Definition parents (p : string) : list string := parents_upto (String.length p) p.

End OsPath.

(** ** The two patterns the worker searches for *)

Module Re.

(** The patterns of the worker are a literal prefix followed by one
    group made of literals and [\d+].  In the group every [\d+] is
    followed by a literal that is not a digit or ends the pattern, so the
    longest run of digits is the only one a backtracking matcher can
    succeed with: matching is greedy and deterministic. *)
Inductive item : Type :=
| Lit (s : string)
| Digits1.

(** [s] without the prefix [p]. *)
Fixpoint strip_prefix (p s : string) : option string :=
  match p, s with
  | EmptyString, _ => Some s
  | String a p', String b s' =>
      if Ascii.eqb a b then strip_prefix p' s' else None
  | String _ _, EmptyString => None
  end.

(** The longest run of digits at the head of [s], and what follows. *)
Fixpoint span_digits (s : string) : string * string :=
  match s with
  | String c s' =>
      if Py.is_digit c
      then let (d, r) := span_digits s' in (String c d, r)
      else (EmptyString, s)
  | EmptyString => (EmptyString, EmptyString)
  end.

(** Match the items at the head of [s]: the text matched and the rest. *)
Fixpoint match_items (p : list item) (s : string) : option (string * string) :=
  match p with
  | [] => Some (EmptyString, s)
  | Lit l :: p' =>
      match strip_prefix l s with
      | Some r =>
          match match_items p' r with
          | Some (m, r') => Some (l ++ m, r')
          | None => None
          end
      | None => None
      end
  | Digits1 :: p' =>
      match span_digits s with
      | (EmptyString, _) => None
      | (d, r) =>
          match match_items p' r with
          | Some (m, r') => Some (d ++ m, r')
          | None => None
          end
      end
  end.

(** [re.search(prefix (group), s).group(1)]: the leftmost match. *)
Fixpoint search (pre : string) (group : list item) (s : string) : option string :=
  match (match strip_prefix pre s with
         | Some r => match_items group r
         | None => None
         end) with
  | Some (m, _) => Some m
  | None =>
      match s with
      | EmptyString => None
      | String _ s' => search pre group s'
      end
  end.

(** [(\d+:\d+:\d+\.\d+)] *)
Definition hms_group : list item :=
  [Digits1; Lit ":"; Digits1; Lit ":"; Digits1; Lit "."; Digits1].

(** [re.search(r"Duration: (\d+:\d+:\d+\.\d+)", s)] *)
Definition search_duration (s : string) : option string :=
  search "Duration: " hms_group s.

(** [re.search(r"time=(\d+:\d+:\d+\.\d+)", s)] *)
Definition search_time (s : string) : option string :=
  search "time=" hms_group s.

End Re.

(** ** Signals, processes and the worker object *)

(** The three signals of [FFmpegWorker].  The fraction of a Progress
    signal is a [float]: [F] is [Float.t] where the worker emits it and
    [Q] where the window computes with it. *)
Inductive Signal (F : Type) : Type :=
| finished_signal (output_path : string) (duration : Q)
| error_signal (message : string)
| progress_signal (progress : F) (filename : string).
Arguments finished_signal {F} output_path duration.
Arguments error_signal {F} message.
Arguments progress_signal {F} progress filename.

(** What the worker does to the outside, in order. *)
Inductive Action : Type :=
| Emit (sig : Signal Float.t)
| ProcessStart (program : string) (arguments : list string)
| Makedirs (path : string)
| Remove (path : string).

Inductive ProcessState : Type := NotRunning | Running.

Record QProcess : Type := mkQProcess {
  state : ProcessState;
  exitCode : Z;
  killed : bool
}.

(** The attributes [__init__] sets; [_process] is absent ([None]) until
    [_run_ffmpeg] assigns it. *)
Record FFmpegWorker : Type := mkFFmpegWorker {
  input_path : string;
  output_dir : string;
  use_loudnorm : bool;
  _ffmpeg_path : string;
  _total_duration : Float.t;
  _is_cancelled : bool;
  _start_time : Q;
  _has_video : bool;
  _process : option QProcess
}.

(** [FFmpegWorker(input_path, output_dir, use_loudnorm)]; the two host
    probes of [__init__] ([find_ffmpeg], [has_video_stream]) are inputs. *)
Definition init (input output : string) (loudnorm : bool)
    (ffmpeg : string) (has_video : bool) : FFmpegWorker :=
  {| input_path := input; output_dir := output; use_loudnorm := loudnorm;
     _ffmpeg_path := ffmpeg; _total_duration := Float.zero; _is_cancelled := false;
     _start_time := 0; _has_video := has_video; _process := None |}.

Definition set_total_duration (d : Float.t) (w : FFmpegWorker) : FFmpegWorker :=
  {| input_path := input_path w; output_dir := output_dir w;
     use_loudnorm := use_loudnorm w; _ffmpeg_path := _ffmpeg_path w;
     _total_duration := d; _is_cancelled := _is_cancelled w;
     _start_time := _start_time w; _has_video := _has_video w;
     _process := _process w |}.

Definition set_is_cancelled (b : bool) (w : FFmpegWorker) : FFmpegWorker :=
  {| input_path := input_path w; output_dir := output_dir w;
     use_loudnorm := use_loudnorm w; _ffmpeg_path := _ffmpeg_path w;
     _total_duration := _total_duration w; _is_cancelled := b;
     _start_time := _start_time w; _has_video := _has_video w;
     _process := _process w |}.

Definition set_start_time (t : Q) (w : FFmpegWorker) : FFmpegWorker :=
  {| input_path := input_path w; output_dir := output_dir w;
     use_loudnorm := use_loudnorm w; _ffmpeg_path := _ffmpeg_path w;
     _total_duration := _total_duration w; _is_cancelled := _is_cancelled w;
     _start_time := t; _has_video := _has_video w;
     _process := _process w |}.

Definition set_process (p : QProcess) (w : FFmpegWorker) : FFmpegWorker :=
  {| input_path := input_path w; output_dir := output_dir w;
     use_loudnorm := use_loudnorm w; _ffmpeg_path := _ffmpeg_path w;
     _total_duration := _total_duration w; _is_cancelled := _is_cancelled w;
     _start_time := _start_time w; _has_video := _has_video w;
     _process := Some p |}.

(** ** The environment of one job *)

(** What happens while the worker waits for a subprocess: a chunk becomes
    readable on one of the two channels, or [cancel()] is called from the
    coordinator. *)
Inductive ProcEvent : Type :=
| ReadyStdout (chunk : string)
| ReadyStderr (chunk : string)
| CancelRequest.

Record ProcRun : Type := mkProcRun {
  pr_events : list ProcEvent;
  pr_exit : Z;
  pr_writes_output : bool   (* the file named last on the command line exists afterwards *)
}.

Record Env : Type := mkEnv {
  clock_start : Q;              (* [time.time()] when [run] begins *)
  clock_end : Q;                (* [time.time()] before [finished_signal] *)
  makedirs_error : option string;  (* the [OSError] of [os.makedirs], if any *)
  makedirs_creates : gset string;
    (* what [os.makedirs] brings into existence besides the directory
       and the directories above it, also when it fails on the way: the
       other names under which [os.path.exists] finds them, since the
       operating system resolves [.], [..], repeated separators and
       links *)
  remove_error : option string;
    (* the [OSError] of [os.remove] on a file that exists, if any:
       permission is denied, the file system is read-only *)
  probe_stderr : string;        (* diagnostic text of the duration probe *)
  merge_run : ProcRun;          (* the merge subprocess *)
  encode_run : ProcRun          (* the encode subprocess: extraction or direct *)
}.

(** ** A state and exception monad for the worker's methods *)

Record World : Type := mkWorld {
  self : FFmpegWorker;
  fs : gset string;
    (* the path names that exist, those [os.path.exists] finds: of a
       directory [d] the name [d ++ "/"] exists as well, of a file it does
       not *)
  trace : list Action      (* oldest first *)
}.

Definition M (A : Type) : Type := World -> Res A * World.

#[global] Instance M_ret : MRet M := fun A a w => (Ok a, w).
#[global] Instance M_bind : MBind M := fun A B f m w =>
  match m w with
  | (Ok a, w') => f a w'
  | (Raise e, w') => (Raise e, w')
  end.

Definition raise {A : Type} (e : string) : M A := fun w => (Raise e, w).

(** The result of a call that touches nothing. *)
Definition lift {A : Type} (r : Res A) : M A := fun w => (r, w).

(** [try: body except Exception as e: handler(str(e))] *)
Definition try_except {A : Type} (body : M A) (handler : string -> M A) : M A :=
  fun w =>
    match body w with
    | (Ok a, w') => (Ok a, w')
    | (Raise e, w') => handler e w'
    end.

Definition get_self : M FFmpegWorker := fun w => (Ok (self w), w).

Definition modify_self (f : FFmpegWorker -> FFmpegWorker) : M unit :=
  fun w => (Ok tt, {| self := f (self w); fs := fs w; trace := trace w |}).

Definition modify_fs (f : gset string -> gset string) : M unit :=
  fun w => (Ok tt, {| self := self w; fs := f (fs w); trace := trace w |}).

Definition log (a : Action) : M unit :=
  fun w => (Ok tt, {| self := self w; fs := fs w; trace := (trace w ++ [a])%list |}).

Definition emit (sig : Signal Float.t) : M unit := log (Emit sig).

(** [os.path.exists(p)] *)
Definition os_path_exists (p : string) : M bool :=
  fun w => (Ok (bool_decide (p ∈ fs w)), w).

(** [p] names a directory of [f]. *)
Definition isdir (f : gset string) (p : string) : bool :=
  bool_decide (p ++ "/" ∈ f).

(** The directories [os.makedirs(p, exist_ok=True)] leaves when it
    succeeds: [p] and the directories above it. *)
Definition made_dirs (p : string) : list string := p :: OsPath.parents p.

(** The path names it brings into existence: those directories, under
    their name and as directories, and their other names. *)
Definition made_by_makedirs (env : Env) (p : string) : gset string :=
  list_to_set (made_dirs p)
  ∪ list_to_set (map (fun d => d ++ "/") (made_dirs p))
  ∪ makedirs_creates env.

(** [os.makedirs(p, exist_ok=True)] *)
Definition os_makedirs (env : Env) (p : string) : M unit :=
  match makedirs_error env with
  | Some e => modify_fs (fun f => f ∪ makedirs_creates env) ;; raise e
  | None => log (Makedirs p) ;; modify_fs (fun f => f ∪ made_by_makedirs env p)
  end.

(** [os.remove(p)]: [FileNotFoundError] when [p] does not exist,
    [IsADirectoryError] when it is a directory (the message is that of
    Linux), and another [OSError] when the operating system refuses. *)
Definition os_remove (env : Env) (p : string) : M unit :=
  ex ← os_path_exists p;
  if (ex : bool) then
    dir ← os_path_exists (p ++ "/");
    if (dir : bool) then raise ("[Errno 21] Is a directory: '" ++ p ++ "'")
    else
      match remove_error env with
      | Some e => raise e
      | None => log (Remove p) ;; modify_fs (fun f => f ∖ {[ p ]})
      end
  else raise ("[Errno 2] No such file or directory: '" ++ p ++ "'").

(** ** The methods of [FFmpegWorker] *)

(** [_time_str_to_seconds]: the sum of the two [int]s is an [int], to
    which the [float] is added. *)
Definition _time_str_to_seconds (time_str : string) : Res Float.t :=
  let hms := Py.split ":" time_str in
  match hms with
  | [h; m; s] =>
      hours ← Py.int h;
      minutes ← Py.int m;
      seconds ← Py.float s;
      Py.int_add_float (hours * 3600 + minutes * 60) seconds
  | [m; s] =>
      minutes ← Py.int m;
      seconds ← Py.float s;
      Py.int_add_float (minutes * 60) seconds
  | _ => Ok Float.zero
  end.

(** [_read_stdout], on the chunk [readAllStandardOutput] returns. *)
Definition _read_stdout (stdout : string) : M unit :=
  if Py.truthy (Py.strip stdout) then
    w ← get_self;
    match Re.search_time stdout with
    | Some group1 =>
        if Float.pos (_total_duration w) then
          current_time ← lift (_time_str_to_seconds group1);
          progress ← lift (Float.truediv current_time (_total_duration w));
          emit (progress_signal progress (OsPath.basename (input_path w)))
        else mret tt
    | None => mret tt
    end
  else mret tt.

(** [_read_stderr], on the chunk [readAllStandardError] returns. *)
Definition _read_stderr (stderr : string) : M unit :=
  if Py.truthy (Py.strip stderr) then
    emit (error_signal ("⚠️ FFmpeg 输出: " ++ Py.strip stderr))
  else mret tt.

(** [QProcess.kill()] *)
Definition kill (p : QProcess) : QProcess :=
  {| state := state p; exitCode := exitCode p; killed := true |}.

(** [cancel]: the flag is set first; without a [_process] attribute the
    test that follows raises [AttributeError] in the caller. *)
Definition cancel : M unit :=
  modify_self (set_is_cancelled true) ;;
  w ← get_self;
  match _process w with
  | Some p =>
      match state p with
      | Running => modify_self (set_process (kill p))
      | NotRunning => mret tt
      end
  | None => raise "'FFmpegWorker' object has no attribute '_process'"
  end.

(** One event delivered while [waitForFinished(-1)] blocks.  What a slot
    raises ends the slot and does not reach the worker; [cancel] is called
    by the coordinator, and what it raises is raised there. *)
Definition deliver (ev : ProcEvent) : M unit :=
  match ev with
  | ReadyStdout chunk => try_except (_read_stdout chunk) (fun _ => mret tt)
  | ReadyStderr chunk => try_except (_read_stderr chunk) (fun _ => mret tt)
  | CancelRequest => try_except cancel (fun _ => mret tt)
  end.

Fixpoint deliver_all (evs : list ProcEvent) : M unit :=
  match evs with
  | [] => mret tt
  | ev :: rest => deliver ev ;; deliver_all rest
  end.

(** The subprocess has ended: its exit code is known and its output file
    exists if it wrote one. *)
Definition process_finished (pr : ProcRun) (command : list string) : M unit :=
  w ← get_self;
  let was_killed := from_option killed false (_process w) in
  modify_self (set_process
    {| state := NotRunning; exitCode := pr_exit pr; killed := was_killed |}) ;;
  if pr_writes_output pr
  then modify_fs (fun f => f ∪ {[ List.last command "" ]})
  else mret tt.

(** [_run_ffmpeg]: a fresh process, both channels connected to the two
    slots, started with [command[0]] and [command[1:]], then waited for. *)
Definition _run_ffmpeg (pr : ProcRun) (command : list string) : M unit :=
  match command with
  | [] => raise "list index out of range"
  | program :: arguments =>
      modify_self (set_process
        {| state := Running; exitCode := 0; killed := false |}) ;;
      log (ProcessStart program arguments) ;;
      deliver_all (pr_events pr) ;;
      process_finished pr command
  end.

(** [_run_merge] *)
Definition _run_merge (pr : ProcRun) (input_files : list string)
    (output_file : string) : M unit :=
  w ← get_self;
  match input_files with
  | in0 :: in1 :: _ =>
      let cmd := [ _ffmpeg_path w; "-y"; "-i"; in0; "-i"; in1;
                   "-c:v"; "copy"; "-c:a"; "copy"; "-f"; "mpegts";
                   output_file ] in
      _run_ffmpeg pr cmd
  | _ => raise "list index out of range"
  end.

(** [_run_audio_extract] *)
Definition _run_audio_extract (pr : ProcRun) (input_file output_file : string)
    : M unit :=
  w ← get_self;
  let cmd := [ _ffmpeg_path w; "-y"; "-i"; input_file;
               "-vn"; "-ar"; "44100"; "-ac"; "2"; "-b:a"; "192k" ] in
  let cmd := if use_loudnorm w then (cmd ++ ["-af"; "loudnorm"])%list else cmd in
  let cmd := (cmd ++ [output_file])%list in
  _run_ffmpeg pr cmd.

(** [_run_direct_convert] *)
Definition _run_direct_convert (pr : ProcRun) (input_file output_file : string)
    : M unit :=
  w ← get_self;
  let cmd := [ _ffmpeg_path w; "-y"; "-i"; input_file;
               "-vn"; "-ar"; "44100"; "-ac"; "2"; "-b:a"; "192k" ] in
  let cmd := if use_loudnorm w then (cmd ++ ["-af"; "loudnorm"])%list else cmd in
  let cmd := (cmd ++ [output_file])%list in
  _run_ffmpeg pr cmd.

(** [self._process.exitCode()] *)
Definition process_exitCode : M Z :=
  w ← get_self;
  match _process w with
  | Some p => mret (exitCode p)
  | None => raise "'FFmpegWorker' object has no attribute '_process'"
  end.

(** The output path [run] derives. *)
Definition derive_output_path (input output : string) : string :=
  let base_name := fst (OsPath.splitext (OsPath.basename input)) in
  let output_mp3 := base_name ++ ".mp3" in
  OsPath.join output output_mp3.

(** The duration probe: started from the joined command line; what it
    prints on its error channel is searched for the duration, and what
    [_time_str_to_seconds] raises on the text found is raised in [run]. *)
Definition probe_duration (env : Env) : M unit :=
  w ← get_self;
  let duration_cmd := [ _ffmpeg_path w; "-i"; input_path w ] in
  log (ProcessStart (Py.join " " duration_cmd) []) ;;
  let duration_output := probe_stderr env in
  match Re.search_duration duration_output with
  | Some group1 =>
      d ← lift (_time_str_to_seconds group1);
      modify_self (set_total_duration d)
  | None => mret tt
  end.

(** [run], a [return] being the end of its branch. *)
Definition run (env : Env) : M unit :=
  try_except
    (modify_self (set_start_time (clock_start env)) ;;
     w ← get_self;
     ex ← os_path_exists (input_path w);
     if negb ex then
       emit (error_signal ("❌ 输入文件不存在: " ++ input_path w))
     else
       os_makedirs env (output_dir w) ;;
       let output_path := derive_output_path (input_path w) (output_dir w) in
       probe_duration env ;;
       let audio_file := fst (OsPath.splitext (input_path w)) ++ ".m4a" in
       ex ← os_path_exists audio_file;
       if (ex : bool) then
         let merged_ts := fst (OsPath.splitext (input_path w)) ++ "_merged.ts" in
         _run_merge (merge_run env) [input_path w; audio_file] merged_ts ;;
         w1 ← get_self;
         if _is_cancelled w1 then mret tt
         else
           _run_audio_extract (encode_run env) merged_ts output_path ;;
           w2 ← get_self;
           if _is_cancelled w2 then os_remove env merged_ts
           else
             code ← process_exitCode;
             if (code =? 0)%Z then
               let duration := (clock_end env - _start_time w2)%Q in
               emit (finished_signal output_path duration) ;;
               os_remove env merged_ts
             else emit (error_signal "❌ 音频提取失败")
       else
         _run_direct_convert (encode_run env) (input_path w) output_path ;;
         w1 ← get_self;
         if _is_cancelled w1 then mret tt
         else
           code ← process_exitCode;
           if (code =? 0)%Z then
             let duration := (clock_end env - _start_time w1)%Q in
             emit (finished_signal output_path duration)
           else emit (error_signal "❌ 直接转换失败"))
    (fun e => emit (error_signal ("❌ 线程运行异常: " ++ e))).

(** ** Reading a run *)

(** The world before [run]: a worker, the files that exist, nothing done. *)
Definition start (w : FFmpegWorker) (files : gset string) : World :=
  {| self := w; fs := files; trace := [] |}.

(** The world [run] leaves. *)
Definition after_run (env : Env) (w : FFmpegWorker) (files : gset string) : World :=
  snd (run env (start w files)).

Fixpoint signals (t : list Action) : list (Signal Float.t) :=
  match t with
  | [] => []
  | Emit sig :: t' => sig :: signals t'
  | _ :: t' => signals t'
  end.

Definition is_finished {F} (sig : Signal F) : bool :=
  match sig with finished_signal _ _ => true | _ => false end.
Definition is_error {F} (sig : Signal F) : bool :=
  match sig with error_signal _ => true | _ => false end.
Definition is_progress {F} (sig : Signal F) : bool :=
  match sig with progress_signal _ _ => true | _ => false end.

Definition emitted (env : Env) (w : FFmpegWorker) (files : gset string)
    : list (Signal Float.t) :=
  signals (trace (after_run env w files)).

Definition starts (t : list Action) : list (string * list string) :=
  flat_map (fun a => match a with
                     | ProcessStart program arguments => [(program, arguments)]
                     | _ => []
                     end) t.

Definition removed (t : list Action) : list string :=
  flat_map (fun a => match a with Remove p => [p] | _ => [] end) t.

Definition fractions {F} (sigs : list (Signal F)) : list F :=
  flat_map (fun sig => match sig with
                       | progress_signal f _ => [f]
                       | _ => []
                       end) sigs.

(** ** Pure views of the event loop *)

(** What [cancel] leaves of the worker. *)
Definition cancelled_self (w : FFmpegWorker) : FFmpegWorker :=
  let w' := set_is_cancelled true w in
  match _process w' with
  | Some p =>
      match state p with
      | Running => set_process (kill p) w'
      | NotRunning => w'
      end
  | None => w'
  end.

Definition event_self (w : FFmpegWorker) (ev : ProcEvent) : FFmpegWorker :=
  match ev with
  | CancelRequest => cancelled_self w
  | _ => w
  end.

(** What [_time_str_to_seconds] does with the first [time=] token of a
    stdout chunk that is not blank; [None] without a token. *)
Definition chunk_token (stdout : string) : option (Res Float.t) :=
  if Py.truthy (Py.strip stdout) then
    match Re.search_time stdout with
    | Some group1 => Some (_time_str_to_seconds group1)
    | None => None
    end
  else None.

(** The time a stdout chunk reports: that of its first [time=] token,
    when it is read without an exception. *)
Definition chunk_time (stdout : string) : option Float.t :=
  match chunk_token stdout with
  | Some (Ok t) => Some t
  | _ => None
  end.

(** The signals one event makes a worker with total duration [D] emit. *)
Definition chunk_signals (D : Float.t) (name : string) (ev : ProcEvent)
    : list (Signal Float.t) :=
  match ev with
  | ReadyStdout chunk =>
      match chunk_time chunk with
      | Some t => if Float.pos D then [progress_signal (Float.div t D) name] else []
      | None => []
      end
  | ReadyStderr chunk =>
      if Py.truthy (Py.strip chunk)
      then [error_signal ("⚠️ FFmpeg 输出: " ++ Py.strip chunk)]
      else []
  | CancelRequest => []
  end.

Definition event_signals (D : Float.t) (name : string) (evs : list ProcEvent)
    : list (Signal Float.t) :=
  flat_map (chunk_signals D name) evs.

Definition is_cancel (ev : ProcEvent) : bool :=
  match ev with CancelRequest => true | _ => false end.

(** The worker when a subprocess has come and gone. *)
Definition ran (pr : ProcRun) (w : FFmpegWorker) : FFmpegWorker :=
  let w1 := fold_left event_self (pr_events pr)
              (set_process {| state := Running; exitCode := 0; killed := false |} w) in
  set_process {| state := NotRunning; exitCode := pr_exit pr;
                 killed := from_option killed false (_process w1) |} w1.

(** [s] has no [c]. *)
Definition no_char (c : ascii) (s : string) : bool :=
  Py.all_chars (fun a => negb (Ascii.eqb a c)) s.

Definition wrote_file (pr : ProcRun) (output_file : string) (files : gset string)
    : gset string :=
  if pr_writes_output pr then files ∪ {[ output_file ]} else files.

(** The arguments of the two kinds of invocation, as lists. *)
Definition merge_args (in0 in1 output_file : string) : list string :=
  ["-y"; "-i"; in0; "-i"; in1; "-c:v"; "copy"; "-c:a"; "copy"; "-f"; "mpegts";
   output_file].

Definition encode_args (loudnorm : bool) (input_file output_file : string)
    : list string :=
  (["-y"; "-i"; input_file; "-vn"; "-ar"; "44100"; "-ac"; "2"; "-b:a"; "192k"]
   ++ (if loudnorm then ["-af"; "loudnorm"] else [])
   ++ [output_file])%list.

(** What [os.remove(p)] raises among the files [f], if anything. *)
Definition remove_failure (env : Env) (p : string) (f : gset string) : option string :=
  if bool_decide (p ∈ f) then
    if isdir f p then Some ("[Errno 21] Is a directory: '" ++ p ++ "'")
    else remove_error env
  else Some ("[Errno 2] No such file or directory: '" ++ p ++ "'").

(** ** A pure view of one job *)

Section JobView.
Variables (env : Env) (w : FFmpegWorker) (files : gset string).

Definition job_started : FFmpegWorker := set_start_time (clock_start env) w.

(** What reading the probed duration raises, if it raises. *)
Definition job_probe_error : option string :=
  match Re.search_duration (probe_stderr env) with
  | Some group1 =>
      match _time_str_to_seconds group1 with
      | Ok _ => None
      | Raise e => Some e
      end
  | None => None
  end.

(** The worker after the probe. *)
Definition job_probed : FFmpegWorker :=
  match Re.search_duration (probe_stderr env) with
  | Some group1 =>
      match _time_str_to_seconds group1 with
      | Ok d => set_total_duration d job_started
      | Raise _ => job_started
      end
  | None => job_started
  end.

Definition job_total : Float.t := _total_duration job_probed.
Definition job_name : string := OsPath.basename (input_path w).
Definition job_output_path : string :=
  derive_output_path (input_path w) (output_dir w).
Definition job_audio_file : string :=
  fst (OsPath.splitext (input_path w)) ++ ".m4a".
Definition job_merged_ts : string :=
  fst (OsPath.splitext (input_path w)) ++ "_merged.ts".
Definition job_probe : string :=
  Py.join " " [ _ffmpeg_path w; "-i"; input_path w ].

(** The files once the output directory is there. *)
Definition job_files : gset string := files ∪ made_by_makedirs env (output_dir w).

(** Is there a sibling audio segment? *)
Definition job_sibling : bool := bool_decide (job_audio_file ∈ job_files).

Definition job_signals (pr : ProcRun) : list (Signal Float.t) :=
  event_signals job_total job_name (pr_events pr).

Definition job_finished : Signal Float.t :=
  finished_signal job_output_path (clock_end env - clock_start env).

Definition job_exception (e : string) : Signal Float.t :=
  error_signal ("❌ 线程运行异常: " ++ e).

(** [os.remove(merged_ts)] at the end of a trace. *)
Definition view_remove (v : World) : World :=
  match remove_failure env job_merged_ts (fs v) with
  | None => {| self := self v; fs := fs v ∖ {[ job_merged_ts ]};
               trace := (trace v ++ [Remove job_merged_ts])%list |}
  | Some e => {| self := self v; fs := fs v;
                 trace := (trace v ++ [Emit (job_exception e)])%list |}
  end.

Definition view_emit (sig : Signal Float.t) (v : World) : World :=
  {| self := self v; fs := fs v; trace := (trace v ++ [Emit sig])%list |}.

(** The world when a subprocess started from [v] has ended. *)
Definition view_process (pr : ProcRun) (arguments : list string)
    (output_file : string) (v : World) : World :=
  {| self := ran pr (self v);
     fs := wrote_file pr output_file (fs v);
     trace := (trace v ++ ProcessStart (_ffmpeg_path w) arguments
               :: map Emit (job_signals pr))%list |}.

Definition view_probed : World :=
  {| self := job_probed; fs := job_files;
     trace := [Makedirs (output_dir w); ProcessStart job_probe []] |}.

(** The world [run] leaves, case by case. *)
Definition run_view : World :=
  if negb (bool_decide (input_path w ∈ files)) then
    {| self := job_started; fs := files;
       trace := [Emit (error_signal ("❌ 输入文件不存在: " ++ input_path w))] |}
  else
    match makedirs_error env with
    | Some e =>
        {| self := job_started; fs := files ∪ makedirs_creates env;
           trace := [Emit (job_exception e)] |}
    | None =>
        match job_probe_error with
        | Some e => view_emit (job_exception e) view_probed
        | None =>
            if job_sibling then
              let vm := view_process (merge_run env)
                          (merge_args (input_path w) job_audio_file job_merged_ts)
                          job_merged_ts view_probed in
              if _is_cancelled (self vm) then vm
              else
                let ve := view_process (encode_run env)
                            (encode_args (use_loudnorm w) job_merged_ts job_output_path)
                            job_output_path vm in
                if _is_cancelled (self ve) then view_remove ve
                else if (pr_exit (encode_run env) =? 0)%Z
                     then view_remove (view_emit job_finished ve)
                     else view_emit (error_signal "❌ 音频提取失败") ve
            else
              let ve := view_process (encode_run env)
                          (encode_args (use_loudnorm w) (input_path w) job_output_path)
                          job_output_path view_probed in
              if _is_cancelled (self ve) then ve
              else if (pr_exit (encode_run env) =? 0)%Z
                   then view_emit job_finished ve
                   else view_emit (error_signal "❌ 直接转换失败") ve
        end
    end.

End JobView.


(** ** What a job was given and what it reports *)

(** Has [cancel()] been called by the time the merge ends, the extraction
    ends, the direct conversion ends? *)
Definition cancelled_in_merge (env : Env) (w : FFmpegWorker) : bool :=
  _is_cancelled w || existsb is_cancel (pr_events (merge_run env)).

Definition cancelled_in_extract (env : Env) (w : FFmpegWorker) : bool :=
  cancelled_in_merge env w || existsb is_cancel (pr_events (encode_run env)).

Definition cancelled_in_direct (env : Env) (w : FFmpegWorker) : bool :=
  _is_cancelled w || existsb is_cancel (pr_events (encode_run env)).

(** The events the worker's slots see, in order. *)
Definition delivered (env : Env) (w : FFmpegWorker) (files : gset string)
    : list ProcEvent :=
  if negb (bool_decide (input_path w ∈ files)) then []
  else match makedirs_error env, job_probe_error env with
       | None, None =>
           if job_sibling env w files then
             (pr_events (merge_run env) ++
              (if cancelled_in_merge env w then [] else pr_events (encode_run env)))%list
           else pr_events (encode_run env)
       | _, _ => []
       end.

(** The times the stdout chunks report. *)
Definition chunk_times (evs : list ProcEvent) : list Float.t :=
  flat_map (fun ev => match ev with
                      | ReadyStdout chunk =>
                          match chunk_time chunk with Some t => [t] | None => [] end
                      | _ => []
                      end) evs.

(** The slot [_read_stdout] returns normally on every chunk the two
    subprocesses write: no [time=] token is one [_time_str_to_seconds]
    raises on. *)
Definition slots_return (env : Env) : bool :=
  forallb (fun ev => match ev with
                     | ReadyStdout chunk =>
                         match chunk_token chunk with
                         | Some (Raise _) => false
                         | _ => true
                         end
                     | _ => true
                     end)
          (pr_events (merge_run env) ++ pr_events (encode_run env)).

Definition stderr_prefix : string := "⚠️ FFmpeg 输出: ".

(** The Error signals that forward what a subprocess wrote on its error
    channel. *)
Definition forwarded (evs : list ProcEvent) : list (Signal Float.t) :=
  flat_map (fun ev => match ev with
                      | ReadyStderr chunk =>
                          if Py.truthy (Py.strip chunk)
                          then [error_signal (stderr_prefix ++ Py.strip chunk)]
                          else []
                      | _ => []
                      end) evs.

(** An Error signal that reports a failure, not a forwarded chunk. *)
Definition is_failure {F} (sig : Signal F) : bool :=
  match sig with
  | error_signal message => negb (Py.startswith stderr_prefix message)
  | _ => false
  end.

(** The files when the extraction has ended. *)
Definition files_after_extract (env : Env) (w : FFmpegWorker) (files : gset string)
    : gset string :=
  wrote_file (encode_run env) (job_output_path w)
    (wrote_file (merge_run env) (job_merged_ts w) (job_files env w files)).

(** A step of a job that is not cancelled fails: the input is missing,
    [os.makedirs] raises, reading the probed duration raises, the encode
    subprocess exits with another code than zero, or [os.remove] raises
    on the merged file. *)
Definition job_fails (env : Env) (w : FFmpegWorker) (files : gset string) : bool :=
  negb (bool_decide (input_path w ∈ files))
  || bool_decide (is_Some (makedirs_error env))
  || bool_decide (is_Some (job_probe_error env))
  || negb (pr_exit (encode_run env) =? 0)%Z
  || (job_sibling env w files
      && bool_decide (is_Some (remove_failure env (job_merged_ts w)
                                 (files_after_extract env w files)))).

(** A failing step in the widest reading: a missing input, a subprocess,
    merge or encode, that exits with another code than zero, or an
    exception. *)
Definition a_step_fails (env : Env) (w : FFmpegWorker) (files : gset string) : bool :=
  negb (bool_decide (input_path w ∈ files))
  || negb (pr_exit (merge_run env) =? 0)%Z
  || negb (pr_exit (encode_run env) =? 0)%Z
  || bool_decide (is_Some (makedirs_error env))
  || bool_decide (is_Some (job_probe_error env))
  || (job_sibling env w files
      && bool_decide (is_Some (remove_failure env (job_merged_ts w)
                                 (files_after_extract env w files)))).

Fixpoint nondecreasing (l : list Float.t) : bool :=
  match l with
  | a :: (b :: _) as rest => Float.leb a b && nondecreasing rest
  | _ => true
  end.

(** The Progress signals as the window computes with them: a fraction
    that is finite is a rational. *)
Definition window_signal (sig : Signal Float.t) : option (Signal Q) :=
  match sig with
  | finished_signal output_path duration => Some (finished_signal output_path duration)
  | error_signal message => Some (error_signal message)
  | progress_signal progress filename =>
      q ← Float.to_Q progress; Some (progress_signal q filename)
  end.

(** ** Sample environments *)

(** A subprocess that prints nothing, exits with 0 and writes its output. *)
Definition quiet_run : ProcRun :=
  {| pr_events := []; pr_exit := 0; pr_writes_output := true |}.

(** A ten-second input and silent subprocesses that succeed. *)
Definition quiet_env : Env :=
  {| clock_start := 100; clock_end := 103.5; makedirs_error := None;
     makedirs_creates := ∅; remove_error := None;
     probe_stderr := "  Duration: 00:00:10.00, start: 0.000000, bitrate: 128 kb/s";
     merge_run := quiet_run; encode_run := quiet_run |}.

(** The merge arguments as C7 words them: one input. *)
Definition claimed_merge_args (input_file output_file : string) : list string :=
  ["-y"; "-i"; input_file; "-c:v"; "copy"; "-c:a"; "copy"; "-f"; "mpegts";
   output_file].

(** A worker as [__init__] leaves it, without normalization. *)
Definition sample_worker : FFmpegWorker :=
  init "/videos/clip one.mp4" "/out" false "ffmpeg" true.

(** The input alone: the direct path. *)
Definition direct_files : gset string := {[ "/videos/clip one.mp4" ]}.

(** The input and its audio segment: the sibling path. *)
Definition sibling_files : gset string :=
  {[ "/videos/clip one.mp4"; "/videos/clip one.m4a" ]}.

(** The merge reports a time past the probed duration, then the
    extraction starts again from an earlier time. *)
Definition overrun_env : Env :=
  {| clock_start := 100; clock_end := 130; makedirs_error := None;
     makedirs_creates := ∅; remove_error := None;
     probe_stderr := "  Duration: 00:00:10.00, start: 0.000000, bitrate: 128 kb/s";
     merge_run :=
       {| pr_events := [ReadyStdout "size=1024kB time=00:00:10.04 bitrate= 835.5kbits/s"];
          pr_exit := 0; pr_writes_output := true |};
     encode_run :=
       {| pr_events := [ReadyStdout "size=64kB time=00:00:05.00 bitrate=104.9kbits/s"];
          pr_exit := 0; pr_writes_output := true |} |}.

(** The probe prints no duration; the encode reports a time on stdout. *)
Definition unprobed_env : Env :=
  {| clock_start := 100; clock_end := 112; makedirs_error := None;
     makedirs_creates := ∅; remove_error := None;
     probe_stderr := "  Duration: N/A, start: 0.000000, bitrate: N/A";
     merge_run := quiet_run;
     encode_run :=
       {| pr_events := [ReadyStdout "size=64kB time=00:00:05.00 bitrate=104.9kbits/s"];
          pr_exit := 0; pr_writes_output := true |} |}.

(** The merge succeeds and the extraction exits with 1. *)
Definition failing_extract_env : Env :=
  {| clock_start := 100; clock_end := 112; makedirs_error := None;
     makedirs_creates := ∅; remove_error := None;
     probe_stderr := "  Duration: 00:00:10.00, start: 0.000000, bitrate: 128 kb/s";
     merge_run := quiet_run;
     encode_run := {| pr_events := []; pr_exit := 1; pr_writes_output := false |} |}.

(** A successful encode that writes its statistics line on stderr. *)
Definition chatty_env : Env :=
  {| clock_start := 100; clock_end := 112; makedirs_error := None;
     makedirs_creates := ∅; remove_error := None;
     probe_stderr := "  Duration: 00:00:10.00, start: 0.000000, bitrate: 128 kb/s";
     merge_run := quiet_run;
     encode_run :=
       {| pr_events :=
            [ReadyStderr "size=     235kB time=00:00:10.00 bitrate= 192.6kbits/s speed=41.2x"];
          pr_exit := 0; pr_writes_output := true |} |}.

(** [cancel()] arrives while the merge runs, its output already created. *)
Definition cancel_in_merge_env : Env :=
  {| clock_start := 100; clock_end := 104; makedirs_error := None;
     makedirs_creates := ∅; remove_error := None;
     probe_stderr := "  Duration: 00:00:10.00, start: 0.000000, bitrate: 128 kb/s";
     merge_run :=
       {| pr_events := [ReadyStdout "size=512kB time=00:00:03.00 bitrate= 835.5kbits/s";
                        CancelRequest];
          pr_exit := 9; pr_writes_output := true |};
     encode_run := quiet_run |}.

(** [n] times the digit 9. *)
Fixpoint nines (n : nat) : string :=
  match n with
  | O => EmptyString
  | S n' => String "9" (nines n')
  end.

(** The probe prints a duration whose hours are 305 digits long. *)
Definition long_hours_env : Env :=
  {| clock_start := 100; clock_end := 103.5; makedirs_error := None;
     makedirs_creates := ∅; remove_error := None;
     probe_stderr := "  Duration: " ++ nines 305 ++ ":00:00.00, start: 0.000000";
     merge_run := quiet_run; encode_run := quiet_run |}.

(** A worker whose output directory lies under the path of the audio
    segment of its input. *)
Definition nested_worker : FFmpegWorker :=
  init "/videos/clip one.mp4" "/videos/clip one.m4a/out" false "ffmpeg" true.

(** A worker whose output directory is the path of the merged
    intermediate of its input. *)
Definition clashing_worker : FFmpegWorker :=
  init "/videos/clip one.mp4" "/videos/clip one_merged.ts" false "ffmpeg" true.

(** The operating system refuses to remove the merged file. *)
Definition refusing_env : Env :=
  {| clock_start := 100; clock_end := 103.5; makedirs_error := None;
     makedirs_creates := ∅;
     remove_error := Some "[Errno 13] Permission denied: '/videos/clip one_merged.ts'";
     probe_stderr := "  Duration: 00:00:10.00, start: 0.000000, bitrate: 128 kb/s";
     merge_run := quiet_run; encode_run := quiet_run |}.

Definition is_stdout (ev : ProcEvent) : bool :=
  match ev with ReadyStdout _ => true | _ => false end.

(** ["sub" in s] *)
Fixpoint contains (sub s : string) : bool :=
  Py.startswith sub s ||
  match s with
  | EmptyString => false
  | String _ s' => contains sub s'
  end.

(** [has_video_stream], on what ffprobe printed on its standard output. *)
Definition has_video_stream (ffprobe_output : string) : bool :=
  contains "video" ffprobe_output.

(** [os.path.expanduser("~" + rest)] for [rest] that starts with a
    separator, when [HOME] is set: [HOME] without its trailing separators,
    then [rest]; the root if that is empty. *)
Definition expanduser_home (home rest : string) : string :=
  let path := rstrip_sep home ++ rest in
  if Py.truthy path then path else "/".

(** The [for] loop of [find_ffmpeg]: the first path that exists. *)
Fixpoint first_existing (possible_paths : list string) (files : gset string)
    : option string :=
  match possible_paths with
  | [] => None
  | path :: rest =>
      if bool_decide (path ∈ files) then Some path else first_existing rest files
  end.

(** [find_ffmpeg], given [os.getenv('HOME')]: building the list raises
    [TypeError] in [os.path.join] when [HOME] is not set. *)
Definition find_ffmpeg (home : option string) (files : gset string) : Res string :=
  match home with
  | None => Raise "expected str, bytes or os.PathLike object, not NoneType"
  | Some h =>
      let possible_paths :=
        [ "ffmpeg"; "/usr/local/bin/ffmpeg";
          expanduser_home h "/ffmpeg"; OsPath.join h "ffmpeg" ] in
      Ok (default "ffmpeg" (first_existing possible_paths files))
  end.

(** [__init__]: the tool is looked for first, the video-stream check
    comes last. *)
Definition __init__ (home : option string) (files : gset string)
    (ffprobe_output : string) (input output : string) (loudnorm : bool)
    : Res FFmpegWorker :=
  match find_ffmpeg home files with
  | Ok ffmpeg =>
      Ok {| input_path := input; output_dir := output; use_loudnorm := loudnorm;
            _ffmpeg_path := ffmpeg; _total_duration := Float.zero; _is_cancelled := false;
            _start_time := 0; _has_video := has_video_stream ffprobe_output;
            _process := None |}
  | Raise e => Raise e
  end.

(** ** The coordinator: [MainWindow] *)

Module MainWindow.

(** A row of the list widget: its text, whether it is selected and whether
    [cancel_conversion] has painted it red. *)
Record Item : Type := mkItem {
  text : string;
  selected : bool;
  red : bool
}.

(** The lines of the log pane, by what their f-strings are filled with. *)
Inductive LogLine : Type :=
| NeedInput                                  (* "❌ 请先选择输入文件！" *)
| NeedOutput                                 (* "❌ 请先选择输出目录！" *)
| Cancelled                                  (* "🛑 任务已取消" *)
| Converting (filename : string) (percent : Z)
| Success (output_path : string) (duration : Q)
| Failure (message : string).

(** The attributes of the window the slots read and write.  Each thread of
    [active_threads] stands with the worker [thread_workers] maps it to. *)
Record State : Type := mkState {
  file_list : list Item;
  file_list_enabled : bool;
  output_edit : string;
  loudnorm_checkbox : bool;
  progress_bar : Z;                  (* its value, range 0 .. 100 *)
  progress_format : option Z;        (* the number its text shows, once set *)
  status_text : list LogLine;        (* oldest first *)
  input_paths : list string;
  output_dir : string;
  use_loudnorm : bool;
  active_threads : list FFmpegWorker;
  total_files : Z;
  current_files_processed : Z;
  total_progress : Q;
  last_progress_update_time : Q;
  smoothing_factor : Q
}.

(** The window [__init__] builds. *)
Definition initial : State :=
  {| file_list := []; file_list_enabled := true; output_edit := "";
     loudnorm_checkbox := false; progress_bar := 0; progress_format := None;
     status_text := []; input_paths := []; output_dir := "";
     use_loudnorm := false; active_threads := []; total_files := 0;
     current_files_processed := 0; total_progress := 0;
     last_progress_update_time := 0; smoothing_factor := 0.8 |}.

Definition set_file_list (v : list Item) (s : State) : State :=
  {| file_list := v; file_list_enabled := file_list_enabled s;
     output_edit := output_edit s; loudnorm_checkbox := loudnorm_checkbox s;
     progress_bar := progress_bar s; progress_format := progress_format s;
     status_text := status_text s; input_paths := input_paths s;
     output_dir := output_dir s; use_loudnorm := use_loudnorm s;
     active_threads := active_threads s; total_files := total_files s;
     current_files_processed := current_files_processed s;
     total_progress := total_progress s;
     last_progress_update_time := last_progress_update_time s;
     smoothing_factor := smoothing_factor s |}.

Definition set_file_list_enabled (v : bool) (s : State) : State :=
  {| file_list := file_list s; file_list_enabled := v;
     output_edit := output_edit s; loudnorm_checkbox := loudnorm_checkbox s;
     progress_bar := progress_bar s; progress_format := progress_format s;
     status_text := status_text s; input_paths := input_paths s;
     output_dir := output_dir s; use_loudnorm := use_loudnorm s;
     active_threads := active_threads s; total_files := total_files s;
     current_files_processed := current_files_processed s;
     total_progress := total_progress s;
     last_progress_update_time := last_progress_update_time s;
     smoothing_factor := smoothing_factor s |}.

Definition set_output_edit (v : string) (s : State) : State :=
  {| file_list := file_list s; file_list_enabled := file_list_enabled s;
     output_edit := v; loudnorm_checkbox := loudnorm_checkbox s;
     progress_bar := progress_bar s; progress_format := progress_format s;
     status_text := status_text s; input_paths := input_paths s;
     output_dir := output_dir s; use_loudnorm := use_loudnorm s;
     active_threads := active_threads s; total_files := total_files s;
     current_files_processed := current_files_processed s;
     total_progress := total_progress s;
     last_progress_update_time := last_progress_update_time s;
     smoothing_factor := smoothing_factor s |}.

Definition set_loudnorm_checkbox (v : bool) (s : State) : State :=
  {| file_list := file_list s; file_list_enabled := file_list_enabled s;
     output_edit := output_edit s; loudnorm_checkbox := v;
     progress_bar := progress_bar s; progress_format := progress_format s;
     status_text := status_text s; input_paths := input_paths s;
     output_dir := output_dir s; use_loudnorm := use_loudnorm s;
     active_threads := active_threads s; total_files := total_files s;
     current_files_processed := current_files_processed s;
     total_progress := total_progress s;
     last_progress_update_time := last_progress_update_time s;
     smoothing_factor := smoothing_factor s |}.

Definition set_progress_bar (v : Z) (s : State) : State :=
  {| file_list := file_list s; file_list_enabled := file_list_enabled s;
     output_edit := output_edit s; loudnorm_checkbox := loudnorm_checkbox s;
     progress_bar := v; progress_format := progress_format s;
     status_text := status_text s; input_paths := input_paths s;
     output_dir := output_dir s; use_loudnorm := use_loudnorm s;
     active_threads := active_threads s; total_files := total_files s;
     current_files_processed := current_files_processed s;
     total_progress := total_progress s;
     last_progress_update_time := last_progress_update_time s;
     smoothing_factor := smoothing_factor s |}.

Definition set_progress_format (v : option Z) (s : State) : State :=
  {| file_list := file_list s; file_list_enabled := file_list_enabled s;
     output_edit := output_edit s; loudnorm_checkbox := loudnorm_checkbox s;
     progress_bar := progress_bar s; progress_format := v;
     status_text := status_text s; input_paths := input_paths s;
     output_dir := output_dir s; use_loudnorm := use_loudnorm s;
     active_threads := active_threads s; total_files := total_files s;
     current_files_processed := current_files_processed s;
     total_progress := total_progress s;
     last_progress_update_time := last_progress_update_time s;
     smoothing_factor := smoothing_factor s |}.

Definition set_status_text (v : list LogLine) (s : State) : State :=
  {| file_list := file_list s; file_list_enabled := file_list_enabled s;
     output_edit := output_edit s; loudnorm_checkbox := loudnorm_checkbox s;
     progress_bar := progress_bar s; progress_format := progress_format s;
     status_text := v; input_paths := input_paths s;
     output_dir := output_dir s; use_loudnorm := use_loudnorm s;
     active_threads := active_threads s; total_files := total_files s;
     current_files_processed := current_files_processed s;
     total_progress := total_progress s;
     last_progress_update_time := last_progress_update_time s;
     smoothing_factor := smoothing_factor s |}.

Definition set_input_paths (v : list string) (s : State) : State :=
  {| file_list := file_list s; file_list_enabled := file_list_enabled s;
     output_edit := output_edit s; loudnorm_checkbox := loudnorm_checkbox s;
     progress_bar := progress_bar s; progress_format := progress_format s;
     status_text := status_text s; input_paths := v;
     output_dir := output_dir s; use_loudnorm := use_loudnorm s;
     active_threads := active_threads s; total_files := total_files s;
     current_files_processed := current_files_processed s;
     total_progress := total_progress s;
     last_progress_update_time := last_progress_update_time s;
     smoothing_factor := smoothing_factor s |}.

Definition set_output_dir (v : string) (s : State) : State :=
  {| file_list := file_list s; file_list_enabled := file_list_enabled s;
     output_edit := output_edit s; loudnorm_checkbox := loudnorm_checkbox s;
     progress_bar := progress_bar s; progress_format := progress_format s;
     status_text := status_text s; input_paths := input_paths s;
     output_dir := v; use_loudnorm := use_loudnorm s;
     active_threads := active_threads s; total_files := total_files s;
     current_files_processed := current_files_processed s;
     total_progress := total_progress s;
     last_progress_update_time := last_progress_update_time s;
     smoothing_factor := smoothing_factor s |}.

Definition set_use_loudnorm (v : bool) (s : State) : State :=
  {| file_list := file_list s; file_list_enabled := file_list_enabled s;
     output_edit := output_edit s; loudnorm_checkbox := loudnorm_checkbox s;
     progress_bar := progress_bar s; progress_format := progress_format s;
     status_text := status_text s; input_paths := input_paths s;
     output_dir := output_dir s; use_loudnorm := v;
     active_threads := active_threads s; total_files := total_files s;
     current_files_processed := current_files_processed s;
     total_progress := total_progress s;
     last_progress_update_time := last_progress_update_time s;
     smoothing_factor := smoothing_factor s |}.

Definition set_active_threads (v : list FFmpegWorker) (s : State) : State :=
  {| file_list := file_list s; file_list_enabled := file_list_enabled s;
     output_edit := output_edit s; loudnorm_checkbox := loudnorm_checkbox s;
     progress_bar := progress_bar s; progress_format := progress_format s;
     status_text := status_text s; input_paths := input_paths s;
     output_dir := output_dir s; use_loudnorm := use_loudnorm s;
     active_threads := v; total_files := total_files s;
     current_files_processed := current_files_processed s;
     total_progress := total_progress s;
     last_progress_update_time := last_progress_update_time s;
     smoothing_factor := smoothing_factor s |}.

Definition set_total_files (v : Z) (s : State) : State :=
  {| file_list := file_list s; file_list_enabled := file_list_enabled s;
     output_edit := output_edit s; loudnorm_checkbox := loudnorm_checkbox s;
     progress_bar := progress_bar s; progress_format := progress_format s;
     status_text := status_text s; input_paths := input_paths s;
     output_dir := output_dir s; use_loudnorm := use_loudnorm s;
     active_threads := active_threads s; total_files := v;
     current_files_processed := current_files_processed s;
     total_progress := total_progress s;
     last_progress_update_time := last_progress_update_time s;
     smoothing_factor := smoothing_factor s |}.

Definition set_current_files_processed (v : Z) (s : State) : State :=
  {| file_list := file_list s; file_list_enabled := file_list_enabled s;
     output_edit := output_edit s; loudnorm_checkbox := loudnorm_checkbox s;
     progress_bar := progress_bar s; progress_format := progress_format s;
     status_text := status_text s; input_paths := input_paths s;
     output_dir := output_dir s; use_loudnorm := use_loudnorm s;
     active_threads := active_threads s; total_files := total_files s;
     current_files_processed := v; total_progress := total_progress s;
     last_progress_update_time := last_progress_update_time s;
     smoothing_factor := smoothing_factor s |}.

Definition set_total_progress (v : Q) (s : State) : State :=
  {| file_list := file_list s; file_list_enabled := file_list_enabled s;
     output_edit := output_edit s; loudnorm_checkbox := loudnorm_checkbox s;
     progress_bar := progress_bar s; progress_format := progress_format s;
     status_text := status_text s; input_paths := input_paths s;
     output_dir := output_dir s; use_loudnorm := use_loudnorm s;
     active_threads := active_threads s; total_files := total_files s;
     current_files_processed := current_files_processed s;
     total_progress := v;
     last_progress_update_time := last_progress_update_time s;
     smoothing_factor := smoothing_factor s |}.

Definition set_last_progress_update_time (v : Q) (s : State) : State :=
  {| file_list := file_list s; file_list_enabled := file_list_enabled s;
     output_edit := output_edit s; loudnorm_checkbox := loudnorm_checkbox s;
     progress_bar := progress_bar s; progress_format := progress_format s;
     status_text := status_text s; input_paths := input_paths s;
     output_dir := output_dir s; use_loudnorm := use_loudnorm s;
     active_threads := active_threads s; total_files := total_files s;
     current_files_processed := current_files_processed s;
     total_progress := total_progress s; last_progress_update_time := v;
     smoothing_factor := smoothing_factor s |}.

(** [status_text.append(line)] *)
Definition log_line (line : LogLine) (s : State) : State :=
  set_status_text (status_text s ++ [line])%list s.

(** [QProgressBar.setValue]: a value outside the range is ignored. *)
Definition setValue (value : Z) (s : State) : State :=
  if ((0 <=? value) && (value <=? 100))%Z then set_progress_bar value s else s.

(** [int(x)] of a float: towards zero. *)
Definition py_int (x : Q) : Z := Z.quot (Qnum x) (Zpos (Qden x)).

Definition Qltb (a b : Q) : bool := negb (Qle_bool b a).

(** [add_file_to_list] *)
Definition add_file_to_list (path : string) (s : State) : State :=
  let s := set_file_list
             (file_list s ++ [{| text := path; selected := false; red := false |}])%list s in
  set_input_paths (input_paths s ++ [path])%list s.

(** [dropEvent], on the local paths of the dropped urls. *)
Fixpoint dropEvent (isfile : string -> bool) (paths : list string) (s : State) : State :=
  match paths with
  | [] => s
  | path :: rest =>
      dropEvent isfile rest (if isfile path then add_file_to_list path s else s)
  end.

(** [select_input_files], on the paths the dialog returns. *)
Fixpoint select_input_files (file_paths : list string) (s : State) : State :=
  match file_paths with
  | [] => s
  | path :: rest => select_input_files rest (add_file_to_list path s)
  end.

(** [select_output_dir], on the path the dialog returns. *)
Definition select_output_dir (dir_path : string) (s : State) : State :=
  if Py.truthy dir_path
  then set_output_edit dir_path (set_output_dir dir_path s)
  else s.

Definition set_selected (b : bool) (it : Item) : Item :=
  {| text := text it; selected := b; red := red it |}.

(** [select_all_files] *)
Definition select_all_files (s : State) : State :=
  set_file_list (map (set_selected true) (file_list s)) s.

(** [select_none_files]: each row gets the opposite of its selection. *)
Definition select_none_files (s : State) : State :=
  set_file_list (map (fun it => set_selected (negb (selected it)) it) (file_list s)) s.

(** A click on one row of a list in multi-selection mode. *)
Fixpoint toggle_row (row : nat) (items : list Item) : list Item :=
  match items, row with
  | [], _ => []
  | it :: rest, O => set_selected (negb (selected it)) it :: rest
  | it :: rest, S n => it :: toggle_row n rest
  end.

(** [clear_files] *)
Definition clear_files (s : State) : State :=
  set_input_paths [] (set_file_list [] s).

(** [list.remove(x)]: without the first [x]; [None] is its [ValueError]. *)
Fixpoint list_remove (x : string) (l : list string) : option (list string) :=
  match l with
  | [] => None
  | y :: rest =>
      if String.eqb x y then Some rest
      else match list_remove x rest with
           | Some rest' => Some (y :: rest')
           | None => None
           end
  end.

(** The loop of [delete_selected_files] over the rows, the selected ones
    being taken in the order of the rows: the item leaves the widget, then
    its text leaves [input_paths]; a [ValueError] ends the loop there. *)
Fixpoint delete_rows (items : list Item) (paths : list string)
    : Res unit * list Item * list string :=
  match items with
  | [] => (Ok tt, [], paths)
  | it :: rest =>
      if selected it then
        match list_remove (text it) paths with
        | Some paths' => delete_rows rest paths'
        | None => (Raise "list.remove(x): x not in list", rest, paths)
        end
      else
        let '(r, rest', paths') := delete_rows rest paths in
        (r, it :: rest', paths')
  end.

(** [delete_selected_files] *)
Definition delete_selected_files (s : State) : Res unit * State :=
  let '(r, items, paths) := delete_rows (file_list s) (input_paths s) in
  (r, set_input_paths paths (set_file_list items s)).

(** The worker objects of [start_conversion], one per input path, in
    order; the first constructor that raises ends the loop. *)
Fixpoint make_workers (home : option string) (files : gset string)
    (ffprobe : string -> string) (output : string) (loudnorm : bool)
    (paths : list string) : Res unit * list FFmpegWorker :=
  match paths with
  | [] => (Ok tt, [])
  | input_path :: rest =>
      match __init__ home files (ffprobe input_path) input_path output loudnorm with
      | Ok worker =>
          let (r, workers) := make_workers home files ffprobe output loudnorm rest in
          (r, worker :: workers)
      | Raise e => (Raise e, [])
      end
  end.

(** [start_conversion]; [home], [files] and [ffprobe] are what the
    constructors of the workers find on the host. *)
Definition start_conversion (home : option string) (files : gset string)
    (ffprobe : string -> string) (s : State) : Res unit * State :=
  match input_paths s with
  | [] => (Ok tt, log_line NeedInput s)
  | _ =>
      if negb (Py.truthy (output_dir s)) then (Ok tt, log_line NeedOutput s)
      else
        let s := set_use_loudnorm (loudnorm_checkbox s) s in
        let s := setValue 0 s in
        let s := set_file_list_enabled false s in
        let s := set_active_threads [] s in
        let s := set_total_files (Z.of_nat (length (input_paths s))) s in
        let s := set_current_files_processed 0 s in
        let s := set_total_progress 0 s in
        let (r, workers) :=
          make_workers home files ffprobe (output_dir s) (use_loudnorm s)
                       (input_paths s) in
        (r, set_active_threads workers s)
  end.

(** [on_progress], [now] being what [time.time()] returns. *)
Definition on_progress (now : Q) (progress : Q) (filename : string) (s : State)
    : Res unit * State :=
  if Qltb (now - last_progress_update_time s) 0.1 then (Ok tt, s)
  else
    let s := set_last_progress_update_time now s in
    if (total_files s =? 0)%Z then (Raise "float division by zero", s)
    else
      let file_progress_contribution :=
        (progress / inject_Z (total_files s) * 100)%Q in
      let s := set_total_progress
                 (inject_Z (current_files_processed s * 100) / inject_Z (total_files s)
                  + file_progress_contribution)%Q s in
      let smoothed_progress :=
        (smoothing_factor s * inject_Z (progress_bar s)
         + (1 - smoothing_factor s) * total_progress s)%Q in
      let s := setValue (py_int smoothed_progress) s in
      let s := set_progress_format (Some (py_int smoothed_progress)) s in
      let percent := py_int (progress * 100) in
      (Ok tt, log_line (Converting filename percent) s).

(** [on_finished] *)
Definition on_finished (output_path : string) (duration : Q) (s : State)
    : Res unit * State :=
  let s := set_current_files_processed (current_files_processed s + 1) s in
  if (total_files s =? 0)%Z then (Raise "division by zero", s)
  else
    let s := set_total_progress
               (inject_Z (current_files_processed s) / inject_Z (total_files s) * 100)%Q
               s in
    let s := setValue (py_int (total_progress s)) s in
    let s := set_progress_format (Some (py_int (total_progress s))) s in
    (Ok tt, log_line (Success output_path duration) s).

(** [on_error] *)
Definition on_error (message : string) (s : State) : State :=
  let s := log_line (Failure message) s in
  let s := setValue 0 s in
  set_file_list_enabled true s.

(** The coordinator's own kill: only with a [_process] that is running. *)
Definition kill_if_running (w : FFmpegWorker) : FFmpegWorker :=
  match _process w with
  | Some p =>
      match state p with
      | Running => set_process (kill p) w
      | NotRunning => w
      end
  | None => w
  end.

(** [worker.cancel()], on the worker object alone. *)
Definition worker_cancel (w : FFmpegWorker) : Res unit * FFmpegWorker :=
  let (r, W) := cancel (start w ∅) in (r, self W).

(** The loop of [cancel_conversion] over the threads: what it returns and
    the worker objects afterwards.  An exception of [cancel] ends it. *)
Fixpoint cancel_workers (workers : list FFmpegWorker)
    : Res unit * list FFmpegWorker :=
  match workers with
  | [] => (Ok tt, [])
  | worker :: rest =>
      match worker_cancel (kill_if_running worker) with
      | (Ok _, worker') =>
          let (r, rest') := cancel_workers rest in (r, worker' :: rest')
      | (Raise e, worker') => (Raise e, worker' :: rest)
      end
  end.

(** [cancel_conversion] (and [closeEvent], which calls it): the window
    afterwards and the worker objects afterwards.  The two collections are
    cleared only when the loop has ended normally. *)
Definition cancel_conversion (s : State) : Res unit * State * list FFmpegWorker :=
  let s := set_file_list
             (map (fun it => {| text := text it; selected := selected it; red := true |})
                  (file_list s)) s in
  let s := log_line Cancelled s in
  let s := setValue 0 s in
  let s := set_file_list_enabled true s in
  match cancel_workers (active_threads s) with
  | (Ok _, workers) => (Ok tt, set_active_threads [] s, workers)
  | (Raise e, workers) => (Raise e, s, workers)
  end.

(** One slot call, with dispatch of a worker's signal. *)
Definition handle (now : Q) (sig : Signal Q) (s : State) : Res unit * State :=
  match sig with
  | progress_signal progress filename => on_progress now progress filename s
  | finished_signal output_path duration => on_finished output_path duration s
  | error_signal message => (Ok tt, on_error message s)
  end.

(** Signals handled one after the other, each at its time; an exception
    of a slot is printed and the next signal is handled all the same. *)
Fixpoint handle_all (timed : list (Q * Signal Q)) (s : State) : State :=
  match timed with
  | [] => s
  | (now, sig) :: rest => handle_all rest (snd (handle now sig s))
  end.

(** What happens to the window: the user's actions, signals of the
    workers, and the worker threads going on. *)
Inductive Op : Type :=
| DropEvent (isfile : string -> bool) (paths : list string)
| SelectInputFiles (file_paths : list string)
| SelectOutputDir (dir_path : string)
| ClickRow (row : nat)
| SetLoudnorm (checked : bool)
| SelectAll
| SelectNone
| Clear
| DeleteSelected
| StartConversion (home : option string) (files : gset string)
                  (ffprobe : string -> string)
| Signalled (now : Q) (sig : Signal Q)
| CancelConversion
| Worked (workers : list FFmpegWorker).

Definition step (op : Op) (s : State) : State :=
  match op with
  | DropEvent isfile paths => dropEvent isfile paths s
  | SelectInputFiles file_paths => select_input_files file_paths s
  | SelectOutputDir dir_path => select_output_dir dir_path s
  | ClickRow row => set_file_list (toggle_row row (file_list s)) s
  | SetLoudnorm checked => set_loudnorm_checkbox checked s
  | SelectAll => select_all_files s
  | SelectNone => select_none_files s
  | Clear => clear_files s
  | DeleteSelected => snd (delete_selected_files s)
  | StartConversion home files ffprobe => snd (start_conversion home files ffprobe s)
  | Signalled now sig => snd (handle now sig s)
  | CancelConversion => snd (fst (cancel_conversion s))
  | Worked workers =>
      if (length workers =? length (active_threads s))%nat
      then set_active_threads workers s else s
  end.

Definition run_ops (ops : list Op) (s : State) : State :=
  fold_left (fun s op => step op s) ops s.

End MainWindow.

(** The rows and [input_paths] hold the same paths, each as often. *)
Definition lists_agree (s : MainWindow.State) : Prop :=
  Permutation (map MainWindow.text (MainWindow.file_list s)) (MainWindow.input_paths s).

Definition unselected (it : MainWindow.Item) : bool := negb (MainWindow.selected it).

Definition two_rows : MainWindow.State :=
  MainWindow.step (MainWindow.ClickRow 0)
    (MainWindow.select_input_files ["/v/a.mp4"; "/v/b.mp4"] MainWindow.initial).

Definition running_worker : FFmpegWorker :=
  set_process {| state := Running; exitCode := 0; killed := false |} sample_worker.

Definition busy_window : MainWindow.State :=
  MainWindow.set_active_threads [running_worker; sample_worker; running_worker]
    MainWindow.initial.

Definition count_finished (timed : list (Q * Signal Q)) : Z :=
  Z.of_nat (length (List.filter (fun ts => is_finished (snd ts)) timed)).

Definition batch_of_two : MainWindow.State :=
  MainWindow.set_total_files 2 MainWindow.initial.

Definition first_signals : list (Q * Signal Q) :=
  [ (10.5, progress_signal 0.5 "a.mp4"); (11, finished_signal "/out/a.mp3" 3);
    (11.2, error_signal "⚠️ FFmpeg 输出: size=     235kB") ]%Q.

Definition ready_window : MainWindow.State :=
  MainWindow.select_output_dir "/out"
    (MainWindow.select_input_files ["/v/a.mp4"; "/v/b.mp4"] MainWindow.initial).


(** * Properties *)

(** ** The event loop *)

Ltac monad_unfold :=
  unfold mbind, M_bind, mret, M_ret, get_self, modify_self, modify_fs,
         emit, log, raise, lift, try_except, os_path_exists in *.

Lemma event_self_fields w ev :
  input_path (event_self w ev) = input_path w /\
  output_dir (event_self w ev) = output_dir w /\
  use_loudnorm (event_self w ev) = use_loudnorm w /\
  _ffmpeg_path (event_self w ev) = _ffmpeg_path w /\
  _total_duration (event_self w ev) = _total_duration w /\
  _start_time (event_self w ev) = _start_time w /\
  _is_cancelled (event_self w ev) = _is_cancelled w || is_cancel ev.
Proof.
  destruct ev; simpl; rewrite ?orb_false_r; try tauto.
  unfold cancelled_self; simpl.
  destruct (_process w) as [p|]; [destruct (state p)|]; simpl;
    rewrite ?orb_true_r; tauto.
Qed.

Lemma events_self_fields evs : forall w,
  let w' := fold_left event_self evs w in
  input_path w' = input_path w /\
  output_dir w' = output_dir w /\
  use_loudnorm w' = use_loudnorm w /\
  _ffmpeg_path w' = _ffmpeg_path w /\
  _total_duration w' = _total_duration w /\
  _start_time w' = _start_time w /\
  _is_cancelled w' = _is_cancelled w || existsb is_cancel evs.
Proof.
  induction evs as [|ev evs IH]; intros w; simpl.
  - rewrite orb_false_r; tauto.
  - specialize (IH (event_self w ev)); simpl in IH.
    destruct (event_self_fields w ev) as (E1 & E2 & E3 & E4 & E5 & E6 & E7).
    destruct IH as (I1 & I2 & I3 & I4 & I5 & I6 & I7).
    rewrite I1, I2, I3, I4, I5, I6, I7, E1, E2, E3, E4, E5, E6, E7.
    rewrite orb_assoc; tauto.
Qed.

(** Where the worker divides, the divisor is positive. *)
Lemma truediv_pos t D :
  Float.pos D = true -> Float.truediv t D = Ok (Float.div t D).
Proof.
  unfold Float.truediv. destruct D as [m e| |]; simpl; try discriminate; auto.
  intros H. apply Z.ltb_lt in H.
  destruct (m =? 0)%Z eqn:E; [apply Z.eqb_eq in E; lia|reflexivity].
Qed.

Lemma deliver_spec ev W :
  deliver ev W =
  (Ok tt, {| self := event_self (self W) ev; fs := fs W;
             trace := (trace W ++ map Emit
                         (chunk_signals (_total_duration (self W))
                            (OsPath.basename (input_path (self W))) ev))%list |}).
Proof.
  destruct W as [w f t]; destruct ev as [chunk|chunk|]; simpl.
  - unfold _read_stdout, chunk_time, chunk_token.
    destruct (Py.truthy (Py.strip chunk)); monad_unfold; simpl;
      [|rewrite app_nil_r; reflexivity].
    destruct (Re.search_time chunk) as [g|]; simpl;
      [|rewrite app_nil_r; reflexivity].
    destruct (Float.pos (_total_duration w)) eqn:Hpos; simpl.
    + destruct (_time_str_to_seconds g) as [t0|e]; simpl;
        [|rewrite app_nil_r; reflexivity].
      rewrite (truediv_pos _ _ Hpos). reflexivity.
    + destruct (_time_str_to_seconds g) as [t0|e]; simpl;
        rewrite app_nil_r; reflexivity.
  - unfold _read_stderr.
    destruct (Py.truthy (Py.strip chunk)); monad_unfold; simpl;
      rewrite ?app_nil_r; reflexivity.
  - unfold cancel, cancelled_self; monad_unfold; simpl.
    destruct (_process w) as [p|]; simpl; [destruct (state p)|]; simpl;
      rewrite app_nil_r; reflexivity.
Qed.

Lemma deliver_all_spec evs : forall W,
  deliver_all evs W =
  (Ok tt, {| self := fold_left event_self evs (self W); fs := fs W;
             trace := (trace W ++ map Emit
                         (event_signals (_total_duration (self W))
                            (OsPath.basename (input_path (self W))) evs))%list |}).
Proof.
  induction evs as [|ev evs IH]; intros W.
  - destruct W; simpl; unfold mret, M_ret; rewrite app_nil_r; reflexivity.
  - simpl deliver_all. unfold mbind, M_bind. rewrite deliver_spec, IH. simpl.
    destruct (event_self_fields (self W) ev) as (E1 & _ & _ & _ & E5 & _).
    rewrite E1, E5. unfold event_signals; simpl.
    rewrite map_app, app_assoc. reflexivity.
Qed.

(** ** Text: splitting and the time token *)

Lemma split_app_sep sep a b :
  no_char sep a = true ->
  Py.split sep (a ++ String sep b) = a :: Py.split sep b.
Proof.
  induction a as [|x a IH]; simpl; intros H.
  - rewrite Ascii.eqb_refl; reflexivity.
  - apply andb_true_iff in H as [Hx Ha].
    apply negb_true_iff in Hx. rewrite Hx, (IH Ha). reflexivity.
Qed.

Lemma split_no_sep sep a :
  no_char sep a = true -> Py.split sep a = [a].
Proof.
  induction a as [|x a IH]; simpl; intros H; [reflexivity|].
  apply andb_true_iff in H as [Hx Ha].
  apply negb_true_iff in Hx. rewrite Hx, (IH Ha). reflexivity.
Qed.

Lemma all_chars_impl (p q : ascii -> bool) s :
  (forall c, p c = true -> q c = true) ->
  Py.all_chars p s = true -> Py.all_chars q s = true.
Proof.
  intros Hpq; induction s as [|c s IH]; simpl; [reflexivity|].
  intros H; apply andb_true_iff in H as [Hc Hs].
  rewrite (Hpq _ Hc), (IH Hs); reflexivity.
Qed.

Lemma all_chars_app p a b :
  Py.all_chars p (a ++ b) = Py.all_chars p a && Py.all_chars p b.
Proof.
  induction a as [|c a IH]; simpl; [reflexivity|].
  rewrite IH, andb_assoc; reflexivity.
Qed.

Lemma digit_not_char c x :
  Py.is_digit x = true -> Py.is_digit c = false -> negb (Ascii.eqb x c) = true.
Proof.
  intros Hx Hc; apply negb_true_iff, Ascii.eqb_neq; congruence.
Qed.

Lemma digits_no_char c s :
  Py.is_digit c = false -> Py.all_chars Py.is_digit s = true -> no_char c s = true.
Proof.
  intros Hc; apply all_chars_impl; intros x Hx; exact (digit_not_char c x Hx Hc).
Qed.

Lemma is_digits_all s : Py.is_digits s = true -> Py.all_chars Py.is_digit s = true.
Proof. destruct s; simpl; [discriminate|auto]. Qed.

Lemma digit_value_nonneg c : Py.is_digit c = true -> (0 <= Py.digit_value c)%Z.
Proof.
  unfold Py.is_digit, Py.digit_value; intros H.
  apply andb_true_iff in H as [H _]. apply Nat.leb_le in H. lia.
Qed.

Lemma digits_value_nonneg s : forall acc,
  (0 <= acc)%Z -> Py.all_chars Py.is_digit s = true ->
  (0 <= Py.digits_value acc s)%Z.
Proof.
  induction s as [|c s IH]; simpl; intros acc Hacc H; [assumption|].
  apply andb_true_iff in H as [Hc Hs].
  apply IH; [|assumption]. pose proof (digit_value_nonneg c Hc). lia.
Qed.

Lemma string_app_nil_r (s : string) : s ++ "" = s.
Proof. induction s as [|c s IH]; simpl; [reflexivity|f_equal; exact IH]. Qed.

Lemma span_digits_spec s : forall d r,
  Re.span_digits s = (d, r) ->
  Py.all_chars Py.is_digit d = true /\ s = d ++ r.
Proof.
  induction s as [|c s IH]; simpl; intros d r H.
  - injection H as <- <-; split; reflexivity.
  - destruct (Py.is_digit c) eqn:Hc.
    + destruct (Re.span_digits s) as [d' r'].
      injection H as <- <-. destruct (IH d' r' eq_refl) as [Hd ->].
      simpl; rewrite Hc, Hd; split; reflexivity.
    + injection H as <- <-; split; reflexivity.
Qed.

Lemma strip_prefix_spec p : forall s r,
  Re.strip_prefix p s = Some r -> s = p ++ r.
Proof.
  induction p as [|a p IH]; simpl; intros s r H.
  - congruence.
  - destruct s as [|b s]; [discriminate|].
    destruct (Ascii.eqb a b) eqn:E; [|discriminate].
    apply Ascii.eqb_eq in E as ->. rewrite (IH _ _ H); reflexivity.
Qed.

Lemma match_digits1 p s m r :
  Re.match_items (Re.Digits1 :: p) s = Some (m, r) ->
  exists d m' r0,
    Py.is_digits d = true /\ Re.match_items p r0 = Some (m', r) /\ m = d ++ m'.
Proof.
  simpl. destruct (Re.span_digits s) as [d r0] eqn:S.
  apply span_digits_spec in S as [Hd _].
  destruct d as [|c d]; [discriminate|].
  destruct (Re.match_items p r0) as [[m' r']|] eqn:E; [|discriminate].
  intros H; injection H as <- <-. exists (String c d), m', r0. auto.
Qed.

Lemma match_lit l p s m r :
  Re.match_items (Re.Lit l :: p) s = Some (m, r) ->
  exists m' r0, Re.match_items p r0 = Some (m', r) /\ m = l ++ m'.
Proof.
  simpl. destruct (Re.strip_prefix l s) as [r0|]; [|discriminate].
  destruct (Re.match_items p r0) as [[m' r']|] eqn:E; [|discriminate].
  intros H; injection H as <- <-. eauto.
Qed.

(** The text the group [(\d+:\d+:\d+\.\d+)] matches: four runs of digits. *)
Lemma hms_group_shape s m r :
  Re.match_items Re.hms_group s = Some (m, r) ->
  exists d1 d2 d3 d4,
    m = d1 ++ ":" ++ d2 ++ ":" ++ d3 ++ "." ++ d4 /\
    Py.is_digits d1 = true /\ Py.is_digits d2 = true /\
    Py.is_digits d3 = true /\ Py.is_digits d4 = true.
Proof.
  unfold Re.hms_group; intros H.
  apply match_digits1 in H as (d1 & m1 & s1 & H1 & H & ->).
  apply match_lit in H as (m2 & s2 & H & ->).
  apply match_digits1 in H as (d2 & m3 & s3 & H2 & H & ->).
  apply match_lit in H as (m4 & s4 & H & ->).
  apply match_digits1 in H as (d3 & m5 & s5 & H3 & H & ->).
  apply match_lit in H as (m6 & s6 & H & ->).
  apply match_digits1 in H as (d4 & m7 & s7 & H4 & H & ->).
  simpl in H; injection H as <- <-.
  exists d1, d2, d3, d4. rewrite string_app_nil_r. auto.
Qed.

Lemma search_found pre group s : forall g,
  Re.search pre group s = Some g ->
  exists s' r, Re.match_items group s' = Some (g, r).
Proof.
  induction s as [|c s IH]; intros g; simpl.
  - destruct (Re.strip_prefix pre "") as [r0|]; [|discriminate].
    destruct (Re.match_items group r0) as [[m r]|] eqn:E; [|discriminate].
    intros H; injection H as <-; eauto.
  - destruct (match Re.strip_prefix pre (String c s) with
              | Some r => Re.match_items group r
              | None => None
              end) as [[m r]|] eqn:E.
    + intros H; injection H as <-.
      destruct (Re.strip_prefix pre (String c s)); [eauto|discriminate].
    + apply IH.
Qed.

Lemma float_digits d3 d4 :
  Py.is_digits d3 = true -> Py.is_digits d4 = true ->
  Py.float (d3 ++ "." ++ d4) =
  Ok (Float.round (Py.digits_value 0 (d3 ++ d4)) (10 ^ Z.of_nat (String.length d4))).
Proof.
  intros H3 H4. unfold Py.float.
  pose proof (is_digits_all _ H3) as A3. pose proof (is_digits_all _ H4) as A4.
  change ("." ++ d4) with (String "." d4).
  rewrite split_app_sep by (apply digits_no_char; [reflexivity|assumption]).
  rewrite split_no_sep by (apply digits_no_char; [reflexivity|assumption]).
  rewrite A3, A4. simpl.
  assert (Py.is_digits (d3 ++ d4) = true) as ->; [|reflexivity].
  destruct d3; [discriminate|]. simpl in *.
  rewrite all_chars_app. apply andb_true_iff in A3 as [-> ->]. rewrite A4. reflexivity.
Qed.

(** The text the time group matched is split in three at its colons. *)
Lemma hms_split d1 d2 d3 d4 :
  Py.is_digits d1 = true -> Py.is_digits d2 = true ->
  Py.is_digits d3 = true -> Py.is_digits d4 = true ->
  Py.split ":" (d1 ++ ":" ++ d2 ++ ":" ++ d3 ++ "." ++ d4) = [d1; d2; d3 ++ "." ++ d4].
Proof.
  intros H1 H2 H3 H4.
  pose proof (is_digits_all _ H1) as A1. pose proof (is_digits_all _ H2) as A2.
  pose proof (is_digits_all _ H3) as A3. pose proof (is_digits_all _ H4) as A4.
  change (":" ++ d2 ++ ":" ++ d3 ++ "." ++ d4)
    with (String ":" (d2 ++ String ":" (d3 ++ String "." d4))).
  rewrite split_app_sep by (apply digits_no_char; [reflexivity|assumption]).
  rewrite split_app_sep by (apply digits_no_char; [reflexivity|assumption]).
  rewrite split_no_sep; [reflexivity|].
  unfold no_char. rewrite all_chars_app. simpl.
  fold (no_char ":" d3). fold (no_char ":" d4).
  rewrite !digits_no_char by (reflexivity || assumption). reflexivity.
Qed.

(** ** The worker's methods, as state transformers *)

Lemma ran_fields pr w :
  input_path (ran pr w) = input_path w /\
  output_dir (ran pr w) = output_dir w /\
  use_loudnorm (ran pr w) = use_loudnorm w /\
  _ffmpeg_path (ran pr w) = _ffmpeg_path w /\
  _total_duration (ran pr w) = _total_duration w /\
  _start_time (ran pr w) = _start_time w /\
  _is_cancelled (ran pr w) = _is_cancelled w || existsb is_cancel (pr_events pr).
Proof.
  unfold ran; simpl.
  exact (events_self_fields (pr_events pr)
           (set_process {| state := Running; exitCode := 0; killed := false |} w)).
Qed.

Lemma ran_exitCode pr w :
  exists k, _process (ran pr w) =
            Some {| state := NotRunning; exitCode := pr_exit pr; killed := k |}.
Proof. unfold ran; simpl; eauto. Qed.

Lemma _run_ffmpeg_spec pr program arguments W :
  _run_ffmpeg pr (program :: arguments) W =
  (Ok tt, {| self := ran pr (self W);
             fs := wrote_file pr (List.last (program :: arguments) "") (fs W);
             trace := (trace W ++ ProcessStart program arguments
                       :: map Emit (event_signals (_total_duration (self W))
                                      (OsPath.basename (input_path (self W)))
                                      (pr_events pr)))%list |}).
Proof.
  unfold _run_ffmpeg, process_finished.
  unfold mbind at 1 2 3, M_bind, modify_self, log. simpl self.
  rewrite deliver_all_spec. unfold fs at 1, trace at 1, self at 1.
  monad_unfold. unfold ran, wrote_file. simpl.
  destruct (pr_writes_output pr); simpl; rewrite <- app_assoc; reflexivity.
Qed.

Lemma probe_duration_spec env W :
  probe_duration env W =
  match Re.search_duration (probe_stderr env) with
  | Some group1 =>
      match _time_str_to_seconds group1 with
      | Ok d =>
          (Ok tt, {| self := set_total_duration d (self W); fs := fs W;
                     trace := (trace W ++
                       [ProcessStart (Py.join " " [ _ffmpeg_path (self W); "-i";
                                                    input_path (self W) ]) []])%list |})
      | Raise e =>
          (Raise e, {| self := self W; fs := fs W;
                       trace := (trace W ++
                         [ProcessStart (Py.join " " [ _ffmpeg_path (self W); "-i";
                                                      input_path (self W) ]) []])%list |})
      end
  | None =>
      (Ok tt, {| self := self W; fs := fs W;
                 trace := (trace W ++
                   [ProcessStart (Py.join " " [ _ffmpeg_path (self W); "-i";
                                                input_path (self W) ]) []])%list |})
  end.
Proof.
  unfold probe_duration. monad_unfold. simpl.
  destruct (Re.search_duration (probe_stderr env)) as [g|] eqn:S; [|reflexivity].
  destruct (_time_str_to_seconds g); reflexivity.
Qed.

Lemma last_encode_args l src out d :
  List.last (d :: encode_args l src out) "" = out.
Proof. destruct l; reflexivity. Qed.

Lemma _run_audio_extract_spec pr src out W :
  _run_audio_extract pr src out W =
  (Ok tt, {| self := ran pr (self W);
             fs := wrote_file pr out (fs W);
             trace := (trace W ++ ProcessStart (_ffmpeg_path (self W))
                                    (encode_args (use_loudnorm (self W)) src out)
                       :: map Emit (event_signals (_total_duration (self W))
                                      (OsPath.basename (input_path (self W)))
                                      (pr_events pr)))%list |}).
Proof.
  unfold _run_audio_extract. unfold mbind at 1, M_bind, get_self.
  rewrite <- (last_encode_args (use_loudnorm (self W)) src out (_ffmpeg_path (self W))).
  destruct (use_loudnorm (self W)); apply _run_ffmpeg_spec.
Qed.

Lemma _run_direct_convert_spec pr src out W :
  _run_direct_convert pr src out W =
  (Ok tt, {| self := ran pr (self W);
             fs := wrote_file pr out (fs W);
             trace := (trace W ++ ProcessStart (_ffmpeg_path (self W))
                                    (encode_args (use_loudnorm (self W)) src out)
                       :: map Emit (event_signals (_total_duration (self W))
                                      (OsPath.basename (input_path (self W)))
                                      (pr_events pr)))%list |}).
Proof.
  unfold _run_direct_convert. unfold mbind at 1, M_bind, get_self.
  rewrite <- (last_encode_args (use_loudnorm (self W)) src out (_ffmpeg_path (self W))).
  destruct (use_loudnorm (self W)); apply _run_ffmpeg_spec.
Qed.

Lemma _run_merge_spec pr in0 in1 out W :
  _run_merge pr [in0; in1] out W =
  (Ok tt, {| self := ran pr (self W);
             fs := wrote_file pr out (fs W);
             trace := (trace W ++ ProcessStart (_ffmpeg_path (self W))
                                    (merge_args in0 in1 out)
                       :: map Emit (event_signals (_total_duration (self W))
                                      (OsPath.basename (input_path (self W)))
                                      (pr_events pr)))%list |}).
Proof.
  unfold _run_merge. unfold mbind at 1, M_bind, get_self.
  apply _run_ffmpeg_spec.
Qed.

Lemma job_probed_fields env w :
  input_path (job_probed env w) = input_path w /\
  output_dir (job_probed env w) = output_dir w /\
  use_loudnorm (job_probed env w) = use_loudnorm w /\
  _ffmpeg_path (job_probed env w) = _ffmpeg_path w /\
  _start_time (job_probed env w) = clock_start env /\
  _is_cancelled (job_probed env w) = _is_cancelled w.
Proof.
  unfold job_probed.
  destruct (Re.search_duration (probe_stderr env)) as [g|];
    [destruct (_time_str_to_seconds g)|]; simpl; tauto.
Qed.

Lemma os_remove_spec env p W :
  os_remove env p W =
  match remove_failure env p (fs W) with
  | None => (Ok tt, {| self := self W; fs := fs W ∖ {[ p ]};
                       trace := (trace W ++ [Remove p])%list |})
  | Some e => (Raise e, W)
  end.
Proof.
  unfold os_remove, remove_failure, isdir. monad_unfold.
  destruct (bool_decide (p ∈ fs W)); [|reflexivity].
  destruct (bool_decide (p ++ "/" ∈ fs W)); [reflexivity|].
  destruct (remove_error env); reflexivity.
Qed.

Ltac world_simpl :=
  cbn [self fs trace input_path output_dir use_loudnorm _ffmpeg_path
       _total_duration _is_cancelled _start_time _has_video _process
       set_start_time set_total_duration set_is_cancelled set_process
       negb fst snd app].

Lemma bind_ok {A B} (m : M A) (f : A -> M B) W a W' :
  m W = (Ok a, W') -> (m ≫= f) W = f a W'.
Proof. intros H; unfold mbind, M_bind; rewrite H; reflexivity. Qed.

Lemma process_exitCode_spec W pr w0 :
  self W = ran pr w0 -> process_exitCode W = (Ok (pr_exit pr), W).
Proof.
  intros H. unfold process_exitCode, get_self.
  erewrite bind_ok by reflexivity. rewrite H.
  destruct (ran_exitCode pr w0) as [k ->]. reflexivity.
Qed.

(** [run] never lets an exception out, and leaves the world of the view. *)
Lemma run_eq env w files :
  run env (start w files) = (Ok tt, run_view env w files).
Proof.
  unfold run, run_view, start.
  unfold try_except, mbind at 1 2 3, M_bind, modify_self, get_self, os_path_exists.
  world_simpl.
  destruct (bool_decide (input_path w ∈ files)); world_simpl; cbv iota.
  2: reflexivity.
  unfold mbind at 1, M_bind, os_makedirs.
  destruct (makedirs_error env) as [e|]; [reflexivity|].
  unfold mbind at 1 2, M_bind, log, modify_fs. world_simpl.
  unfold mbind at 1, M_bind. rewrite probe_duration_spec. world_simpl.
  pose proof (job_probed_fields env w) as (P1 & P2 & P3 & P4 & P5 & P6).
  unfold view_remove, view_emit, view_process, view_probed, job_signals,
    job_finished, job_exception, job_sibling, job_files, job_audio_file, job_merged_ts,
    job_output_path, job_probe, job_total, job_name, job_probe_error.
  unfold job_probed, job_started in *.
  destruct (Re.search_duration (probe_stderr env)) as [g|] eqn:Hg.
  1: destruct (_time_str_to_seconds g) as [D|e] eqn:HD; [|reflexivity].
  all: match goal with
       | |- context [set_total_duration ?D ?x] => set (wp := set_total_duration D x) in *
       | |- _ => set (wp := set_start_time (clock_start env) w) in *
       end.
  all: set (audio := (OsPath.splitext (input_path w)).1 ++ ".m4a").
  all: set (merged := (OsPath.splitext (input_path w)).1 ++ "_merged.ts").
  all: set (out := derive_output_path (input_path w) (output_dir w)).
  all: world_simpl.
  all: destruct (bool_decide (audio ∈ files ∪ made_by_makedirs env (output_dir w))).
  all: try (erewrite bind_ok by apply _run_merge_spec; world_simpl;
    unfold get_self; erewrite bind_ok by reflexivity; world_simpl;
    rewrite ?P1, ?P4;
    pose proof (ran_fields (merge_run env) wp) as (R1 & R2 & R3 & R4 & R5 & R6 & R7);
    destruct (_is_cancelled (ran (merge_run env) wp)); [reflexivity|];
    erewrite bind_ok by apply _run_audio_extract_spec; world_simpl;
    erewrite bind_ok by reflexivity; world_simpl;
    rewrite R1, R3, R4, R5, ?P1, ?P3, ?P4;
    pose proof (ran_fields (encode_run env) (ran (merge_run env) wp))
      as (_ & _ & _ & _ & _ & S6 & _);
    destruct (_is_cancelled (ran (encode_run env) (ran (merge_run env) wp)));
    [ rewrite os_remove_spec; world_simpl;
      destruct (remove_failure env merged _); reflexivity
    | erewrite bind_ok by (eapply process_exitCode_spec; reflexivity);
      destruct (pr_exit (encode_run env) =? 0)%Z; [|reflexivity];
      unfold emit, log; erewrite bind_ok by reflexivity; world_simpl;
      rewrite os_remove_spec; world_simpl;
      rewrite S6, R6, ?P5;
      destruct (remove_failure env merged _); reflexivity ]).
  all: erewrite bind_ok by apply _run_direct_convert_spec; world_simpl;
    unfold get_self; erewrite bind_ok by reflexivity; world_simpl;
    rewrite ?P1, ?P3, ?P4;
    pose proof (ran_fields (encode_run env) wp) as (_ & _ & _ & _ & _ & S6 & _);
    (destruct (_is_cancelled (ran (encode_run env) wp)); [reflexivity|]);
    erewrite bind_ok by (eapply process_exitCode_spec; reflexivity);
    (destruct (pr_exit (encode_run env) =? 0)%Z; [|reflexivity]);
    unfold emit, log; world_simpl; rewrite S6, ?P5; reflexivity.
Qed.

Lemma after_run_eq env w files : after_run env w files = run_view env w files.
Proof. unfold after_run; rewrite run_eq; reflexivity. Qed.

(** ** Rounding to the nearest float *)

Module FloatFacts.
Local Open Scope Z_scope.

Lemma div_cross n1 d1 n2 d2 :
  0 < d1 -> 0 < d2 -> n1 * d2 <= n2 * d1 -> n1 / d1 <= n2 / d2.
Proof.
  intros H1 H2 H. apply Z.div_le_lower_bound; [lia|].
  pose proof (Z.mul_div_le n1 d1 H1). nia.
Qed.

(** [rne] by its quotient and remainder. *)
Lemma rne_spec n d :
  0 < d ->
  exists q r, q = n / d /\ n = d * q + r /\ 0 <= r < d /\
    ((Float.rne n d = q /\ (2 * r < d \/ (2 * r = d /\ Z.even q = true))) \/
     (Float.rne n d = q + 1 /\ (d < 2 * r \/ (2 * r = d /\ Z.even q = false)))).
Proof.
  intros Hd. exists (n / d), (n mod d). split; [reflexivity|].
  split; [apply Z.div_mod; lia|]. split; [apply Z.mod_pos_bound; lia|].
  unfold Float.rne. destruct (2 * (n mod d) ?= d) eqn:E.
  - apply Z.compare_eq in E. destruct (Z.even (n / d)) eqn:Ev; [left|right]; auto.
  - apply Z.compare_lt_iff in E. left; auto.
  - apply Z.compare_gt_iff in E. right; auto.
Qed.

Lemma rne_mono n1 d1 n2 d2 :
  0 < d1 -> 0 < d2 -> n1 * d2 <= n2 * d1 -> Float.rne n1 d1 <= Float.rne n2 d2.
Proof.
  intros H1 H2 H.
  destruct (rne_spec n1 d1 H1) as (q1 & r1 & Q1 & E1 & B1 & C1).
  destruct (rne_spec n2 d2 H2) as (q2 & r2 & Q2 & E2 & B2 & C2).
  assert (Hq : q1 <= q2) by (subst q1 q2; apply div_cross; assumption).
  clear Q1 Q2.
  destruct (Z.eq_dec q1 q2) as [->|Hne].
  - assert (Hr : r1 * d2 <= r2 * d1) by (subst n1 n2; nia).
    destruct C1 as [[-> _]|[-> C1]]; destruct C2 as [[-> C2]|[-> _]]; try lia.
    exfalso. destruct C1 as [C1|[C1 Ev1]]; destruct C2 as [C2|[C2 Ev2]];
      try congruence; nia.
  - destruct C1 as [[-> _]|[-> _]]; destruct C2 as [[-> _]|[-> _]]; lia.
Qed.

Lemma rne_ge n d k : 0 < d -> k * d <= n -> k <= Float.rne n d.
Proof.
  intros Hd H. destruct (rne_spec n d Hd) as (q & r & _ & E & B & C).
  assert (k <= q) by (subst n; nia).
  destruct C as [[-> _]|[-> _]]; lia.
Qed.

Lemma rne_le n d k : 0 < d -> n <= k * d -> Float.rne n d <= k.
Proof.
  intros Hd H. destruct (rne_spec n d Hd) as (q & r & _ & E & B & C).
  assert (Hq : q <= k) by (subst n; nia).
  destruct (Z.eq_dec q k) as [->|Hne].
  - assert (r = 0) by (subst n; nia). subst r.
    destruct C as [[-> _]|[-> C]]; [lia|]. lia.
  - destruct C as [[-> _]|[-> _]]; lia.
Qed.

(** Well above the half, the next integer. *)
Lemma rne_gt n d k : 0 < d -> (2 * k + 1) * d < 2 * n -> k + 1 <= Float.rne n d.
Proof.
  intros Hd H. destruct (rne_spec n d Hd) as (q & r & _ & E & B & C).
  assert (Hq : k <= q) by (subst n; nia).
  destruct (Z.eq_dec q k) as [->|Hne].
  - destruct C as [[-> C]|[-> _]]; [|lia]. exfalso. subst n. nia.
  - destruct C as [[-> _]|[-> _]]; lia.
Qed.

Lemma rne_exact d k : 0 < d -> Float.rne (k * d) d = k.
Proof.
  intros Hd. apply Z.le_antisymm; [apply rne_le|apply rne_ge]; lia.
Qed.

Lemma round_eq n d :
  n <> 0 ->
  Float.round n d =
  Float.normal (Float.rne (n * 2 ^ 1074) (d * 2 ^ Float.expo (n * 2 ^ 1074) d))
               (Float.expo (n * 2 ^ 1074) d - 1074).
Proof.
  intros H. unfold Float.round, Float.expo.
  destruct (n =? 0) eqn:E; [apply Z.eqb_eq in E; contradiction|reflexivity].
Qed.

Lemma expo_nonneg N d : 0 <= Float.expo N d.
Proof. unfold Float.expo. lia. Qed.

Lemma expo_mono N1 d1 N2 d2 :
  0 < d1 -> 0 < d2 -> N1 * d2 <= N2 * d1 -> Float.expo N1 d1 <= Float.expo N2 d2.
Proof.
  intros H1 H2 H. unfold Float.expo.
  pose proof (Z.log2_le_mono _ _ (div_cross _ _ _ _ H1 H2 H)). lia.
Qed.

(** The mantissa is at most [2^53], and at least [2^52] from the second
    exponent on. *)
Lemma mantissa_bounds N d :
  0 <= N -> 0 < d ->
  let E := Float.expo N d in
  let m := Float.rne N (d * 2 ^ E) in
  0 <= m <= 2 ^ 53 /\ (0 < E -> 2 ^ 52 <= m).
Proof.
  intros HN Hd E m.
  assert (HE : 0 <= E) by apply expo_nonneg.
  assert (Hp : 0 < 2 ^ E) by (apply Z.pow_pos_nonneg; lia).
  assert (Hd' : 0 < d * 2 ^ E) by nia.
  set (q := N / d).
  assert (Hq : d * q <= N < d * (q + 1)).
  { unfold q. pose proof (Z.mul_div_le N d Hd).
    pose proof (Z.mul_succ_div_gt N d Hd). lia. }
  assert (Hq0 : 0 <= q) by (apply Z.div_pos; lia).
  split; [split|].
  - apply rne_ge; lia.
  - apply rne_le; [exact Hd'|].
    (* N < d (q+1) and q + 1 <= 2^(53+E) *)
    assert (Hlog : q + 1 <= 2 ^ 53 * 2 ^ E).
    { destruct (Z.eq_dec q 0) as [->|Hq1].
      - pose proof (Z.pow_pos_nonneg 2 53 ltac:(lia) ltac:(lia)). nia.
      - assert (0 < q) by lia.
        pose proof (Z.log2_spec q H) as [_ Hlt].
        rewrite <- Z.pow_add_r by lia.
        assert (Z.succ (Z.log2 q) <= 53 + E) by (unfold E, Float.expo; fold q; lia).
        pose proof (Z.pow_le_mono_r 2 _ _ ltac:(lia) H0). lia. }
    nia.
  - intros HEpos. apply rne_ge; [exact Hd'|].
    assert (EE : E = Z.log2 q - 52) by (unfold E, Float.expo in *; fold q in HEpos |- *; lia).
    assert (0 < q).
    { destruct (Z.eq_dec q 0) as [Hq1|Hq1]; [|lia].
      rewrite Hq1 in EE. simpl in EE. lia. }
    pose proof (Z.log2_spec q H) as [Hle _].
    assert (2 ^ 52 * 2 ^ E <= q).
    { rewrite <- Z.pow_add_r by lia. replace (52 + E) with (Z.log2 q) by lia. exact Hle. }
    nia.
Qed.

Lemma scale_nonneg m e : 0 <= m -> 0 <= Float.scale m e.
Proof.
  intros H. unfold Float.scale. apply Z.mul_nonneg_nonneg; [exact H|].
  apply Z.pow_nonneg. lia.
Qed.

(** [normal] keeps the value, or gives [inf] from [2^1024] on. *)
Lemma normal_cases m e :
  0 <= m <= 2 ^ 53 -> -1074 <= e ->
  (Float.normal m e = Float.Inf /\
   (971 < e \/ (m = 2 ^ 53 /\ e = 971))) \/
  (exists m' e', Float.normal m e = Float.Finite m' e' /\
                 Float.scale m' e' = Float.scale m e /\
                 0 <= m' < 2 ^ 53 /\ -1074 <= e' <= 971 /\
                 ((m' = m /\ e' = e) \/ (m = 2 ^ 53 /\ m' = 2 ^ 52 /\ e' = e + 1))).
Proof.
  intros Hm He. unfold Float.normal.
  destruct (m =? 2 ^ 53) eqn:Em.
  - apply Z.eqb_eq in Em. subst m.
    destruct (971 <? e + 1) eqn:Ee.
    + apply Z.ltb_lt in Ee. left. split; [reflexivity|]. lia.
    + apply Z.ltb_ge in Ee. right. exists (2 ^ 52), (e + 1).
      split; [reflexivity|]. split.
      * unfold Float.scale. rewrite <- !Z.pow_add_r by lia. f_equal. lia.
      * repeat split; lia.
  - apply Z.eqb_neq in Em.
    destruct (971 <? e) eqn:Ee.
    + apply Z.ltb_lt in Ee. left. split; [reflexivity|]. lia.
    + apply Z.ltb_ge in Ee. right. exists m, e.
      split; [reflexivity|]. split; [reflexivity|]. repeat split; lia.
Qed.

(** What [round] gives is in canonical form. *)
Lemma round_canonical n d : 0 <= n -> 0 < d -> Float.canonical (Float.round n d).
Proof.
  intros Hn Hd. destruct (Z.eq_dec n 0) as [->|Hn0].
  - simpl. repeat split; lia.
  - rewrite round_eq by exact Hn0.
    set (N := n * 2 ^ 1074).
    assert (HN : 0 <= N) by (unfold N; apply Z.mul_nonneg_nonneg; lia).
    destruct (mantissa_bounds N d HN Hd) as [Hm Hlow].
    pose proof (expo_nonneg N d) as HE.
    destruct (normal_cases _ (Float.expo N d - 1074) Hm ltac:(lia))
      as [[-> _]|(m' & e' & -> & Hs & Hm' & He' & Hc)]; simpl; auto.
    split; [exact Hm'|]. split; [exact He'|].
    destruct Hc as [[-> ->]|(_ & -> & _)]; [|left; lia].
    destruct (Z.eq_dec (Float.expo N d) 0) as [E0|E0]; [right; lia|left; apply Hlow; lia].
Qed.

Lemma round_not_nan n d : 0 <= n -> 0 < d -> Float.round n d <> Float.NaN.
Proof.
  intros Hn Hd. destruct (Z.eq_dec n 0) as [->|Hn0]; [discriminate|].
  rewrite round_eq by exact Hn0.
  assert (HN : 0 <= n * 2 ^ 1074) by (apply Z.mul_nonneg_nonneg; lia).
  destruct (mantissa_bounds _ d HN Hd) as [Hm _].
  pose proof (expo_nonneg (n * 2 ^ 1074) d) as HE.
  destruct (normal_cases _ (Float.expo (n * 2 ^ 1074) d - 1074) Hm ltac:(lia))
    as [[-> _]|(m' & e' & -> & _)]; discriminate.
Qed.

Lemma leb_zero x : Float.canonical x -> x <> Float.NaN -> Float.leb Float.zero x = true.
Proof.
  destruct x as [m e| |]; simpl; intros Hc Hn; [|reflexivity|congruence].
  apply Z.leb_le. destruct Hc as ((Hm & _) & _).
  change (Float.scale 0 (-1074)) with 0. apply scale_nonneg. exact Hm.
Qed.

(** Rounding keeps the order. *)
Lemma round_mono n1 d1 n2 d2 :
  0 <= n1 -> 0 < d1 -> 0 <= n2 -> 0 < d2 -> n1 * d2 <= n2 * d1 ->
  Float.leb (Float.round n1 d1) (Float.round n2 d2) = true.
Proof.
  intros Hn1 Hd1 Hn2 Hd2 H.
  destruct (Z.eq_dec n1 0) as [->|Hn1'].
  { apply leb_zero; [apply round_canonical|apply round_not_nan]; assumption. }
  assert (Hn2' : n2 <> 0) by nia.
  rewrite !round_eq by assumption.
  set (N1 := n1 * 2 ^ 1074). set (N2 := n2 * 2 ^ 1074).
  assert (Hp : 0 < 2 ^ 1074) by (apply Z.pow_pos_nonneg; lia).
  assert (HN1 : 0 <= N1) by (unfold N1; nia).
  assert (HN2 : 0 <= N2) by (unfold N2; nia).
  assert (HN : N1 * d2 <= N2 * d1) by (unfold N1, N2; nia).
  pose proof (expo_mono N1 d1 N2 d2 Hd1 Hd2 HN) as HE.
  pose proof (expo_nonneg N1 d1) as HE1.
  destruct (mantissa_bounds N1 d1 HN1 Hd1) as [Hm1 _].
  destruct (mantissa_bounds N2 d2 HN2 Hd2) as [Hm2 Hlow2].
  set (E1 := Float.expo N1 d1) in *. set (E2 := Float.expo N2 d2) in *.
  set (m1 := Float.rne N1 (d1 * 2 ^ E1)) in *.
  set (m2 := Float.rne N2 (d2 * 2 ^ E2)) in *.
  assert (Hsame : E1 = E2 -> m1 <= m2).
  { intros EE. unfold m1, m2. rewrite EE. 
    assert (0 < 2 ^ E2) by (apply Z.pow_pos_nonneg; lia).
    apply rne_mono; nia. }
  assert (Hval : Float.scale m1 (E1 - 1074) <= Float.scale m2 (E2 - 1074)).
  { unfold Float.scale. replace (E1 - 1074 + 1074) with E1 by lia.
    replace (E2 - 1074 + 1074) with E2 by lia.
    destruct (Z.eq_dec E1 E2) as [EE|EE].
    - rewrite <- EE. apply Z.mul_le_mono_nonneg_r; [apply Z.pow_nonneg; lia|auto].
    - assert (E1 < E2) by lia.
      assert (A : m1 * 2 ^ E1 <= 2 ^ 53 * 2 ^ E1)
        by (apply Z.mul_le_mono_nonneg_r; [apply Z.pow_nonneg; lia|lia]).
      assert (B : 2 ^ 52 * 2 ^ E2 <= m2 * 2 ^ E2)
        by (apply Z.mul_le_mono_nonneg_r; [apply Z.pow_nonneg; lia|apply Hlow2; lia]).
      rewrite <- Z.pow_add_r in A, B by lia.
      assert (2 ^ (53 + E1) <= 2 ^ (52 + E2)) by (apply Z.pow_le_mono_r; lia).
      lia. }
  destruct (normal_cases m2 (E2 - 1074) Hm2 ltac:(lia))
    as [[-> _]|(m2' & e2' & -> & Hs2 & Hb2 & He2 & Hc2)];
  destruct (normal_cases m1 (E1 - 1074) Hm1 ltac:(lia))
    as [[-> Hi1]|(m1' & e1' & -> & Hs1 & Hb1 & He1 & Hc1)]; simpl; try reflexivity.
  - exfalso. destruct Hi1 as [Hi1|[Hi1 Hi1']].
    + destruct Hc2 as [[_ ->]|(_ & _ & ->)]; lia.
    + assert (E1 = E2) by (destruct Hc2 as [[_ ->]|(_ & _ & ->)]; lia).
      specialize (Hsame H0).
      destruct Hc2 as [[-> ->]|(_ & _ & ->)]; lia.
  - apply Z.leb_le. rewrite Hs1, Hs2. exact Hval.
Qed.

(** A number over itself is one. *)
Lemma round_self n : 0 < n -> Float.round n n = Float.one.
Proof.
  intros Hn. rewrite round_eq by lia. unfold Float.expo.
  rewrite (Z.mul_comm n), Z.div_mul by lia.
  rewrite Z.log2_pow2 by lia.
  change (Z.max (1074 - 52) 0) with 1022.
  replace (2 ^ 1074 * n) with (2 ^ 52 * (n * 2 ^ 1022)).
  - rewrite rne_exact; [reflexivity|].
    assert (0 < 2 ^ 1022) by (apply Z.pow_pos_nonneg; lia). nia.
  - change (2 ^ 1074) with (2 ^ 52 * 2 ^ 1022). ring.
Qed.

(** [float(n)] does not overflow below [2^1023]. *)
Lemma of_Z_ok n :
  0 <= n < 2 ^ 1023 ->
  exists x, Float.of_Z n = Ok x /\ Float.canonical x /\ Float.is_finite x = true.
Proof.
  intros [Hn Hlt]. unfold Float.of_Z.
  pose proof (round_canonical n 1 Hn ltac:(lia)) as Hc.
  destruct (Z.eq_dec n 0) as [->|Hn0].
  { eexists; split; [reflexivity|]. split; [exact Hc|reflexivity]. }
  rewrite round_eq in * by exact Hn0.
  assert (HN : 0 <= n * 2 ^ 1074) by (apply Z.mul_nonneg_nonneg; lia).
  destruct (mantissa_bounds _ 1 HN ltac:(lia)) as [Hm _].
  assert (HE : 0 <= Float.expo (n * 2 ^ 1074) 1 <= 2044).
  { unfold Float.expo. rewrite Z.div_1_r, Z.log2_mul_pow2 by lia.
    assert (Z.log2 n < 1023) by (apply Z.log2_lt_pow2; lia). lia. }
  destruct (normal_cases _ (Float.expo (n * 2 ^ 1074) 1 - 1074) Hm ltac:(lia))
    as [[_ Hi]|(m' & e' & E & _)]; [lia|].
  rewrite E in *. eexists; split; [reflexivity|]. split; [exact Hc|reflexivity].
Qed.

Lemma scale_pos m e : 0 < m -> -1074 <= e -> 0 < Float.scale m e.
Proof.
  intros Hm He. unfold Float.scale.
  apply Z.mul_pos_pos; [exact Hm|]. apply Z.pow_pos_nonneg; lia.
Qed.

(** The quotient by a finite positive number is a number, and keeps the
    order. *)
Lemma div_not_nan t D :
  Float.canonical t -> Float.canonical D ->
  t <> Float.NaN -> Float.is_finite D = true -> Float.pos D = true ->
  Float.div t D <> Float.NaN.
Proof.
  destruct t as [m1 e1| |], D as [m2 e2| |]; simpl; try discriminate; try congruence.
  intros ((Hm1 & _) & _) (_ & (He2 & _) & _) _ _ Hp. apply Z.ltb_lt in Hp.
  apply round_not_nan; [apply scale_nonneg; lia|apply scale_pos; lia].
Qed.

Lemma div_mono t1 t2 D :
  Float.canonical t1 -> Float.canonical t2 -> Float.canonical D ->
  Float.is_finite D = true -> Float.pos D = true ->
  Float.leb t1 t2 = true -> Float.leb (Float.div t1 D) (Float.div t2 D) = true.
Proof.
  intros H1 H2 HD Hf Hp Hle.
  destruct D as [m e| |]; try discriminate.
  simpl in Hp. apply Z.ltb_lt in Hp. destruct HD as (_ & (He & _) & _).
  pose proof (scale_pos m e Hp He) as Hs.
  destruct t1 as [m1 e1| |], t2 as [m2 e2| |]; simpl in *; try discriminate; auto.
  - destruct H1 as ((Hm1 & _) & _), H2 as ((Hm2 & _) & _).
    apply Z.leb_le in Hle.
    apply round_mono; try (apply scale_nonneg; lia); try exact Hs. nia.
  - destruct H1 as ((Hm1 & _) & _).
    pose proof (round_not_nan (Float.scale m1 e1) (Float.scale m e)
                  (scale_nonneg _ _ Hm1) Hs).
    destruct (Float.round _ _); [reflexivity|reflexivity|congruence].
Qed.

Lemma div_self D :
  Float.canonical D -> Float.is_finite D = true -> Float.pos D = true ->
  Float.div D D = Float.one.
Proof.
  destruct D as [m e| |]; try discriminate. simpl.
  intros (_ & (He & _) & _) _ Hp. apply Z.ltb_lt in Hp.
  apply round_self, scale_pos; assumption.
Qed.

(** Two finite numbers in canonical form differ by a unit of the smaller
    one at least. *)
Lemma scale_gap m1 e1 m2 e2 :
  Float.canonical (Float.Finite m1 e1) -> Float.canonical (Float.Finite m2 e2) ->
  Float.scale m1 e1 < Float.scale m2 e2 ->
  Float.scale m1 e1 + 2 ^ (e1 + 1074) <= Float.scale m2 e2.
Proof.
  intros ((Hm1 & Hm1') & (He1 & _) & Hn1) ((Hm2 & Hm2') & (He2 & _) & Hn2).
  unfold Float.scale. intros Hlt.
  assert (Hp1 : 0 < 2 ^ (e1 + 1074)) by (apply Z.pow_pos_nonneg; lia).
  assert (Hp2 : 0 < 2 ^ (e2 + 1074)) by (apply Z.pow_pos_nonneg; lia).
  destruct (Z.le_gt_cases e1 e2) as [Hle|Hgt].
  - assert (E : 2 ^ (e2 + 1074) = 2 ^ (e2 - e1) * 2 ^ (e1 + 1074)).
    { rewrite <- Z.pow_add_r by lia. f_equal. lia. }
    assert (0 < 2 ^ (e2 - e1)) by (apply Z.pow_pos_nonneg; lia).
    rewrite E in *. set (u := 2 ^ (e1 + 1074)) in *. set (k := 2 ^ (e2 - e1)) in *.
    assert (m1 < m2 * k).
    { apply (Z.mul_lt_mono_pos_r u); [exact Hp1|]. lia. }
    assert ((m1 + 1) * u <= m2 * k * u) by (apply Z.mul_le_mono_nonneg_r; lia).
    lia.
  - exfalso.
    assert (Hm1n : 2 ^ 52 <= m1) by lia.
    assert (E : 2 ^ (e1 + 1074) = 2 ^ (e1 - e2 - 1) * (2 * 2 ^ (e2 + 1074))).
    { change 2 with (2 ^ 1) at 3. rewrite <- !Z.pow_add_r by lia. f_equal. lia. }
    assert (0 < 2 ^ (e1 - e2 - 1)) by (apply Z.pow_pos_nonneg; lia).
    rewrite E in Hlt. set (u := 2 ^ (e2 + 1074)) in *.
    set (k := 2 ^ (e1 - e2 - 1)) in *.
    change (2 ^ 53) with (2 * 2 ^ 52) in Hm2'.
    assert (m2 < 2 * m1) by lia.
    assert (m1 * (k * (2 * u)) >= m1 * 2 * u) by nia.
    nia.
Qed.

(** A time past the duration gives a fraction above one. *)
Lemma div_gt_one t D :
  Float.canonical t -> Float.canonical D ->
  Float.is_finite D = true -> Float.pos D = true ->
  Float.ltb D t = true -> Float.ltb Float.one (Float.div t D) = true.
Proof.
  intros Ht HD Hf Hp Hlt.
  destruct D as [m e| |]; try discriminate.
  destruct t as [m1 e1| |]; simpl in Hlt; try discriminate; [|reflexivity].
  apply Z.ltb_lt in Hlt. simpl in Hp. apply Z.ltb_lt in Hp.
  pose proof (scale_gap _ _ _ _ HD Ht Hlt) as Hgap.
  destruct HD as ((_ & Hm') & (He & _) & _).
  destruct Ht as ((Hm1 & _) & _).
  pose proof (scale_pos m e Hp He) as Hs.
  set (d := Float.scale m e) in *. set (n := Float.scale m1 e1) in *.
  assert (Hu : 0 < 2 ^ (e + 1074)) by (apply Z.pow_pos_nonneg; lia).
  assert (Hd : d < 2 ^ 53 * 2 ^ (e + 1074)) by (unfold d, Float.scale; nia).
  change (Float.div (Float.Finite m1 e1) (Float.Finite m e)) with (Float.round n d).
  rewrite round_eq by lia.
  assert (Hp1074 : 0 < 2 ^ 1074) by (apply Z.pow_pos_nonneg; lia).
  set (N := n * 2 ^ 1074).
  assert (HN : 0 <= N) by (unfold N; nia).
  destruct (mantissa_bounds N d HN Hs) as [Hmb Hlow].
  assert (HE : 1022 <= Float.expo N d).
  { unfold Float.expo.
    assert (2 ^ 1074 <= N / d) by (apply Z.div_le_lower_bound; unfold N; nia).
    pose proof (Z.log2_le_mono _ _ H). rewrite Z.log2_pow2 in H0 by lia. lia. }
  set (E := Float.expo N d) in *. set (mm := Float.rne N (d * 2 ^ E)) in *.
  assert (Hval : 2 ^ 52 * 2 ^ 1022 < mm * 2 ^ E).
  { destruct (Z.eq_dec E 1022) as [EE|EE].
    - assert (2 ^ 52 + 1 <= mm).
      { unfold mm. rewrite EE. apply rne_gt.
        - assert (0 < 2 ^ 1022) by (apply Z.pow_pos_nonneg; lia). nia.
        - unfold N. change (2 ^ 1074) with (2 ^ 52 * 2 ^ 1022).
          assert (0 < 2 ^ 1022) by (apply Z.pow_pos_nonneg; lia).
          assert ((2 * 2 ^ 52 + 1) * d < 2 * 2 ^ 52 * n).
          { change (2 * 2 ^ 52) with (2 ^ 53). nia. }
          nia. }
      rewrite EE. assert (0 < 2 ^ 1022) by (apply Z.pow_pos_nonneg; lia). nia.
    - assert (2 ^ 52 <= mm) by (apply Hlow; lia).
      assert (2 ^ 1022 < 2 ^ E) by (apply Z.pow_lt_mono_r; lia).
      assert (0 < 2 ^ 52) by (apply Z.pow_pos_nonneg; lia). nia. }
  destruct (normal_cases mm (E - 1074) Hmb ltac:(lia))
    as [[-> _]|(m' & e' & -> & Hs' & _)]; [reflexivity|].
  simpl. apply Z.ltb_lt. rewrite Hs'. unfold Float.scale.
  replace (E - 1074 + 1074) with E by lia.
  change (-52 + 1074) with 1022. exact Hval.
Qed.

(** Sums of floats in canonical form are in canonical form. *)
Lemma add_canonical x y :
  Float.canonical x -> Float.canonical y -> Float.canonical (Float.add x y).
Proof.
  destruct x as [m1 e1| |], y as [m2 e2| |]; simpl; auto.
  intros ((Hm1 & _) & _) ((Hm2 & _) & _).
  apply round_canonical.
  - pose proof (scale_nonneg m1 e1 Hm1). pose proof (scale_nonneg m2 e2 Hm2). lia.
  - apply Z.pow_pos_nonneg; lia.
Qed.

Lemma add_not_nan x y :
  Float.canonical x -> Float.canonical y ->
  x <> Float.NaN -> y <> Float.NaN -> Float.add x y <> Float.NaN.
Proof.
  destruct x as [m1 e1| |], y as [m2 e2| |]; simpl; try congruence.
  intros ((Hm1 & _) & _) ((Hm2 & _) & _) _ _.
  apply round_not_nan.
  - pose proof (scale_nonneg m1 e1 Hm1). pose proof (scale_nonneg m2 e2 Hm2). lia.
  - apply Z.pow_pos_nonneg; lia.
Qed.

End FloatFacts.

(** ** A missing input *)

(** C4: when the input path does not exist, [run] emits exactly one Error
    signal, no Finished signal and no Progress signal. *)
Theorem run_missing_input env w files :
  (input_path w ∉ files) ->
  emitted env w files = [error_signal ("❌ 输入文件不存在: " ++ input_path w)] /\
  length (List.filter is_error (emitted env w files)) = 1%nat /\
  List.filter is_finished (emitted env w files) = [] /\
  List.filter is_progress (emitted env w files) = [].
Proof.
  intros H. unfold emitted. rewrite after_run_eq. unfold run_view.
  rewrite (bool_decide_eq_false_2 _ H). simpl. auto.
Qed.

Lemma run_missing_input_witness :
  ("/videos/gone.mp4" ∉ (∅ : gset string)) /\
  length (List.filter is_error
            (emitted quiet_env (init "/videos/gone.mp4" "/out" false "ffmpeg" true) ∅))
  = 1%nat.
Proof.
  split; [apply not_elem_of_empty|].
  apply (run_missing_input quiet_env (init "/videos/gone.mp4" "/out" false "ffmpeg" true) ∅).
  apply not_elem_of_empty.
Defined.

(** ** Time strings *)

Lemma int_digits s n : Py.int s = Ok n -> Py.all_chars Py.is_digit s = true.
Proof.
  unfold Py.int. destruct (Py.is_digits s) eqn:E; [|discriminate].
  intros _. apply is_digits_all; assumption.
Qed.

Lemma int_nonneg s n : Py.int s = Ok n -> (0 <= n)%Z.
Proof.
  intros H. pose proof (int_digits s n H) as Hd. unfold Py.int in H.
  destruct (Py.is_digits s); [|discriminate].
  destruct (_ <? _)%nat; [discriminate|]. injection H as <-.
  apply digits_value_nonneg; [lia|exact Hd].
Qed.

Lemma split_all_no_char sep c s :
  Forall (fun part => no_char c part = true) (Py.split sep s) ->
  negb (Ascii.eqb sep c) = true -> no_char c s = true.
Proof.
  intros H Hsep. induction s as [|a s IH] in H |- *; [reflexivity|].
  simpl in H. unfold no_char; simpl. fold (no_char c s).
  destruct (Ascii.eqb a sep) eqn:E.
  - apply Ascii.eqb_eq in E as ->. rewrite Hsep. simpl.
    apply IH. inversion H; assumption.
  - destruct (Py.split sep s) as [|h t] eqn:S.
    + inversion H as [|? ? Hh _]; subst. unfold no_char in Hh; simpl in Hh.
      apply andb_true_iff in Hh as [-> _]. simpl. apply IH. constructor.
    + inversion H as [|? ? Hh Ht]; subst. unfold no_char in Hh; simpl in Hh.
      apply andb_true_iff in Hh as [-> Hh]. simpl. apply IH.
      constructor; assumption.
Qed.

Lemma float_no_colon s x : Py.float s = Ok x -> no_char ":" s = true.
Proof.
  unfold Py.float. intros H.
  apply (split_all_no_char "." ":"); [|reflexivity].
  destruct (Py.split "." s) as [|i [|f [|? ?]]]; try discriminate.
  - destruct (Py.is_digits i) eqn:E; [|discriminate].
    constructor; [|constructor].
    apply digits_no_char; [reflexivity|apply is_digits_all; assumption].
  - destruct (Py.all_chars Py.is_digit i) eqn:Ei; [|discriminate].
    destruct (Py.all_chars Py.is_digit f) eqn:Ef; [|discriminate].
    repeat constructor; apply digits_no_char; auto.
Qed.

(** What [float(s)] returns is a number in canonical form. *)
Lemma float_canonical s x :
  Py.float s = Ok x -> Float.canonical x /\ x <> Float.NaN.
Proof.
  unfold Py.float.
  destruct (Py.split "." s) as [|i [|f [|? ?]]]; try discriminate.
  - destruct (Py.is_digits i) eqn:E; [|discriminate].
    intros H; injection H as <-.
    assert (0 <= Py.digits_value 0 i)%Z
      by (apply digits_value_nonneg; [lia|apply is_digits_all; assumption]).
    split; [apply FloatFacts.round_canonical|apply FloatFacts.round_not_nan]; lia.
  - destruct (Py.all_chars Py.is_digit i && Py.all_chars Py.is_digit f
              && Py.is_digits (i ++ f)) eqn:E; [|discriminate].
    apply andb_true_iff in E as [_ E].
    intros H; injection H as <-.
    assert (0 <= Py.digits_value 0 (i ++ f))%Z
      by (apply digits_value_nonneg; [lia|apply is_digits_all; assumption]).
    assert (0 < 10 ^ Z.of_nat (String.length f))%Z by (apply Z.pow_pos_nonneg; lia).
    split; [apply FloatFacts.round_canonical|apply FloatFacts.round_not_nan]; lia.
Qed.

Lemma int_add_float_canonical n x y :
  (0 <= n)%Z -> Float.canonical x -> x <> Float.NaN ->
  Py.int_add_float n x = Ok y -> Float.canonical y /\ y <> Float.NaN.
Proof.
  intros Hn Hx Hx'. unfold Py.int_add_float, Float.of_Z.
  pose proof (FloatFacts.round_canonical n 1 Hn ltac:(lia)) as Hc.
  pose proof (FloatFacts.round_not_nan n 1 Hn ltac:(lia)) as Hc'.
  destruct (Float.round n 1) as [m e| |] eqn:E; [|discriminate|congruence].
  unfold mbind, Res_bind. intros H; injection H as <-.
  split.
  - exact (FloatFacts.add_canonical _ _ Hc Hx).
  - exact (FloatFacts.add_not_nan _ _ Hc Hx Hc' Hx').
Qed.

(** What [_time_str_to_seconds] returns is a number in canonical form:
    a finite one that is not negative, or [inf]. *)
Lemma time_str_canonical s x :
  _time_str_to_seconds s = Ok x -> Float.canonical x /\ x <> Float.NaN.
Proof.
  unfold _time_str_to_seconds.
  destruct (Py.split ":" s) as [|a [|b [|c [|? ?]]]].
  1, 2, 5: intros H; injection H as <-; split; [simpl; lia|discriminate].
  - destruct (Py.int a) as [minutes|] eqn:Em; [|discriminate].
    destruct (Py.float b) as [seconds|] eqn:Es; [|discriminate].
    unfold mbind, Res_bind.
    apply int_add_float_canonical; try (eapply float_canonical; eassumption).
    apply int_nonneg in Em. lia.
  - destruct (Py.int a) as [hours|] eqn:Eh; [|discriminate].
    destruct (Py.int b) as [minutes|] eqn:Em; [|discriminate].
    destruct (Py.float c) as [seconds|] eqn:Es; [|discriminate].
    unfold mbind, Res_bind.
    apply int_add_float_canonical; try (eapply float_canonical; eassumption).
    apply int_nonneg in Eh. apply int_nonneg in Em. lia.
Qed.

(** From [2^1024] on an [int] is too large for a [float]. *)
Lemma of_Z_overflow n :
  (2 ^ 1024 <= n)%Z -> Float.of_Z n = Raise "int too large to convert to float".
Proof.
  intros Hn. unfold Float.of_Z.
  assert (H1024 : (0 < 2 ^ 1024)%Z) by (apply Z.pow_pos_nonneg; lia).
  rewrite FloatFacts.round_eq by lia.
  assert (HN : (0 <= n * 2 ^ 1074)%Z) by (apply Z.mul_nonneg_nonneg; lia).
  destruct (FloatFacts.mantissa_bounds _ 1 HN ltac:(lia)) as [Hm _].
  assert (HE : (2046 <= Float.expo (n * 2 ^ 1074) 1)%Z).
  { unfold Float.expo. rewrite Z.div_1_r, Z.log2_mul_pow2 by lia.
    pose proof (Z.log2_le_mono _ _ Hn) as Hl. rewrite Z.log2_pow2 in Hl by lia. lia. }
  destruct (FloatFacts.normal_cases _ (Float.expo (n * 2 ^ 1074) 1 - 1074) Hm
              ltac:(lia)) as [[-> _]|(m' & e' & _ & _ & _ & He' & Hc)]; [reflexivity|].
  exfalso. destruct Hc as [[_ ->]|(_ & _ & ->)]; lia.
Qed.

Lemma hms_equation h m s hours minutes seconds :
  Py.int h = Ok hours -> Py.int m = Ok minutes -> Py.float s = Ok seconds ->
  _time_str_to_seconds (h ++ ":" ++ m ++ ":" ++ s) =
  (whole ← Float.of_Z (hours * 3600 + minutes * 60); Ok (Float.add whole seconds)).
Proof.
  intros Hh Hm Hs. unfold _time_str_to_seconds.
  change (":" ++ m ++ ":" ++ s) with (String ":" (m ++ String ":" s)).
  rewrite split_app_sep
    by (apply digits_no_char; [reflexivity|eapply int_digits; eassumption]).
  rewrite split_app_sep
    by (apply digits_no_char; [reflexivity|eapply int_digits; eassumption]).
  rewrite split_no_sep by (eapply float_no_colon; eassumption).
  rewrite Hh, Hm, Hs. reflexivity.
Qed.

(** C5, as amended: ["00:01:30.50"] is 90.5 seconds and ["1:02:03.25"]
    is 3723.25 seconds.  A string [H:M:S] of three parts whose fields
    [int] and [float] read is the [int] hours * 3600 + minutes * 60,
    made a [float], plus the [float] of the seconds, and a string [M:S]
    of two parts likewise with minutes * 60: each step is rounded to the
    nearest [float].  Making the [int] a [float] succeeds below [2^1023]
    and raises [OverflowError] from [2^1024] on. *)
Theorem time_str_to_seconds_spec :
  (exists x q, _time_str_to_seconds "00:01:30.50" = Ok x /\
               Float.to_Q x = Some q /\ (q == 90.5)%Q) /\
  (exists x q, _time_str_to_seconds "1:02:03.25" = Ok x /\
               Float.to_Q x = Some q /\ (q == 3723.25)%Q) /\
  (forall h m s hours minutes seconds,
      Py.int h = Ok hours -> Py.int m = Ok minutes ->
      Py.float s = Ok seconds ->
      _time_str_to_seconds (h ++ ":" ++ m ++ ":" ++ s) =
      (whole ← Float.of_Z (hours * 3600 + minutes * 60);
       Ok (Float.add whole seconds))) /\
  (forall m s minutes seconds,
      Py.int m = Ok minutes -> Py.float s = Ok seconds ->
      _time_str_to_seconds (m ++ ":" ++ s) =
      (whole ← Float.of_Z (minutes * 60); Ok (Float.add whole seconds))) /\
  (forall n, (0 <= n < 2 ^ 1023)%Z ->
      exists whole, Float.of_Z n = Ok whole /\ Float.is_finite whole = true) /\
  (forall n, (2 ^ 1024 <= n)%Z ->
      Float.of_Z n = Raise "int too large to convert to float").
Proof.
  split; [|split; [|split; [|split; [|split]]]].
  - eexists _, _; split; [vm_compute; reflexivity|]. split; reflexivity.
  - eexists _, _; split; [vm_compute; reflexivity|]. split; reflexivity.
  - apply hms_equation.
  - intros m s minutes seconds Hm Hs.
    unfold _time_str_to_seconds.
    change (":" ++ s) with (String ":" s).
    rewrite split_app_sep
      by (apply digits_no_char; [reflexivity|eapply int_digits; eassumption]).
    rewrite split_no_sep by (eapply float_no_colon; eassumption).
    rewrite Hm, Hs. reflexivity.
  - intros n Hn. destruct (FloatFacts.of_Z_ok n Hn) as (x & E & _ & Hf). eauto.
  - apply of_Z_overflow.
Qed.

(** C5, against the claim as it is worded: a string of three parts
    whose hours are 305 digits long does not parse to a number, it
    raises; and ["0:01:59.99"] parses to a number that is neither 119.99
    nor the [float] nearest to it. *)
Lemma time_str_to_seconds_counterexample :
  (exists hours, Py.int (nines 305) = Ok hours) /\
  Py.int "00" = Ok 0%Z /\
  (exists seconds, Py.float "00.0" = Ok seconds) /\
  _time_str_to_seconds (nines 305 ++ ":" ++ "00" ++ ":" ++ "00.0")
  = Raise "int too large to convert to float" /\
  (exists x q, _time_str_to_seconds "0:01:59.99" = Ok x /\
               Float.to_Q x = Some q /\ ~ (q == 119.99)%Q /\
               Py.float "119.99" <> Ok x).
Proof.
  split; [eexists; vm_compute; reflexivity|].
  split; [reflexivity|].
  split; [eexists; vm_compute; reflexivity|].
  split; [vm_compute; reflexivity|].
  eexists _, _. split; [vm_compute; reflexivity|]. split; [reflexivity|].
  split; [intros H; vm_compute in H; discriminate H|].
  intros H; vm_compute in H; discriminate H.
Qed.

(** ** Paths *)

Lemma rsplit_char_some c s : forall pre post,
  OsPath.rsplit_char c s = Some (pre, post) ->
  s = pre ++ String c post /\ no_char c post = true.
Proof.
  induction s as [|a s IH]; simpl; intros pre post H; [discriminate|].
  destruct (OsPath.rsplit_char c s) as [[pre' post']|] eqn:E.
  - injection H as <- <-. destruct (IH _ _ eq_refl) as [-> Hn]. auto.
  - destruct (Ascii.eqb a c) eqn:Ea; [|discriminate].
    injection H as <- <-. apply Ascii.eqb_eq in Ea as ->. split; [reflexivity|].
    clear IH. induction s as [|b s IHs]; [reflexivity|].
    simpl in E. destruct (OsPath.rsplit_char c s) as [[? ?]|]; [discriminate|].
    destruct (Ascii.eqb b c) eqn:Eb; [discriminate|].
    unfold no_char; simpl. rewrite Eb. simpl. apply IHs; reflexivity.
Qed.

Lemma rsplit_char_none c s :
  OsPath.rsplit_char c s = None -> no_char c s = true.
Proof.
  induction s as [|a s IH]; simpl; [reflexivity|].
  destruct (OsPath.rsplit_char c s) as [[? ?]|]; [discriminate|].
  destruct (Ascii.eqb a c) eqn:Ea; [discriminate|].
  intros _. unfold no_char; simpl. rewrite Ea. simpl. apply IH; reflexivity.
Qed.

Lemma rsplit_no_char c s :
  no_char c s = true -> OsPath.rsplit_char c s = None.
Proof.
  induction s as [|a s IH]; simpl; [reflexivity|].
  unfold no_char; simpl. intros H. apply andb_true_iff in H as [Ha Hs].
  rewrite (IH Hs). apply negb_true_iff in Ha. rewrite Ha. reflexivity.
Qed.

Lemma rsplit_char_app c pre post :
  no_char c post = true ->
  OsPath.rsplit_char c (pre ++ String c post) = Some (pre, post).
Proof.
  intros H. induction pre as [|a pre IH]; simpl.
  - rewrite (rsplit_no_char _ _ H), Ascii.eqb_refl. reflexivity.
  - rewrite IH. reflexivity.
Qed.

Lemma basename_no_sep p : no_char "/" (OsPath.basename p) = true.
Proof.
  unfold OsPath.basename.
  destruct (OsPath.rsplit_char "/" p) as [[pre post]|] eqn:E.
  - apply rsplit_char_some in E as [_ H]; exact H.
  - apply rsplit_char_none; exact E.
Qed.

Lemma splitext_basename p :
  OsPath.splitext (OsPath.basename p) = OsPath.splitext_name (OsPath.basename p).
Proof.
  unfold OsPath.splitext, OsPath.dirprefix.
  assert (OsPath.basename (OsPath.basename p) = OsPath.basename p) as ->.
  { unfold OsPath.basename at 1.
    rewrite (rsplit_no_char _ _ (basename_no_sep p)). reflexivity. }
  rewrite (rsplit_no_char _ _ (basename_no_sep p)).
  destruct (OsPath.splitext_name (OsPath.basename p)); reflexivity.
Qed.

(** What [splitext] calls an extension: nothing, or a dot and a text
    without a dot. *)
Lemma splitext_name_spec name :
  name = (OsPath.splitext_name name).1 ++ (OsPath.splitext_name name).2 /\
  ((OsPath.splitext_name name).2 = ""
   \/ exists e, (OsPath.splitext_name name).2 = String "." e /\ no_char "." e = true).
Proof.
  unfold OsPath.splitext_name.
  destruct (OsPath.rsplit_char "." name) as [[root ext]|] eqn:E.
  - apply rsplit_char_some in E as [-> He].
    destruct (Py.all_chars (Ascii.eqb ".") root); simpl.
    + rewrite string_app_nil_r; auto.
    + split; [reflexivity|]. right; eauto.
  - simpl. rewrite string_app_nil_r; auto.
Qed.

Lemma join_relative a b :
  Py.startswith "/" b = false ->
  OsPath.join a b =
  if Py.truthy a && negb (Py.endswith_char "/" a) then a ++ "/" ++ b else a ++ b.
Proof.
  intros H. unfold OsPath.join. rewrite H.
  destruct (Py.truthy a), (Py.endswith_char "/" a); reflexivity.
Qed.

Lemma mp3_name_relative stem :
  no_char "/" stem = true -> Py.startswith "/" (stem ++ ".mp3") = false.
Proof.
  destruct stem as [|c stem]; [reflexivity|].
  unfold no_char; cbn [Py.all_chars]. intros H. apply andb_true_iff in H as [H _].
  apply negb_true_iff in H.
  change (Ascii.eqb "/" c && Py.startswith "" (stem ++ ".mp3") = false).
  rewrite Ascii.eqb_sym, H. reflexivity.
Qed.

(** C6: the output path is the output directory joined with the input's
    file name whose extension is replaced by [.mp3], whatever characters
    the name is made of; ["clip one.mp4"] gives ["clip one.mp3"] there. *)
Theorem derive_output_path_spec :
  (forall input output, exists stem ext,
      OsPath.basename input = stem ++ ext /\
      (ext = "" \/ exists e, ext = String "." e /\ no_char "." e = true) /\
      derive_output_path input output = OsPath.join output (stem ++ ".mp3") /\
      derive_output_path input output =
        (if Py.truthy output && negb (Py.endswith_char "/" output)
         then output ++ "/" ++ stem ++ ".mp3" else output ++ stem ++ ".mp3")) /\
  (forall dir stem e output,
      dir = "" \/ (exists d, dir = d ++ "/") ->
      no_char "/" stem = true -> Py.all_chars (Ascii.eqb ".") stem = false ->
      no_char "/" e = true -> no_char "." e = true ->
      derive_output_path (dir ++ stem ++ "." ++ e) output =
      OsPath.join output (stem ++ ".mp3")) /\
  derive_output_path "clip one.mp4" "/out" = "/out/clip one.mp3" /\
  derive_output_path "/videos/2024.06/clip one.mp4" "/music/out/" =
    "/music/out/clip one.mp3".
Proof.
  split; [|split; [|split; reflexivity]].
  - intros input output. unfold derive_output_path.
    rewrite splitext_basename.
    destruct (splitext_name_spec (OsPath.basename input)) as [Hname Hext].
    exists (OsPath.splitext_name (OsPath.basename input)).1,
           (OsPath.splitext_name (OsPath.basename input)).2.
    split; [exact Hname|]. split; [exact Hext|]. split; [reflexivity|].
    apply join_relative, mp3_name_relative.
    pose proof (basename_no_sep input) as Hb. rewrite Hname in Hb.
    unfold no_char in Hb. rewrite all_chars_app in Hb.
    apply andb_true_iff in Hb as [Hb _]. exact Hb.
  - intros dir stem e output Hdir Hstem Hdots He1 He2.
    assert (Hname : no_char "/" (stem ++ "." ++ e) = true).
    { unfold no_char. rewrite all_chars_app. fold (no_char "/" stem). rewrite Hstem.
      simpl. exact He1. }
    assert (Hbase : OsPath.basename (dir ++ stem ++ "." ++ e) = stem ++ "." ++ e).
    { unfold OsPath.basename. destruct Hdir as [-> | [d ->]].
      - change ("" ++ stem ++ "." ++ e) with (stem ++ "." ++ e).
        rewrite (rsplit_no_char _ _ Hname). reflexivity.
      - replace ((d ++ "/") ++ stem ++ "." ++ e)
          with (d ++ String "/" (stem ++ "." ++ e)).
        + rewrite (rsplit_char_app _ _ _ Hname). reflexivity.
        + clear. induction d as [|c d IH]; simpl; [reflexivity|f_equal; exact IH]. }
    unfold derive_output_path. rewrite Hbase.
    unfold OsPath.splitext, OsPath.basename, OsPath.dirprefix.
    rewrite (rsplit_no_char _ _ Hname).
    unfold OsPath.splitext_name.
    change ("." ++ e) with (String "." e).
    rewrite (rsplit_char_app _ _ _ He2), Hdots. reflexivity.
Qed.

(** ** Reading traces *)

Lemma signals_app t1 t2 : signals (t1 ++ t2) = (signals t1 ++ signals t2)%list.
Proof.
  induction t1 as [|a t1 IH]; [reflexivity|].
  destruct a; simpl; rewrite IH; reflexivity.
Qed.

Lemma signals_emit sigs : signals (map Emit sigs) = sigs.
Proof. induction sigs as [|s sigs IH]; simpl; [|rewrite IH]; reflexivity. Qed.

Lemma starts_app t1 t2 : starts (t1 ++ t2) = (starts t1 ++ starts t2)%list.
Proof. apply flat_map_app. Qed.

Lemma starts_emit sigs : starts (map Emit sigs) = [].
Proof. induction sigs as [|s sigs IH]; simpl; [reflexivity|exact IH]. Qed.

Lemma removed_app t1 t2 : removed (t1 ++ t2) = (removed t1 ++ removed t2)%list.
Proof. apply flat_map_app. Qed.

Lemma removed_emit sigs : removed (map Emit sigs) = [].
Proof. induction sigs as [|s sigs IH]; simpl; [reflexivity|exact IH]. Qed.

Ltac view_unfold :=
  unfold view_remove, view_emit, view_process, view_probed in *;
  cbn [self fs trace] in *.

Ltac trace_simpl :=
  repeat (rewrite ?signals_app, ?starts_app, ?removed_app;
          cbn [signals starts removed flat_map app];
          rewrite ?signals_emit, ?starts_emit, ?removed_emit, ?app_nil_r).

Lemma flag_merge env w :
  _is_cancelled (ran (merge_run env) (job_probed env w)) = cancelled_in_merge env w.
Proof.
  destruct (ran_fields (merge_run env) (job_probed env w)) as (_&_&_&_&_&_& ->).
  destruct (job_probed_fields env w) as (_&_&_&_&_& ->). reflexivity.
Qed.

Lemma flag_extract env w :
  _is_cancelled (ran (encode_run env) (ran (merge_run env) (job_probed env w)))
  = cancelled_in_extract env w.
Proof.
  destruct (ran_fields (encode_run env) (ran (merge_run env) (job_probed env w)))
    as (_&_&_&_&_&_& ->).
  rewrite flag_merge. reflexivity.
Qed.

Lemma flag_direct env w :
  _is_cancelled (ran (encode_run env) (job_probed env w)) = cancelled_in_direct env w.
Proof.
  destruct (ran_fields (encode_run env) (job_probed env w)) as (_&_&_&_&_&_& ->).
  destruct (job_probed_fields env w) as (_&_&_&_&_& ->). reflexivity.
Qed.

Ltac use_flags :=
  repeat match goal with
         | H : cancelled_in_merge _ _ = _ |- _ => rewrite H
         | H : cancelled_in_extract _ _ = _ |- _ => rewrite H
         | H : cancelled_in_direct _ _ = _ |- _ => rewrite H
         end.

(** Every way through [run]: a missing input, a failing [makedirs], a
    probed duration that cannot be read, the sibling path (cancelled by
    the end of the merge; cancelled by the end of the extraction; exit
    code zero; another exit code) and the direct path. *)
Ltac run_cases env w files :=
  unfold emitted; rewrite ?after_run_eq; unfold run_view;
  destruct (bool_decide (input_path w ∈ files)) eqn:Hin; cbn [negb];
  [ destruct (makedirs_error env) as [exc|] eqn:Hmk;
    [ | destruct (job_probe_error env) as [pexc|] eqn:Hprobe;
        [ view_unfold
        | destruct (job_sibling env w files) eqn:Hsib; cbv zeta; view_unfold;
          rewrite ?flag_extract, ?flag_merge, ?flag_direct;
          fold (files_after_extract env w files);
          [ destruct (cancelled_in_merge env w) eqn:Hc1;
            [ | destruct (cancelled_in_extract env w) eqn:Hc2;
                [ destruct (remove_failure env (job_merged_ts w) _) as [rexc|] eqn:Hrm
                | destruct (pr_exit (encode_run env) =? 0)%Z eqn:Hexit;
                  [ destruct (remove_failure env (job_merged_ts w) _) as [rexc|] eqn:Hrm
                  | ] ] ]
          | destruct (cancelled_in_direct env w) eqn:Hc2;
            [ | destruct (pr_exit (encode_run env) =? 0)%Z eqn:Hexit ] ] ] ]
  | ];
  cbn [self fs trace]; rewrite ?flag_extract, ?flag_merge, ?flag_direct;
  use_flags; trace_simpl.

(** ** The command lines *)

(** C7, as amended: the merge is started with
    [-y -i <in> -i <audio segment> -c:v copy -c:a copy -f mpegts <out>],
    two inputs; the encode with
    [-y -i <in> -vn -ar 44100 -ac 2 -b:a 192k <out>], and [-af loudnorm]
    comes before the output path exactly when normalization is asked for.
    Nothing else is started but the probe; when the input exists, the
    output directory is made and the probed duration is read, the encode
    of the input follows the probe if there is no audio segment, and the
    merge follows it if there is one. *)
Theorem invocation_arguments env w files :
  let out := derive_output_path (input_path w) (output_dir w) in
  let stem := fst (OsPath.splitext (input_path w)) in
  let probe := (Py.join " " [ _ffmpeg_path w; "-i"; input_path w ], []) in
  let merge :=
    (_ffmpeg_path w,
     ["-y"; "-i"; input_path w; "-i"; stem ++ ".m4a";
      "-c:v"; "copy"; "-c:a"; "copy"; "-f"; "mpegts"; stem ++ "_merged.ts"]) in
  let encode src :=
    (_ffmpeg_path w,
     if use_loudnorm w
     then ["-y"; "-i"; src; "-vn"; "-ar"; "44100"; "-ac"; "2"; "-b:a"; "192k";
           "-af"; "loudnorm"; out]
     else ["-y"; "-i"; src; "-vn"; "-ar"; "44100"; "-ac"; "2"; "-b:a"; "192k";
           out]) in
  let started := starts (trace (after_run env w files)) in
  (started = [] \/ started = [probe] \/ started = [probe; merge] \/
   started = [probe; merge; encode (stem ++ "_merged.ts")] \/
   started = [probe; encode (input_path w)]) /\
  (input_path w ∈ files -> makedirs_error env = None ->
   job_probe_error env = None ->
   job_sibling env w files = false -> started = [probe; encode (input_path w)]) /\
  (input_path w ∈ files -> makedirs_error env = None ->
   job_probe_error env = None ->
   job_sibling env w files = true ->
   started = [probe; merge] \/
   started = [probe; merge; encode (stem ++ "_merged.ts")]) /\
  (input_path w ∈ files -> makedirs_error env = None ->
   job_probe_error env <> None -> started = [probe]).
Proof.
  cbv zeta.
  assert (Henc : forall src,
    encode_args (use_loudnorm w) src (job_output_path w) =
    if use_loudnorm w
    then ["-y"; "-i"; src; "-vn"; "-ar"; "44100"; "-ac"; "2"; "-b:a"; "192k";
           "-af"; "loudnorm"; derive_output_path (input_path w) (output_dir w)]
    else ["-y"; "-i"; src; "-vn"; "-ar"; "44100"; "-ac"; "2"; "-b:a"; "192k";
           derive_output_path (input_path w) (output_dir w)]).
  { intros src. unfold encode_args, job_output_path.
    destruct (use_loudnorm w); reflexivity. }
  run_cases env w files; rewrite ?Henc;
    unfold job_probe, merge_args, job_audio_file, job_merged_ts;
    (split; [tauto|]);
    (split; [|split]); intros Hi Hm Hp; try intros Hs;
    try congruence; try tauto;
    try (apply bool_decide_eq_false in Hin; contradiction).
Qed.

(** C7, against the claim as it is worded: on the sibling path the merge
    is started with two inputs, and no process is started with the
    one-input list. *)
Lemma merge_arguments_counterexample :
  starts (trace (after_run quiet_env sample_worker sibling_files)) =
  [ ("ffmpeg -i /videos/clip one.mp4", []);
    ("ffmpeg", ["-y"; "-i"; "/videos/clip one.mp4"; "-i"; "/videos/clip one.m4a";
                "-c:v"; "copy"; "-c:a"; "copy"; "-f"; "mpegts";
                "/videos/clip one_merged.ts"]);
    ("ffmpeg", ["-y"; "-i"; "/videos/clip one_merged.ts"; "-vn"; "-ar"; "44100";
                "-ac"; "2"; "-b:a"; "192k"; "/out/clip one.mp3"]) ] /\
  ~ (exists input_file output_file,
        In ("ffmpeg", claimed_merge_args input_file output_file)
           (starts (trace (after_run quiet_env sample_worker sibling_files)))).
Proof.
  assert (E : starts (trace (after_run quiet_env sample_worker sibling_files)) =
  [ ("ffmpeg -i /videos/clip one.mp4", []);
    ("ffmpeg", ["-y"; "-i"; "/videos/clip one.mp4"; "-i"; "/videos/clip one.m4a";
                "-c:v"; "copy"; "-c:a"; "copy"; "-f"; "mpegts";
                "/videos/clip one_merged.ts"]);
    ("ffmpeg", ["-y"; "-i"; "/videos/clip one_merged.ts"; "-vn"; "-ar"; "44100";
                "-ac"; "2"; "-b:a"; "192k"; "/out/clip one.mp3"]) ])
    by (vm_compute; reflexivity).
  split; [exact E|].
  rewrite E. intros (i & o & H). unfold claimed_merge_args in H.
  destruct H as [H|[H|[H|[]]]]; discriminate H.
Qed.

(** An output directory below the path of the audio segment: making it
    makes the directories above it, the audio segment's path among them,
    and the job merges. *)
Lemma nested_output_merges :
  job_sibling quiet_env nested_worker direct_files = true /\
  starts (trace (after_run quiet_env nested_worker direct_files)) =
  [ ("ffmpeg -i /videos/clip one.mp4", []);
    ("ffmpeg", ["-y"; "-i"; "/videos/clip one.mp4"; "-i"; "/videos/clip one.m4a";
                "-c:v"; "copy"; "-c:a"; "copy"; "-f"; "mpegts";
                "/videos/clip one_merged.ts"]);
    ("ffmpeg", ["-y"; "-i"; "/videos/clip one_merged.ts"; "-vn"; "-ar"; "44100";
                "-ac"; "2"; "-b:a"; "192k"; "/videos/clip one.m4a/out/clip one.mp3"]) ].
Proof. split; vm_compute; reflexivity. Qed.

(** ** Progress *)

Lemma fractions_app {F} (s1 s2 : list (Signal F)) :
  fractions (s1 ++ s2) = (fractions s1 ++ fractions s2)%list.
Proof. apply flat_map_app. Qed.

Lemma chunk_times_app e1 e2 :
  chunk_times (e1 ++ e2) = (chunk_times e1 ++ chunk_times e2)%list.
Proof. apply flat_map_app. Qed.

Lemma fractions_event_signals D name evs :
  fractions (event_signals D name evs) =
  if Float.pos D then map (fun t => Float.div t D) (chunk_times evs) else [].
Proof.
  induction evs as [|ev evs IH].
  - destruct (Float.pos D); reflexivity.
  - unfold event_signals in *. cbn [flat_map]. rewrite fractions_app, IH.
    destruct ev as [chunk|chunk|]; cbn [chunk_signals chunk_times flat_map].
    + destruct (chunk_time chunk) as [t|]; destruct (Float.pos D); reflexivity.
    + destruct (Py.truthy (Py.strip chunk)); destruct (Float.pos D); reflexivity.
    + destruct (Float.pos D); reflexivity.
Qed.

(** The times the chunks report are numbers in canonical form. *)
Lemma chunk_time_canonical chunk t :
  chunk_time chunk = Some t -> Float.canonical t /\ t <> Float.NaN.
Proof.
  unfold chunk_time, chunk_token.
  destruct (Py.truthy (Py.strip chunk)); [|discriminate].
  destruct (Re.search_time chunk) as [g|]; [|discriminate].
  destruct (_time_str_to_seconds g) as [t'|] eqn:E; [|discriminate].
  intros H; injection H as <-. exact (time_str_canonical _ _ E).
Qed.

Lemma chunk_times_canonical evs :
  Forall (fun t => Float.canonical t /\ t <> Float.NaN) (chunk_times evs).
Proof.
  induction evs as [|ev evs IH]; [constructor|].
  destruct ev as [chunk|chunk|]; cbn [chunk_times flat_map]; try exact IH.
  destruct (chunk_time chunk) as [t|] eqn:E; [|exact IH].
  constructor; [eapply chunk_time_canonical; eassumption|exact IH].
Qed.

(** The Progress signals of an event loop name the worker's input and
    divide by the one total duration. *)
Lemma event_signals_progress D name evs :
  Forall (fun sig => match sig with
                     | progress_signal f n => n = name /\ exists t, f = Float.div t D
                     | finished_signal _ _ => False
                     | error_signal _ => True
                     end) (event_signals D name evs).
Proof.
  induction evs as [|ev evs IH]; [constructor|].
  unfold event_signals in *. cbn [flat_map]. apply Forall_app; split; [|exact IH].
  destruct ev as [chunk|chunk|]; cbn [chunk_signals].
  - destruct (chunk_time chunk) as [t|]; [|constructor].
    destruct (Float.pos D); repeat constructor. eauto.
  - destruct (Py.truthy (Py.strip chunk)); repeat constructor.
  - constructor.
Qed.


Lemma fractions_emitted env w files :
  fractions (emitted env w files) =
  if Float.pos (job_total env w)
  then map (fun t => Float.div t (job_total env w)) (chunk_times (delivered env w files))
  else [].
Proof.
  unfold delivered.
  run_cases env w files; unfold job_signals, job_finished, job_exception;
    rewrite ?fractions_app, ?chunk_times_app, ?fractions_event_signals;
    cbn [fractions chunk_times flat_map map app];
    destruct (Float.pos (job_total env w));
    rewrite ?map_app, ?app_nil_r; reflexivity.
Qed.

Lemma nondecreasing_scaled D l :
  Float.canonical D -> Float.is_finite D = true -> Float.pos D = true ->
  Forall (fun t => Float.canonical t /\ t <> Float.NaN) l ->
  nondecreasing l = true ->
  nondecreasing (map (fun t => Float.div t D) l) = true.
Proof.
  intros HD Hf Hp Hl. induction Hl as [|a l Ha Hl IH]; [reflexivity|].
  destruct Hl as [|b l Hb Hl]; [reflexivity|].
  cbn [nondecreasing map] in *.
  intros H. apply andb_true_iff in H as [Hab Hrest].
  apply andb_true_iff; split; [|exact (IH Hrest)].
  apply FloatFacts.div_mono; tauto.
Qed.

Lemma job_total_probed env w g D :
  Re.search_duration (probe_stderr env) = Some g ->
  _time_str_to_seconds g = Ok D -> job_total env w = D.
Proof.
  intros Hg HD. unfold job_total, job_probed. rewrite Hg, HD. reflexivity.
Qed.

Lemma leb_ltb_false t D :
  t <> Float.NaN -> D <> Float.NaN ->
  Float.leb t D = false -> Float.ltb D t = true.
Proof.
  destruct t as [m1 e1| |], D as [m2 e2| |]; simpl; try congruence.
  intros _ _ H. apply Z.leb_gt in H. apply Z.ltb_lt. exact H.
Qed.

(** C2, as amended: when the probe output holds a duration D > 0 and no
    slot raises, the fractions of the Progress signals are the reported
    times over D, in the order of the reports, each quotient rounded to
    the nearest [float].  When D is finite each fraction is a number, at
    least 0, at most 1 when the reported time is at most D and above 1
    when it is past D; they do not decrease as long as the reported times
    do not. *)
Theorem progress_fractions env w files g D :
  Re.search_duration (probe_stderr env) = Some g ->
  _time_str_to_seconds g = Ok D -> Float.pos D = true ->
  slots_return env = true ->
  let times := chunk_times (delivered env w files) in
  fractions (emitted env w files) = map (fun t => Float.div t D) times /\
  (Float.is_finite D = true ->
   Forall (fun t => Float.div t D <> Float.NaN /\
                    Float.leb Float.zero (Float.div t D) = true /\
                    (Float.leb t D = true ->
                     Float.leb (Float.div t D) Float.one = true) /\
                    (Float.leb t D = false ->
                     Float.ltb Float.one (Float.div t D) = true)) times /\
   (nondecreasing times = true ->
    nondecreasing (fractions (emitted env w files)) = true)).
Proof.
  intros Hg HD Hpos _ times.
  destruct (time_str_canonical _ _ HD) as [HcD HnD].
  assert (E : fractions (emitted env w files) = map (fun t => Float.div t D) times).
  { rewrite fractions_emitted, (job_total_probed env w g D Hg HD), Hpos. reflexivity. }
  split; [exact E|]. intros Hfin. split.
  - eapply List.Forall_impl; [|apply chunk_times_canonical].
    intros t [Hct Hnt].
    assert (Hq : Float.div t D <> Float.NaN)
      by (apply FloatFacts.div_not_nan; assumption).
    assert (Hcq : Float.canonical (Float.div t D)).
    { destruct t as [m1 e1| |], D as [m2 e2| |]; try discriminate; try exact I.
      simpl in Hpos. apply Z.ltb_lt in Hpos.
      destruct Hct as ((Hm1 & _) & _), HcD as (_ & (He2 & _) & _).
      apply FloatFacts.round_canonical;
        [apply FloatFacts.scale_nonneg; lia|apply FloatFacts.scale_pos; lia]. }
    split; [exact Hq|]. split; [apply FloatFacts.leb_zero; assumption|]. split.
    + intros Hle. rewrite <- (FloatFacts.div_self D HcD Hfin Hpos).
      apply FloatFacts.div_mono; assumption.
    + intros Hgt. apply FloatFacts.div_gt_one; try assumption.
      apply leb_ltb_false; assumption.
  - intros Hmono. rewrite E.
    apply nondecreasing_scaled; try assumption. apply chunk_times_canonical.
Qed.

Lemma progress_fractions_witness :
  Re.search_duration (probe_stderr overrun_env) = Some "00:00:10.00" /\
  (exists D, _time_str_to_seconds "00:00:10.00" = Ok D /\ Float.pos D = true) /\
  slots_return overrun_env = true /\
  fractions (emitted overrun_env sample_worker sibling_files) =
  map (fun t => Float.div t (Float.Finite 5629499534213120 (-49)))
      (chunk_times (delivered overrun_env sample_worker sibling_files)).
Proof.
  split; [reflexivity|]. split; [eexists; split; vm_compute; reflexivity|].
  split; [vm_compute; reflexivity|].
  apply (progress_fractions overrun_env sample_worker sibling_files "00:00:10.00"
           (Float.Finite 5629499534213120 (-49)));
    vm_compute; reflexivity.
Defined.

(** C2, against the claim as it is worded: a duration of ten seconds is
    probed; the merge reports 10.04 seconds and the extraction, which
    starts again, 5 seconds.  The two fractions are above 1 and 0.5: the
    first is not in [0,1] and the second is less than the first. *)
Lemma progress_bounds_counterexample :
  (exists g D, Re.search_duration (probe_stderr overrun_env) = Some g /\
               _time_str_to_seconds g = Ok D /\ Float.pos D = true /\
               Float.is_finite D = true) /\
  (exists a b, fractions (emitted overrun_env sample_worker sibling_files) = [a; b] /\
               Float.ltb Float.one a = true /\ Float.ltb b a = true /\
               exists q, Float.to_Q b = Some q /\ (q == 1 # 2)%Q).
Proof.
  split.
  - eexists _, _. split; [reflexivity|]. repeat split; vm_compute; reflexivity.
  - eexists _, _. split; [vm_compute; reflexivity|].
    split; [vm_compute; reflexivity|]. split; [vm_compute; reflexivity|].
    eexists. split; reflexivity.
Qed.

(** ** A probe without duration *)

Lemma ran_total pr w : _total_duration (ran pr w) = _total_duration w.
Proof. destruct (ran_fields pr w) as (_&_&_&_& H &_); exact H. Qed.

Lemma no_fractions_no_progress {F} (sigs : list (Signal F)) :
  fractions sigs = [] -> List.filter is_progress sigs = [].
Proof.
  induction sigs as [|sig sigs IH]; [reflexivity|].
  destruct sig; simpl; try exact IH. discriminate.
Qed.

Lemma job_total_unprobed env w :
  Re.search_duration (probe_stderr env) = None ->
  job_probed env w = job_started env w /\ job_total env w = _total_duration w /\
  job_probe_error env = None.
Proof.
  intros H. unfold job_total, job_probed, job_probe_error. rewrite H. auto.
Qed.

(** C8: when the probe output holds no [Duration: HH:MM:SS.ff] token the
    total duration stays 0 and no Progress signal is emitted, yet the
    encode subprocess is started and, on exit code 0 without cancellation,
    Finished is emitted. *)
Theorem probe_failure_not_fatal env w files :
  _total_duration w = Float.zero ->
  Re.search_duration (probe_stderr env) = None ->
  _total_duration (self (after_run env w files)) = Float.zero /\
  List.filter is_progress (emitted env w files) = [] /\
  (input_path w ∈ files -> makedirs_error env = None ->
   _is_cancelled (self (after_run env w files)) = false ->
   (exists src,
       In (_ffmpeg_path w, encode_args (use_loudnorm w) src (job_output_path w))
          (starts (trace (after_run env w files)))) /\
   (pr_exit (encode_run env) = 0%Z ->
    In (finished_signal (derive_output_path (input_path w) (output_dir w))
                        (clock_end env - clock_start env))
       (emitted env w files))).
Proof.
  intros H0 Hnone.
  destruct (job_total_unprobed env w Hnone) as (Hp & Ht & Hpe).
  split; [|split].
  - run_cases env w files; rewrite ?ran_total, ?Hp; exact H0.
  - apply no_fractions_no_progress. rewrite fractions_emitted, Ht, H0. reflexivity.
  - intros Hi Hm. pose proof (bool_decide_eq_true_2 _ Hi) as Hb. revert Hb Hm.
    run_cases env w files; intros Hb Hm Hnc; try congruence;
      (split; [eexists; cbn [In]; eauto 6|]);
      intros He; try (rewrite He in Hexit; discriminate);
      unfold job_finished, job_output_path;
      rewrite ?in_app_iff; cbn [In]; auto 8.
Qed.

Lemma probe_failure_not_fatal_witness :
  _total_duration sample_worker = Float.zero /\
  Re.search_duration (probe_stderr unprobed_env) = None /\
  List.filter is_progress (emitted unprobed_env sample_worker direct_files) = [].
Proof.
  split; [reflexivity|]. split; [reflexivity|].
  apply (probe_failure_not_fatal unprobed_env sample_worker direct_files); reflexivity.
Defined.

(** ** The merged intermediate *)

Lemma event_signals_no_finished D name evs :
  List.filter is_finished (event_signals D name evs) = [].
Proof.
  pose proof (event_signals_progress D name evs) as H.
  induction H as [|sig sigs Hsig _ IH]; [reflexivity|].
  destruct sig; simpl; [destruct Hsig|exact IH|exact IH].
Qed.

(** C9: on the sibling path, when the extraction exits with another code
    than zero and the job is not cancelled, an Error signal is emitted and
    the merged intermediate is not removed: the files are those the
    extraction left.  The worker removes nothing but the intermediate, and
    only when the extraction exits with code 0 or the cancellation is seen
    after the extraction.  The sibling path is taken when the input
    exists, the output directory is made and the probed duration is read;
    no slot raises. *)
Theorem failed_extract_keeps_intermediate env w files :
  input_path w ∈ files -> makedirs_error env = None ->
  job_probe_error env = None -> slots_return env = true ->
  job_sibling env w files = true ->
  (_is_cancelled (self (after_run env w files)) = false ->
   pr_exit (encode_run env) <> 0%Z ->
   In (error_signal "❌ 音频提取失败") (emitted env w files) /\
   List.filter is_finished (emitted env w files) = [] /\
   removed (trace (after_run env w files)) = [] /\
   fs (after_run env w files) = files_after_extract env w files /\
   (pr_writes_output (merge_run env) = true ->
    job_merged_ts w ∈ fs (after_run env w files))) /\
  (removed (trace (after_run env w files)) = [] \/
   removed (trace (after_run env w files)) = [job_merged_ts w]) /\
  (removed (trace (after_run env w files)) = [job_merged_ts w] ->
   cancelled_in_merge env w = false /\
   (pr_exit (encode_run env) = 0%Z \/ cancelled_in_extract env w = true)).
Proof.
  intros Hi Hm Hp _ Hs. pose proof (bool_decide_eq_true_2 _ Hi) as Hb.
  revert Hb Hm Hp Hs.
  run_cases env w files; intros Hb Hm Hp Hs; try congruence.
  all: (split;
    [ intros Hnc Hne; try discriminate Hnc;
      try (apply Z.eqb_eq in Hexit; contradiction)
    | split; [auto|]; intros Hr;
      first [ discriminate Hr
            | split; [reflexivity|];
              first [ left; apply Z.eqb_eq; exact Hexit | right; reflexivity ] ] ]).
  split; [rewrite !in_app_iff; cbn [In]; auto|].
  split; [unfold job_signals; rewrite !List.filter_app, !event_signals_no_finished;
          reflexivity|].
  split; [reflexivity|]. split; [reflexivity|].
  intros Hw. unfold files_after_extract, wrote_file. rewrite Hw.
  destruct (pr_writes_output (encode_run env)); set_solver.
Qed.

Lemma failed_extract_keeps_intermediate_witness :
  ("/videos/clip one.mp4" ∈ sibling_files) /\
  job_probe_error failing_extract_env = None /\
  slots_return failing_extract_env = true /\
  job_sibling failing_extract_env sample_worker sibling_files = true /\
  removed (trace (after_run failing_extract_env sample_worker sibling_files)) = [] /\
  ("/videos/clip one_merged.ts"
     ∈ fs (after_run failing_extract_env sample_worker sibling_files)).
Proof.
  assert (Hin : input_path sample_worker ∈ sibling_files)
    by (unfold sibling_files, sample_worker; simpl; set_solver).
  assert (Hp : job_probe_error failing_extract_env = None) by (vm_compute; reflexivity).
  assert (Hsl : slots_return failing_extract_env = true) by reflexivity.
  assert (Hs : job_sibling failing_extract_env sample_worker sibling_files = true)
    by (vm_compute; reflexivity).
  split; [exact Hin|]. split; [exact Hp|]. split; [exact Hsl|]. split; [exact Hs|].
  destruct (failed_extract_keeps_intermediate failing_extract_env sample_worker
              sibling_files Hin eq_refl Hp Hsl Hs) as [H _].
  destruct (H eq_refl ltac:(discriminate)) as (_ & _ & Hr & _ & Hk).
  split; [exact Hr|exact (Hk eq_refl)].
Defined.

(** ** Finished and Error *)

Lemma startswith_app p x : Py.startswith p (p ++ x) = true.
Proof.
  induction p as [|c p IH]; [destruct x; reflexivity|].
  simpl. rewrite Ascii.eqb_refl. exact IH.
Qed.

Lemma forwarded_app e1 e2 : forwarded (e1 ++ e2) = (forwarded e1 ++ forwarded e2)%list.
Proof. apply flat_map_app. Qed.

Lemma event_signals_errors D name evs :
  List.filter is_error (event_signals D name evs) = forwarded evs /\
  List.filter is_failure (event_signals D name evs) = [].
Proof.
  induction evs as [|ev evs [IH1 IH2]]; [split; reflexivity|].
  unfold event_signals, forwarded in *. cbn [flat_map].
  rewrite !List.filter_app, IH1, IH2.
  destruct ev as [chunk|chunk|]; cbn [chunk_signals].
  - destruct (chunk_time chunk); [destruct (Float.pos D)|]; split; reflexivity.
  - destruct (Py.truthy (Py.strip chunk)); [|split; reflexivity].
    cbn [List.filter is_error is_failure app].
    fold stderr_prefix. rewrite startswith_app. split; reflexivity.
  - split; reflexivity.
Qed.

Lemma filter_existsb {A} (f : A -> bool) l :
  existsb f l = negb (match List.filter f l with [] => true | _ => false end).
Proof.
  induction l as [|a l IH]; [reflexivity|].
  simpl. destruct (f a); [reflexivity|exact IH].
Qed.

Lemma is_failure_exception e : is_failure (job_exception e) = true.
Proof. reflexivity. Qed.

Lemma is_failure_extract :
  is_failure (error_signal "❌ 音频提取失败" : Signal Float.t) = true.
Proof. reflexivity. Qed.

Lemma is_failure_direct :
  is_failure (error_signal "❌ 直接转换失败" : Signal Float.t) = true.
Proof. reflexivity. Qed.

Lemma is_failure_missing p :
  is_failure (error_signal ("❌ 输入文件不存在: " ++ p) : Signal Float.t) = true.
Proof. reflexivity. Qed.

Lemma existsb_false_filter {A} (f : A -> bool) l :
  existsb f l = false -> List.filter f l = [].
Proof.
  induction l as [|a l IH]; [reflexivity|].
  simpl. destruct (f a); [discriminate|exact IH].
Qed.

Lemma event_signals_no_failure D name evs :
  existsb is_failure (event_signals D name evs) = false.
Proof.
  rewrite filter_existsb, (proj2 (event_signals_errors D name evs)). reflexivity.
Qed.

Lemma errors_and_failures env w files :
  _is_cancelled (self (after_run env w files)) = false ->
  List.filter is_error (emitted env w files)
  = (forwarded (delivered env w files)
     ++ List.filter is_failure (emitted env w files))%list /\
  existsb is_failure (emitted env w files) = job_fails env w files.
Proof.
  unfold job_fails, delivered.
  run_cases env w files; intros Hnc; try discriminate Hnc.
  all: unfold job_signals, job_finished;
    rewrite ?List.filter_app, ?forwarded_app, ?existsb_app;
    rewrite ?(proj1 (event_signals_errors _ _ _)), ?(proj2 (event_signals_errors _ _ _)),
            ?event_signals_no_failure;
    cbn [List.filter existsb];
    rewrite ?is_failure_exception, ?is_failure_missing, ?is_failure_extract,
            ?is_failure_direct;
    cbn [is_error is_failure job_exception app orb negb andb];
    rewrite ?app_nil_r, <- ?app_assoc; cbn [app];
    rewrite ?orb_true_r; cbn [orb];
    split; reflexivity.
Qed.

(** C1, as amended: a job that is not cancelled, whose probed duration is
    read and whose encode subprocess exits with code 0 emits Finished with
    the output path and the elapsed time.  An Error that reports a failure
    is emitted exactly when a step fails: a missing input, an exception
    ([os.makedirs], reading the probed duration, [os.remove]), the encode
    subprocess leaving with another code than zero.  Every other Error
    forwards a chunk the subprocesses wrote on their error channel, one per
    chunk that is not blank; a job without failure whose subprocesses wrote
    nothing there but blanks emits no Error.  No slot raises. *)
Theorem finished_and_errors env w files :
  _is_cancelled (self (after_run env w files)) = false ->
  slots_return env = true ->
  (input_path w ∈ files -> makedirs_error env = None ->
   job_probe_error env = None ->
   pr_exit (encode_run env) = 0%Z ->
   In (finished_signal (derive_output_path (input_path w) (output_dir w))
                       (clock_end env - clock_start env))
      (emitted env w files)) /\
  (existsb is_failure (emitted env w files) = true <-> job_fails env w files = true) /\
  List.filter is_error (emitted env w files)
  = (forwarded (delivered env w files)
     ++ List.filter is_failure (emitted env w files))%list /\
  (job_fails env w files = false -> forwarded (delivered env w files) = [] ->
   List.filter is_error (emitted env w files) = []).
Proof.
  intros Hnc _. destruct (errors_and_failures env w files Hnc) as [Herr Hfail].
  split; [|split; [|split]].
  - intros Hi Hm Hp He. pose proof (bool_decide_eq_true_2 _ Hi) as Hb.
    revert Hnc. clear Herr Hfail. revert Hb Hm Hp.
    run_cases env w files; intros Hb Hm Hp Hnc; try congruence;
      try (rewrite He in Hexit; discriminate);
      unfold job_finished, job_output_path;
      rewrite ?in_app_iff; cbn [In]; auto 8.
  - rewrite Hfail. reflexivity.
  - exact Herr.
  - intros Hok Hquiet. rewrite Herr, Hquiet.
    apply existsb_false_filter. rewrite Hfail. exact Hok.
Qed.

Lemma finished_and_errors_witness :
  _is_cancelled (self (after_run quiet_env sample_worker direct_files)) = false /\
  slots_return quiet_env = true /\
  In (finished_signal "/out/clip one.mp3" (103.5 - 100)%Q)
     (emitted quiet_env sample_worker direct_files) /\
  List.filter is_error (emitted quiet_env sample_worker direct_files) = [].
Proof.
  assert (Hnc : _is_cancelled (self (after_run quiet_env sample_worker direct_files))
                = false) by reflexivity.
  assert (Hin : input_path sample_worker ∈ direct_files)
    by (unfold direct_files, sample_worker; simpl; set_solver).
  destruct (finished_and_errors quiet_env sample_worker direct_files Hnc eq_refl)
    as (Hfin & _ & _ & Hquiet).
  split; [exact Hnc|]. split; [reflexivity|]. split.
  - refine (Hfin Hin eq_refl _ eq_refl). vm_compute; reflexivity.
  - refine (Hquiet _ eq_refl). vm_compute; reflexivity.
Defined.

(** C1, against the claim as it is worded: no step fails, the encode
    leaves with code 0, and the job still emits an Error, the chunk the
    encode wrote on its error channel. *)
Lemma errors_counterexample :
  a_step_fails chatty_env sample_worker direct_files = false /\
  emitted chatty_env sample_worker direct_files =
  [ error_signal
      "⚠️ FFmpeg 输出: size=     235kB time=00:00:10.00 bitrate= 192.6kbits/s speed=41.2x";
    finished_signal "/out/clip one.mp3" (112 - 100)%Q ] /\
  existsb is_error (emitted chatty_env sample_worker direct_files) = true.
Proof.
  split; [vm_compute; reflexivity|]. split; [vm_compute; reflexivity|].
  vm_compute; reflexivity.
Qed.

(** ** Cancellation *)

(** Once the flag is set when [run] ends, no Finished signal was emitted:
    every path to [finished_signal] tests the flag after its last
    subprocess. *)
Lemma cancelled_never_finished env w files :
  _is_cancelled (self (after_run env w files)) = true ->
  List.filter is_finished (emitted env w files) = [].
Proof.
  run_cases env w files; intros Hc; try discriminate Hc;
    unfold job_signals; rewrite ?List.filter_app, ?event_signals_no_finished;
    reflexivity.
Qed.

(** A cancellation seen after the merge ends [run] at once: nothing is
    removed, and the files are those the merge left. *)
Lemma cancelled_merge_removes_nothing env w files :
  input_path w ∈ files -> makedirs_error env = None ->
  job_probe_error env = None ->
  job_sibling env w files = true -> cancelled_in_merge env w = true ->
  removed (trace (after_run env w files)) = [] /\
  fs (after_run env w files)
  = wrote_file (merge_run env) (job_merged_ts w) (job_files env w files).
Proof.
  intros Hi Hm Hp Hs Hc. pose proof (bool_decide_eq_true_2 _ Hi) as Hb.
  revert Hb Hm Hp Hs Hc.
  run_cases env w files; intros Hb Hm Hp Hs Hc; try congruence.
  split; reflexivity.
Qed.

(** C3, on the code: [cancel()] arrives while the merge runs and has
    written its output.  No Finished signal is emitted, but [run] returns
    without removing the merged intermediate, which stays on disk. *)
Theorem cancelled_merge_leaves_intermediate :
  _is_cancelled (self (after_run cancel_in_merge_env sample_worker sibling_files)) = true /\
  List.filter is_finished (emitted cancel_in_merge_env sample_worker sibling_files) = [] /\
  removed (trace (after_run cancel_in_merge_env sample_worker sibling_files)) = [] /\
  ("/videos/clip one_merged.ts"
     ∈ fs (after_run cancel_in_merge_env sample_worker sibling_files)).
Proof.
  split; [vm_compute; reflexivity|]. split; [vm_compute; reflexivity|].
  split; [vm_compute; reflexivity|].
  apply (bool_decide_unpack _). vm_compute. exact I.
Qed.

(** * Further properties of the worker *)

(** ** What [run] returns and when it reports success *)

Lemma string_app_inv_head (s a b : string) : s ++ a = s ++ b -> a = b.
Proof.
  induction s as [|c s IH]; simpl; intros H; [exact H|].
  injection H as H. exact (IH H).
Qed.

Lemma string_app_assoc (a b c : string) : (a ++ b) ++ c = a ++ b ++ c.
Proof. induction a as [|x a IH]; simpl; [reflexivity|f_equal; exact IH]. Qed.




(** The hours of the probed duration are 305 digits long: the only
    signal is the Error of the [OverflowError], and nothing is started
    after the probe. *)
Lemma long_hours_reported :
  input_path sample_worker ∈ direct_files /\
  emitted long_hours_env sample_worker direct_files =
  [ error_signal "❌ 线程运行异常: int too large to convert to float" ] /\
  starts (trace (after_run long_hours_env sample_worker direct_files)) =
  [ ("ffmpeg -i /videos/clip one.mp4", []) ].
Proof.
  split; [unfold direct_files, sample_worker; simpl; set_solver|].
  split; vm_compute; reflexivity.
Qed.

Lemma finished_not_in_event_signals D name evs path d :
  ~ In (finished_signal path d) (event_signals D name evs).
Proof.
  intros H. pose proof (event_signals_progress D name evs) as F.
  rewrite List.Forall_forall in F. exact (F _ H).
Qed.

Lemma finished_in_app_tail sigs D name evs path d :
  In (finished_signal path d) (event_signals D name evs ++ sigs) ->
  In (finished_signal path d) sigs.
Proof.
  intros H. apply in_app_or in H as [H|H]; [|exact H].
  destruct (finished_not_in_event_signals _ _ _ _ _ H).
Qed.

(** X2: a Finished signal is emitted only by a job whose input exists,
    whose output directory could be made, whose encode subprocess left
    with code 0 and which is not cancelled; it carries the derived output
    path and the elapsed time, and it is the only Finished of the job. *)
Theorem finished_only_on_success env w files path d :
  In (finished_signal path d) (emitted env w files) ->
  path = derive_output_path (input_path w) (output_dir w) /\
  d = (clock_end env - clock_start env)%Q /\
  input_path w ∈ files /\ makedirs_error env = None /\
  pr_exit (encode_run env) = 0%Z /\
  _is_cancelled (self (after_run env w files)) = false /\
  length (List.filter is_finished (emitted env w files)) = 1%nat.
Proof.
  run_cases env w files; unfold job_signals, job_finished, job_output_path, job_exception;
    rewrite <- ?app_assoc; intros H;
    repeat (apply finished_in_app_tail in H); cbn [In app] in H;
    try (destruct (finished_not_in_event_signals _ _ _ _ _ H));
    repeat (destruct H as [H|H]; try discriminate H); try contradiction.
  all: injection H as <- <-.
  all: rewrite ?List.filter_app, ?event_signals_no_finished;
    cbn [List.filter is_finished app length].
  all: apply bool_decide_eq_true_1 in Hin; apply Z.eqb_eq in Hexit; auto 10.
Qed.

Lemma split_at_finished (A tail pre post : list (Signal Float.t)) fin fin' :
  List.filter is_finished A = [] -> List.filter is_finished tail = [] ->
  is_finished fin = true -> is_finished fin' = true ->
  (A ++ fin' :: tail = pre ++ fin :: post)%list ->
  pre = A /\ post = tail.
Proof.
  intros HA Ht Hf Hf'. revert pre. induction A as [|a A IH]; intros pre E.
  - destruct pre as [|x pre]; simpl in E.
    + injection E as _ <-. auto.
    + injection E as <- ->. rewrite List.filter_app in Ht. simpl in Ht.
      rewrite Hf in Ht. destruct (List.filter is_finished pre); discriminate Ht.
  - simpl in HA. destruct (is_finished a) eqn:Ea; [discriminate HA|].
    destruct pre as [|x pre]; simpl in E.
    + injection E as -> _. congruence.
    + injection E as <- E. destruct (IH HA pre E) as [-> ->]. auto.
Qed.

Lemma emitted_shape env w files :
  exists A tail,
    List.filter is_finished A = [] /\
    (emitted env w files = A \/
     emitted env w files = (A ++ job_finished env w :: tail)%list) /\
    (tail = [] \/ exists m, tail = [error_signal m]).
Proof.
  assert (Hno : forall pr, List.filter is_finished (job_signals env w pr) = [])
    by (intros pr; apply event_signals_no_finished).
  run_cases env w files.
  all: try (eexists _, []; split; [|split; [left; reflexivity|auto]];
            rewrite ?List.filter_app, ?Hno; reflexivity).
  - eexists (job_signals env w (merge_run env) ++ job_signals env w (encode_run env))%list,
            [error_signal _].
    split; [rewrite List.filter_app, !Hno; reflexivity|].
    split; [right; rewrite <- app_assoc; reflexivity|eauto].
  - exists (job_signals env w (merge_run env) ++ job_signals env w (encode_run env))%list, [].
    split; [rewrite List.filter_app, !Hno; reflexivity|]. split; [right; reflexivity|auto].
  - exists (job_signals env w (encode_run env)), [].
    split; [apply Hno|]. split; [right; reflexivity|auto].
Qed.

(** X3: Finished ends the job's report: after it the worker emits
    nothing, or the one Error of a removal that failed; no Progress and no
    second Finished follow it. *)
Theorem finished_is_last env w files pre post path d :
  emitted env w files = (pre ++ finished_signal path d :: post)%list ->
  List.filter is_finished pre = [] /\
  (post = [] \/ exists m, post = [error_signal m]).
Proof.
  intros E. destruct (emitted_shape env w files) as (A & tail & HA & Hs & Ht).
  assert (Htail : List.filter is_finished tail = [])
    by (destruct Ht as [->|[m ->]]; reflexivity).
  destruct Hs as [Hs|Hs]; rewrite Hs in E.
  - rewrite E, List.filter_app in HA. simpl in HA.
    destruct (List.filter is_finished pre); discriminate HA.
  - apply split_at_finished in E as [-> ->]; auto.
Qed.

Lemma finished_only_on_success_witness :
  In (finished_signal "/out/clip one.mp3" (103.5 - 100)%Q)
     (emitted quiet_env sample_worker direct_files) /\
  pr_exit (encode_run quiet_env) = 0%Z.
Proof.
  assert (H : In (finished_signal "/out/clip one.mp3" (103.5 - 100)%Q)
                 (emitted quiet_env sample_worker direct_files))
    by (vm_compute; left; reflexivity).
  split; [exact H|].
  exact (proj1 (proj2 (proj2 (proj2 (proj2
    (finished_only_on_success quiet_env sample_worker direct_files _ _ H)))))).
Defined.

Lemma finished_is_last_witness :
  emitted chatty_env sample_worker direct_files =
  ([error_signal
      "⚠️ FFmpeg 输出: size=     235kB time=00:00:10.00 bitrate= 192.6kbits/s speed=41.2x"]
   ++ finished_signal "/out/clip one.mp3" (112 - 100)%Q :: [])%list /\
  (([] : list (Signal Float.t)) = []
   \/ exists m, ([] : list (Signal Float.t)) = [error_signal m]).
Proof.
  assert (H : emitted chatty_env sample_worker direct_files =
    ([error_signal
      "⚠️ FFmpeg 输出: size=     235kB time=00:00:10.00 bitrate= 192.6kbits/s speed=41.2x"]
     ++ finished_signal "/out/clip one.mp3" (112 - 100)%Q :: [])%list)
    by (vm_compute; reflexivity).
  split; [exact H|].
  exact (proj2 (finished_is_last chatty_env sample_worker direct_files _ _ _ _ H)).
Defined.

(** The operating system refuses the removal: the Error of the exception
    follows Finished, and the merged file stays. *)
Lemma refused_removal_reported :
  emitted refusing_env sample_worker sibling_files =
  [ finished_signal "/out/clip one.mp3" (103.5 - 100)%Q;
    error_signal
      "❌ 线程运行异常: [Errno 13] Permission denied: '/videos/clip one_merged.ts'" ] /\
  removed (trace (after_run refusing_env sample_worker sibling_files)) = [] /\
  ("/videos/clip one_merged.ts"
     ∈ fs (after_run refusing_env sample_worker sibling_files)).
Proof.
  split; [vm_compute; reflexivity|]. split; [vm_compute; reflexivity|].
  apply (bool_decide_unpack _). vm_compute. exact I.
Qed.

(** The output directory is the path of the merged intermediate:
    [os.makedirs] makes it a directory, [os.remove] raises on it, and the
    Error of the exception follows Finished. *)
Lemma directory_not_removed :
  emitted quiet_env clashing_worker sibling_files =
  [ finished_signal "/videos/clip one_merged.ts/clip one.mp3" (103.5 - 100)%Q;
    error_signal
      "❌ 线程运行异常: [Errno 21] Is a directory: '/videos/clip one_merged.ts'" ] /\
  removed (trace (after_run quiet_env clashing_worker sibling_files)) = [] /\
  ("/videos/clip one_merged.ts"
     ∈ fs (after_run quiet_env clashing_worker sibling_files)).
Proof.
  split; [vm_compute; reflexivity|]. split; [vm_compute; reflexivity|].
  apply (bool_decide_unpack _). vm_compute. exact I.
Qed.

(** ** The files a job touches *)

(** X4: on the sibling path a job that is not cancelled and whose
    extraction leaves with code 0 removes the merged intermediate, if it is
    there, a file and not a directory, and the operating system lets it:
    afterwards it is gone and nothing else was removed.  The input exists,
    the output directory is made, the probed duration is read and no slot
    raises. *)
Theorem successful_merge_removes_intermediate env w files :
  input_path w ∈ files -> makedirs_error env = None ->
  job_probe_error env = None -> slots_return env = true ->
  job_sibling env w files = true ->
  _is_cancelled (self (after_run env w files)) = false ->
  pr_exit (encode_run env) = 0%Z ->
  job_merged_ts w ∈ files_after_extract env w files ->
  isdir (files_after_extract env w files) (job_merged_ts w) = false ->
  remove_error env = None ->
  removed (trace (after_run env w files)) = [job_merged_ts w] /\
  (job_merged_ts w ∉ fs (after_run env w files)) /\
  fs (after_run env w files) = files_after_extract env w files ∖ {[ job_merged_ts w ]}.
Proof.
  intros Hi Hm Hp _ Hs Hnc He Hthere Hfile Hre.
  pose proof (bool_decide_eq_true_2 _ Hi) as Hb.
  assert (Hr : remove_failure env (job_merged_ts w) (files_after_extract env w files)
               = None).
  { unfold remove_failure. rewrite (bool_decide_eq_true_2 _ Hthere), Hfile.
    exact Hre. }
  revert Hnc. revert Hb Hm Hp Hs Hr.
  run_cases env w files; intros Hb Hm Hp Hs Hr Hnc; try congruence;
    try (rewrite He in Hexit; discriminate).
  split; [reflexivity|]. split; [|reflexivity].
  intros [_ Hn]%elem_of_difference. apply Hn, elem_of_singleton. reflexivity.
Qed.

Lemma successful_merge_removes_intermediate_witness :
  ("/videos/clip one.mp4" ∈ sibling_files) /\
  job_probe_error quiet_env = None /\
  job_sibling quiet_env sample_worker sibling_files = true /\
  removed (trace (after_run quiet_env sample_worker sibling_files))
  = ["/videos/clip one_merged.ts"].
Proof.
  assert (Hin : input_path sample_worker ∈ sibling_files)
    by (unfold sibling_files, sample_worker; simpl; set_solver).
  assert (Hp : job_probe_error quiet_env = None) by (vm_compute; reflexivity).
  assert (Hs : job_sibling quiet_env sample_worker sibling_files = true)
    by (vm_compute; reflexivity).
  split; [exact Hin|]. split; [exact Hp|]. split; [exact Hs|].
  refine (proj1 (successful_merge_removes_intermediate quiet_env sample_worker
                   sibling_files Hin eq_refl Hp eq_refl Hs eq_refl eq_refl _ _
                   eq_refl)).
  - apply (bool_decide_unpack _). vm_compute. exact I.
  - vm_compute. reflexivity.
Defined.

Lemma dirprefix_basename p : p = OsPath.dirprefix p ++ OsPath.basename p.
Proof.
  unfold OsPath.dirprefix, OsPath.basename.
  destruct (OsPath.rsplit_char "/" p) as [[pre post]|] eqn:E; [|reflexivity].
  apply rsplit_char_some in E as [-> _].
  rewrite string_app_assoc. reflexivity.
Qed.

(** [splitext] cuts a path in two: a root, and nothing or a dot followed
    by text without dot. *)
Lemma splitext_spec p :
  p = (OsPath.splitext p).1 ++ (OsPath.splitext p).2 /\
  ((OsPath.splitext p).2 = ""
   \/ exists e, (OsPath.splitext p).2 = String "." e /\ no_char "." e = true).
Proof.
  unfold OsPath.splitext.
  destruct (splitext_name_spec (OsPath.basename p)) as [Hn He].
  destruct (OsPath.splitext_name (OsPath.basename p)) as [root ext]. simpl in *.
  split; [|exact He].
  rewrite string_app_assoc, <- Hn. apply dirprefix_basename.
Qed.

Lemma input_is_not_merged w : input_path w <> job_merged_ts w.
Proof.
  unfold job_merged_ts. destruct (splitext_spec (input_path w)) as [Hp He].
  intros E. rewrite Hp in E at 1. apply string_app_inv_head in E.
  destruct He as [He|(e & He & _)]; rewrite He in E; discriminate E.
Qed.

(** X5: [run] removes no file but the merged intermediate; in particular
    the input file is still there when [run] returns. *)
Theorem run_keeps_files env w files :
  (forall p, p ∈ files -> p <> job_merged_ts w -> p ∈ fs (after_run env w files)) /\
  (input_path w ∈ files -> input_path w ∈ fs (after_run env w files)).
Proof.
  assert (H : forall p, p ∈ files -> p <> job_merged_ts w ->
                        p ∈ fs (after_run env w files)).
  { intros p Hp Hne.
    run_cases env w files;
      unfold files_after_extract, wrote_file, job_files;
      destruct (pr_writes_output (merge_run env));
      destruct (pr_writes_output (encode_run env)); set_solver. }
  split; [exact H|]. intros Hi. apply H; [exact Hi|apply input_is_not_merged].
Qed.

(** X6: an input whose extension is [.m4a] is its own audio segment: when
    it exists, the output directory is made and the probed duration is
    read, the sibling path is taken, and the merge is given the input file
    twice. *)
Theorem m4a_input_merges_with_itself env w files :
  (OsPath.splitext (input_path w)).2 = ".m4a" ->
  input_path w ∈ files -> makedirs_error env = None ->
  job_probe_error env = None ->
  job_audio_file w = input_path w /\
  job_sibling env w files = true /\
  In (_ffmpeg_path w,
      ["-y"; "-i"; input_path w; "-i"; input_path w;
       "-c:v"; "copy"; "-c:a"; "copy"; "-f"; "mpegts"; job_merged_ts w])
     (starts (trace (after_run env w files))).
Proof.
  intros Hext Hi Hm Hp.
  assert (Ha : job_audio_file w = input_path w).
  { unfold job_audio_file. destruct (splitext_spec (input_path w)) as [Hq _].
    rewrite Hext in Hq. symmetry. exact Hq. }
  assert (Hs : job_sibling env w files = true).
  { unfold job_sibling, job_files. rewrite Ha.
    apply bool_decide_eq_true_2. set_solver. }
  split; [exact Ha|]. split; [exact Hs|].
  pose proof (bool_decide_eq_true_2 _ Hi) as Hb. revert Hb Hm Hp Hs.
  run_cases env w files; intros Hb Hm Hp Hs; try congruence;
    unfold merge_args; rewrite Ha; cbn [In]; auto.
Qed.

Lemma m4a_input_merges_with_itself_witness :
  (OsPath.splitext "/music/song.m4a").2 = ".m4a" /\
  job_probe_error quiet_env = None /\
  job_sibling quiet_env (init "/music/song.m4a" "/out" false "ffmpeg" false)
              {[ "/music/song.m4a" ]} = true.
Proof.
  assert (Hp : job_probe_error quiet_env = None) by (vm_compute; reflexivity).
  split; [reflexivity|]. split; [exact Hp|].
  refine (proj1 (proj2 (m4a_input_merges_with_itself quiet_env
            (init "/music/song.m4a" "/out" false "ffmpeg" false)
            {[ "/music/song.m4a" ]} eq_refl _ eq_refl Hp))).
  simpl. set_solver.
Defined.

(** ** Cancellation before the job starts *)

(** X7: a job cancelled before [run] starts, whose input exists, whose
    output directory is made and whose probed duration is read, still
    probes the input and starts its first subprocess, merge or encode; it
    reports neither Finished nor a failure and removes nothing.  No slot
    raises. *)
Theorem cancelled_before_start env w files :
  _is_cancelled w = true ->
  input_path w ∈ files -> makedirs_error env = None ->
  job_probe_error env = None -> slots_return env = true ->
  length (starts (trace (after_run env w files))) = 2%nat /\
  List.filter is_finished (emitted env w files) = [] /\
  existsb is_failure (emitted env w files) = false /\
  removed (trace (after_run env w files)) = [].
Proof.
  intros Hc Hi Hm Hp _. pose proof (bool_decide_eq_true_2 _ Hi) as Hb.
  assert (H1 : cancelled_in_merge env w = true)
    by (unfold cancelled_in_merge; rewrite Hc; reflexivity).
  assert (H2 : cancelled_in_direct env w = true)
    by (unfold cancelled_in_direct; rewrite Hc; reflexivity).
  revert Hb Hm Hp.
  run_cases env w files; intros Hb Hm Hp; try congruence;
    unfold job_signals;
    rewrite ?event_signals_no_finished, ?event_signals_no_failure; auto.
Qed.

Lemma cancelled_before_start_witness :
  _is_cancelled (set_is_cancelled true sample_worker) = true /\
  job_probe_error quiet_env = None /\
  length (starts (trace (after_run quiet_env (set_is_cancelled true sample_worker)
                           direct_files))) = 2%nat.
Proof.
  assert (Hp : job_probe_error quiet_env = None) by (vm_compute; reflexivity).
  split; [reflexivity|]. split; [exact Hp|].
  refine (proj1 (cancelled_before_start quiet_env (set_is_cancelled true sample_worker)
                   direct_files eq_refl _ eq_refl Hp eq_refl)).
  unfold direct_files; simpl. set_solver.
Defined.

(** ** Output names that collide *)

Lemma derive_output_path_of_name dir stem e output :
  dir = "" \/ (exists d, dir = d ++ "/") ->
  no_char "/" stem = true -> Py.all_chars (Ascii.eqb ".") stem = false ->
  no_char "/" e = true -> no_char "." e = true ->
  derive_output_path (dir ++ stem ++ "." ++ e) output =
  OsPath.join output (stem ++ ".mp3").
Proof.
  intros Hdir Hstem Hdots He1 He2.
  assert (Hname : no_char "/" (stem ++ "." ++ e) = true).
  { unfold no_char. rewrite all_chars_app. fold (no_char "/" stem). rewrite Hstem.
    simpl. exact He1. }
  assert (Hbase : OsPath.basename (dir ++ stem ++ "." ++ e) = stem ++ "." ++ e).
  { unfold OsPath.basename. destruct Hdir as [-> | [d ->]].
    - change ("" ++ stem ++ "." ++ e) with (stem ++ "." ++ e).
      rewrite (rsplit_no_char _ _ Hname). reflexivity.
    - rewrite string_app_assoc. change ("/" ++ stem ++ "." ++ e)
        with (String "/" (stem ++ "." ++ e)).
      rewrite (rsplit_char_app _ _ _ Hname). reflexivity. }
  unfold derive_output_path. rewrite splitext_basename, Hbase.
  unfold OsPath.splitext_name.
  change ("." ++ e) with (String "." e).
  rewrite (rsplit_char_app _ _ _ He2), Hdots. reflexivity.
Qed.

(** X8: the output path keeps nothing of the input's directory and
    extension: two inputs with the same file name stem, in any two
    directories and with any two extensions, are given the same output
    path. *)
Theorem same_stem_same_output dir1 dir2 stem e1 e2 output :
  (dir1 = "" \/ exists d, dir1 = d ++ "/") ->
  (dir2 = "" \/ exists d, dir2 = d ++ "/") ->
  no_char "/" stem = true -> Py.all_chars (Ascii.eqb ".") stem = false ->
  no_char "/" e1 = true -> no_char "." e1 = true ->
  no_char "/" e2 = true -> no_char "." e2 = true ->
  derive_output_path (dir1 ++ stem ++ "." ++ e1) output =
  derive_output_path (dir2 ++ stem ++ "." ++ e2) output.
Proof.
  intros H1 H2 Hs Hd Ha1 Hb1 Ha2 Hb2.
  rewrite !derive_output_path_of_name by assumption. reflexivity.
Qed.

Lemma same_stem_same_output_witness :
  derive_output_path ("/a/" ++ "clip one" ++ "." ++ "mp4") "/out" =
  derive_output_path ("/b/c/" ++ "clip one" ++ "." ++ "mkv") "/out".
Proof.
  apply (same_stem_same_output "/a/" "/b/c/" "clip one" "mp4" "mkv" "/out");
    try reflexivity; right; [exists "/a"|exists "/b/c"]; reflexivity.
Defined.

(** ** What the patterns capture *)

Lemma digit_value_le c : Py.is_digit c = true -> (Py.digit_value c <= 9)%Z.
Proof.
  unfold Py.is_digit, Py.digit_value; intros H.
  apply andb_true_iff in H as [_ H]. apply Nat.leb_le in H. lia.
Qed.

Lemma digits_value_bound s : forall acc,
  (0 <= acc)%Z -> Py.all_chars Py.is_digit s = true ->
  (Py.digits_value acc s < (acc + 1) * 10 ^ Z.of_nat (String.length s))%Z.
Proof.
  induction s as [|c s IH]; intros acc Hacc H.
  - simpl. lia.
  - cbn [Py.all_chars] in H. apply andb_true_iff in H as [Hc Hs].
    cbn [Py.digits_value String.length].
    pose proof (digit_value_nonneg c Hc). pose proof (digit_value_le c Hc).
    specialize (IH (10 * acc + Py.digit_value c)%Z ltac:(lia) Hs).
    rewrite Nat2Z.inj_succ, Z.pow_succ_r by lia.
    assert (0 < 10 ^ Z.of_nat (String.length s))%Z by (apply Z.pow_pos_nonneg; lia).
    nia.
Qed.

Lemma length_append (a b : string) :
  String.length (a ++ b) = (String.length a + String.length b)%nat.
Proof. induction a as [|c a IH]; simpl; [reflexivity|rewrite IH; reflexivity]. Qed.

Lemma int_short s :
  Py.is_digits s = true -> (String.length s <= 304)%nat ->
  Py.int s = Ok (Py.digits_value 0 s) /\
  (0 <= Py.digits_value 0 s < 10 ^ 304)%Z.
Proof.
  intros Hd Hl. unfold Py.int. rewrite Hd.
  destruct (_ <? _)%nat eqn:E.
  { apply Nat.ltb_lt in E. unfold Py.int_max_str_digits in E. lia. }
  split; [reflexivity|].
  pose proof (is_digits_all _ Hd) as Ha.
  split; [apply digits_value_nonneg; [lia|exact Ha]|].
  pose proof (digits_value_bound s 0%Z ltac:(lia) Ha) as Hb.
  assert (10 ^ Z.of_nat (String.length s) <= 10 ^ 304)%Z
    by (apply Z.pow_le_mono_r; lia).
  lia.
Qed.

(** Text of at most 304 characters that the time group matched is read
    without an exception. *)
Lemma hms_parses d1 d2 d3 d4 :
  Py.is_digits d1 = true -> Py.is_digits d2 = true ->
  Py.is_digits d3 = true -> Py.is_digits d4 = true ->
  (String.length (d1 ++ ":" ++ d2 ++ ":" ++ d3 ++ "." ++ d4) <= 304)%nat ->
  exists t, _time_str_to_seconds (d1 ++ ":" ++ d2 ++ ":" ++ d3 ++ "." ++ d4) = Ok t.
Proof.
  intros H1 H2 H3 H4 Hl.
  rewrite !length_append in Hl.
  destruct (int_short d1 H1 ltac:(lia)) as [E1 B1].
  destruct (int_short d2 H2 ltac:(lia)) as [E2 B2].
  pose proof (float_digits d3 d4 H3 H4) as E3.
  rewrite (hms_equation _ _ _ _ _ _ E1 E2 E3).
  destruct (FloatFacts.of_Z_ok (Py.digits_value 0 d1 * 3600 + Py.digits_value 0 d2 * 60))
    as (y & Ey & _).
  { assert (3660 * 10 ^ 304 < 2 ^ 1023)%Z by (vm_compute; reflexivity). lia. }
  rewrite Ey. eexists. reflexivity.
Qed.

(** X9: text of at most 304 characters that the duration pattern or the
    progress pattern captures is read by [_time_str_to_seconds] without
    an exception, and the time is a number that is not negative: a finite
    one, or [inf]. *)
Theorem captured_time_parses text group1 :
  Re.search_duration text = Some group1 \/ Re.search_time text = Some group1 ->
  (String.length group1 <= 304)%nat ->
  exists t, _time_str_to_seconds group1 = Ok t /\
            Float.canonical t /\ t <> Float.NaN.
Proof.
  intros H Hl.
  assert (Hs : exists s' r, Re.match_items Re.hms_group s' = Some (group1, r))
    by (destruct H as [H|H]; eapply search_found; exact H).
  destruct Hs as (s' & r & Hs).
  apply hms_group_shape in Hs as (d1 & d2 & d3 & d4 & -> & H1 & H2 & H3 & H4).
  destruct (hms_parses d1 d2 d3 d4 H1 H2 H3 H4 Hl) as [t Ht].
  exists t. split; [exact Ht|]. exact (time_str_canonical _ _ Ht).
Qed.

Lemma captured_time_parses_witness :
  Re.search_time "frame=  120 time=00:00:04.80 bitrate= 128.0kbits/s" = Some "00:00:04.80" /\
  exists t, _time_str_to_seconds "00:00:04.80" = Ok t /\
            Float.canonical t /\ t <> Float.NaN.
Proof.
  split; [reflexivity|].
  apply (captured_time_parses "frame=  120 time=00:00:04.80 bitrate= 128.0kbits/s").
  - right; reflexivity.
  - simpl. lia.
Defined.

(** Longer text can make it raise: hours of 305 digits in a chunk. *)
Lemma captured_time_overflows :
  Re.search_time ("time=" ++ nines 305 ++ ":00:00.00 bitrate=")
  = Some (nines 305 ++ ":00:00.00") /\
  _time_str_to_seconds (nines 305 ++ ":00:00.00")
  = Raise "int too large to convert to float".
Proof. split; vm_compute; reflexivity. Qed.

(** ** [cancel] *)

(** X10: [cancel] sets the flag whatever happens next and touches neither
    files nor signals; it returns normally exactly when a subprocess was
    started before (the worker has a [_process]), and then a process that
    is running is killed. *)
Theorem cancel_sets_flag W :
  _is_cancelled (self (snd (cancel W))) = true /\
  fs (snd (cancel W)) = fs W /\ trace (snd (cancel W)) = trace W /\
  (fst (cancel W) = Ok tt <-> _process (self W) <> None) /\
  (forall p, _process (self W) = Some p -> state p = Running ->
             exists p', _process (self (snd (cancel W))) = Some p' /\ killed p' = true).
Proof.
  destruct W as [w f t]. unfold cancel. monad_unfold. simpl.
  destruct (_process w) as [p|] eqn:Hp; simpl.
  - destruct (state p) eqn:Hs; simpl.
    + repeat split; auto; try discriminate.
      intros p' E Hr. injection E as <-. rewrite Hs in Hr. discriminate Hr.
    + repeat split; auto; try discriminate.
      intros p' E _. eexists; split; reflexivity.
  - repeat split; auto; try discriminate.
    intros H. exfalso. apply H. reflexivity.
Qed.

(** ** Progress signals and chunks *)

Lemma chunk_times_length evs :
  (length (chunk_times evs) <= length (List.filter is_stdout evs))%nat.
Proof.
  induction evs as [|ev evs IH]; [reflexivity|].
  destruct ev as [chunk|chunk|]; cbn [chunk_times flat_map List.filter is_stdout];
    try exact IH.
  fold (chunk_times evs).
  destruct (chunk_time chunk); cbn [app length]; lia.
Qed.

(** X12: a stdout chunk gives at most one Progress signal, however many
    [time=] tokens it holds: the job emits no more Progress signals than
    stdout chunks were delivered. *)
Theorem progress_at_most_one_per_chunk env w files :
  (length (List.filter is_progress (emitted env w files))
   <= length (List.filter is_stdout (delivered env w files)))%nat.
Proof.
  assert (E : forall sigs : list (Signal Float.t),
             length (List.filter is_progress sigs) = length (fractions sigs)).
  { induction sigs as [|sig sigs IH]; [reflexivity|].
    destruct sig; simpl; rewrite ?IH; reflexivity. }
  rewrite E, fractions_emitted.
  destruct (Float.pos (job_total env w)); [|simpl; lia].
  rewrite length_map. apply chunk_times_length.
Qed.

(** ** What [run] reads of the worker *)

Lemma job_total_eq env w :
  job_total env w =
  match Re.search_duration (probe_stderr env) with
  | Some group1 =>
      match _time_str_to_seconds group1 with
      | Ok d => d
      | Raise _ => _total_duration w
      end
  | None => _total_duration w
  end.
Proof.
  unfold job_total, job_probed, job_started.
  destruct (Re.search_duration (probe_stderr env)) as [g|]; [|reflexivity].
  destruct (_time_str_to_seconds g); reflexivity.
Qed.

(** X11: what a job emits, starts, removes and leaves on disk depends on
    the worker through its input path, output directory, normalization
    flag, tool path, total duration and cancel flag only; the result of
    the video-stream check of [__init__] changes nothing. *)
Theorem run_ignores_has_video env w1 w2 files :
  input_path w1 = input_path w2 -> output_dir w1 = output_dir w2 ->
  use_loudnorm w1 = use_loudnorm w2 -> _ffmpeg_path w1 = _ffmpeg_path w2 ->
  _total_duration w1 = _total_duration w2 ->
  _is_cancelled w1 = _is_cancelled w2 ->
  trace (after_run env w1 files) = trace (after_run env w2 files) /\
  fs (after_run env w1 files) = fs (after_run env w2 files).
Proof.
  intros E1 E2 E3 E4 E5 E6.
  rewrite !after_run_eq. unfold run_view. cbv zeta.
  unfold view_remove, view_emit, view_process, view_probed. cbn [self fs trace].
  rewrite !flag_extract, !flag_merge, !flag_direct.
  unfold job_signals, job_finished, job_sibling, job_files, job_audio_file,
    job_merged_ts, job_output_path, job_probe, job_name,
    cancelled_in_extract, cancelled_in_merge, cancelled_in_direct.
  rewrite !job_total_eq.
  rewrite <- E1, <- E2, <- E3, <- E4, <- E5, <- E6.
  destruct (bool_decide (input_path w1 ∈ files)); cbn [negb]; [|split; reflexivity].
  destruct (makedirs_error env); [split; reflexivity|].
  destruct (job_probe_error env); [split; reflexivity|].
  repeat match goal with
         | |- context [if ?c then _ else _] => destruct c
         | |- context [match remove_failure ?a ?b ?c with _ => _ end] =>
             destruct (remove_failure a b c)
         end; split; reflexivity.
Qed.

Lemma run_ignores_has_video_witness :
  trace (after_run chatty_env (init "/videos/clip one.mp4" "/out" false "ffmpeg" true)
           direct_files)
  = trace (after_run chatty_env (init "/videos/clip one.mp4" "/out" false "ffmpeg" false)
             direct_files).
Proof.
  apply (run_ignores_has_video chatty_env
           (init "/videos/clip one.mp4" "/out" false "ffmpeg" true)
           (init "/videos/clip one.mp4" "/out" false "ffmpeg" false)); reflexivity.
Defined.


(** ** Looking for the tool *)

Lemma first_existing_spec paths files p :
  first_existing paths files = Some p -> In p paths /\ p ∈ files.
Proof.
  induction paths as [|q paths IH]; simpl; [discriminate|].
  destruct (bool_decide (q ∈ files)) eqn:E.
  - intros H; injection H as <-. apply bool_decide_eq_true_1 in E. auto.
  - intros H. destruct (IH H). auto.
Qed.

Lemma first_existing_none paths files :
  first_existing paths files = None -> forall p, In p paths -> p ∉ files.
Proof.
  induction paths as [|q paths IH]; simpl; [intros _ p []|].
  destruct (bool_decide (q ∈ files)) eqn:E; [discriminate|].
  intros H p [<-|Hp]; [apply bool_decide_eq_false_1 in E; exact E|exact (IH H p Hp)].
Qed.

(** X13: with [HOME] set [find_ffmpeg] returns normally: the first of
    [ffmpeg], [/usr/local/bin/ffmpeg] and the two spellings of
    [$HOME/ffmpeg] that exists, and [ffmpeg] when none does.  So the name
    [ffmpeg] has priority, and a path other than it is returned only if it
    exists. *)
Theorem find_ffmpeg_spec h files :
  exists p, find_ffmpeg (Some h) files = Ok p /\
    ("ffmpeg" ∈ files -> p = "ffmpeg") /\
    (p <> "ffmpeg" ->
     (p ∈ files) /\ ("ffmpeg" ∉ files) /\
     (p = "/usr/local/bin/ffmpeg" \/
      (("/usr/local/bin/ffmpeg" ∉ files) /\
       (p = expanduser_home h "/ffmpeg" \/ p = OsPath.join h "ffmpeg")))) /\
    ((p ∉ files) ->
     p = "ffmpeg" /\ ("/usr/local/bin/ffmpeg" ∉ files) /\
     (expanduser_home h "/ffmpeg" ∉ files) /\ (OsPath.join h "ffmpeg" ∉ files)).
Proof.
  unfold find_ffmpeg. cbv zeta. eexists; split; [reflexivity|].
  cbn [first_existing].
  destruct (bool_decide ("ffmpeg" ∈ files)) eqn:E0;
    [apply bool_decide_eq_true_1 in E0|apply bool_decide_eq_false_1 in E0].
  { simpl. repeat split; try tauto; congruence. }
  destruct (bool_decide ("/usr/local/bin/ffmpeg" ∈ files)) eqn:E1;
    [apply bool_decide_eq_true_1 in E1|apply bool_decide_eq_false_1 in E1].
  { simpl. repeat split; try tauto; try congruence; discriminate. }
  destruct (bool_decide (expanduser_home h "/ffmpeg" ∈ files)) eqn:E2;
    [apply bool_decide_eq_true_1 in E2|apply bool_decide_eq_false_1 in E2].
  { simpl. repeat split; try tauto; try congruence. }
  destruct (bool_decide (OsPath.join h "ffmpeg" ∈ files)) eqn:E3;
    [apply bool_decide_eq_true_1 in E3|apply bool_decide_eq_false_1 in E3].
  { simpl. repeat split; try tauto; try congruence. }
  simpl. repeat split; try tauto; try congruence.
Qed.

(** With [HOME] not set [find_ffmpeg] raises whatever files exist, and so
    does the construction of a worker: no worker is made, even when
    [ffmpeg] is there. *)
Lemma find_ffmpeg_needs_home files ffprobe_output input output loudnorm :
  (exists e, find_ffmpeg None files = Raise e) /\
  (exists e, __init__ None files ffprobe_output input output loudnorm = Raise e).
Proof. split; eexists; reflexivity. Qed.

Lemma rstrip_sep_no_trailing h :
  Py.endswith_char "/" h = false -> rstrip_sep h = h.
Proof.
  induction h as [|c h IH]; [reflexivity|].
  cbn [Py.endswith_char rstrip_sep]. destruct h as [|c' h'].
  - intros H. cbn [rstrip_sep]. rewrite H. reflexivity.
  - intros H. rewrite (IH H). reflexivity.
Qed.

(** X14: when [HOME] is a directory name that is not empty and does not
    end with a separator, the last two places [find_ffmpeg] looks at are
    one and the same path, [$HOME/ffmpeg]. *)
Theorem home_candidates_coincide h :
  Py.truthy h = true -> Py.endswith_char "/" h = false ->
  expanduser_home h "/ffmpeg" = h ++ "/ffmpeg" /\
  OsPath.join h "ffmpeg" = h ++ "/ffmpeg".
Proof.
  intros Ht He. unfold expanduser_home, OsPath.join. cbv zeta.
  rewrite (rstrip_sep_no_trailing h He), Ht, He. cbn [negb orb Py.startswith Ascii.eqb].
  split; [|reflexivity].
  destruct h as [|c h]; [discriminate Ht|reflexivity].
Qed.

(** * Properties of the coordinator *)

(** ** The list of files and [input_paths] *)

Lemma list_remove_perm x l l' :
  MainWindow.list_remove x l = Some l' -> Permutation l (x :: l').
Proof.
  revert l'. induction l as [|y l IH]; simpl; intros l' H; [discriminate|].
  destruct (String.eqb x y) eqn:E.
  - apply String.eqb_eq in E as ->. injection H as <-. reflexivity.
  - destruct (MainWindow.list_remove x l) as [r|]; [|discriminate].
    injection H as <-. rewrite (IH r eq_refl). apply perm_swap.
Qed.

Lemma list_remove_in x l :
  In x l -> exists l', MainWindow.list_remove x l = Some l'.
Proof.
  induction l as [|y l IH]; simpl; [intros []|].
  destruct (String.eqb x y) eqn:E; [eauto|].
  intros [->|H]; [rewrite String.eqb_refl in E; discriminate|].
  destruct (IH H) as [l' ->]. eauto.
Qed.

Lemma delete_rows_perm items : forall kept paths,
  Permutation (kept ++ map MainWindow.text items) paths ->
  exists items' paths',
    MainWindow.delete_rows items paths = (Ok tt, items', paths') /\
    Permutation (kept ++ map MainWindow.text items') paths'.
Proof.
  induction items as [|it items IH]; intros kept paths HP; simpl.
  - eexists _, _. split; [reflexivity|exact HP].
  - simpl in HP. destruct (MainWindow.selected it).
    + assert (Hin : In (MainWindow.text it) paths).
      { eapply Permutation_in; [exact HP|]. apply in_elt. }
      destruct (list_remove_in _ _ Hin) as [paths1 E]. rewrite E.
      apply IH. apply list_remove_perm in E.
      rewrite E in HP. rewrite <- Permutation_middle in HP.
      exact (Permutation_cons_inv HP).
    + destruct (IH (kept ++ [MainWindow.text it])%list paths) as (items' & paths' & E & HP').
      { rewrite <- app_assoc. exact HP. }
      rewrite E. eexists _, _. split; [reflexivity|].
      rewrite <- app_assoc in HP'. exact HP'.
Qed.

Lemma add_file_agree path s : lists_agree s -> lists_agree (MainWindow.add_file_to_list path s).
Proof.
  unfold lists_agree, MainWindow.add_file_to_list. simpl. intros H.
  rewrite map_app. simpl. apply Permutation_app; [exact H|reflexivity].
Qed.

Lemma toggle_row_text row items :
  map MainWindow.text (MainWindow.toggle_row row items) = map MainWindow.text items.
Proof.
  revert row. induction items as [|it items IH]; intros [|row]; simpl;
    try reflexivity. rewrite IH. reflexivity.
Qed.


Lemma frame_lists op s :
  match op with
  | MainWindow.StartConversion _ _ _ | MainWindow.Signalled _ _
  | MainWindow.CancelConversion | MainWindow.Worked _
  | MainWindow.SetLoudnorm _ | MainWindow.SelectOutputDir _ =>
      map MainWindow.text (MainWindow.file_list (MainWindow.step op s))
      = map MainWindow.text (MainWindow.file_list s) /\
      MainWindow.input_paths (MainWindow.step op s) = MainWindow.input_paths s
  | _ => True
  end.
Proof.
  destruct op; try exact I; simpl.
  - unfold MainWindow.select_output_dir. destruct (Py.truthy dir_path); split; reflexivity.
  - split; reflexivity.
  - unfold MainWindow.start_conversion.
    destruct (MainWindow.input_paths s) eqn:E; [rewrite <- E; split; reflexivity|].
    destruct (negb (Py.truthy (MainWindow.output_dir s))); [rewrite <- E; split; reflexivity|].
    destruct (MainWindow.make_workers _ _ _ _ _ _) as [r ws].
    unfold MainWindow.setValue; simpl. rewrite E. split; reflexivity.
  - destruct sig; simpl.
    + unfold MainWindow.on_finished, MainWindow.setValue. simpl.
      destruct (MainWindow.total_files s =? 0)%Z; simpl; [split; reflexivity|].
      destruct (_ && _); split; reflexivity.
    + unfold MainWindow.on_error, MainWindow.setValue. simpl. split; reflexivity.
    + unfold MainWindow.on_progress, MainWindow.setValue. simpl.
      destruct (MainWindow.Qltb _ _); simpl; [split; reflexivity|].
      destruct (MainWindow.total_files s =? 0)%Z; simpl; [split; reflexivity|].
      destruct (_ && _); split; reflexivity.
  - unfold MainWindow.cancel_conversion, MainWindow.setValue. simpl.
    destruct (MainWindow.cancel_workers _) as [[u|e] ws]; simpl;
      rewrite map_map; split; reflexivity.
  - destruct (_ =? _)%nat; split; reflexivity.
Qed.

Lemma step_agree op s : lists_agree s -> lists_agree (MainWindow.step op s).
Proof.
  intros H. pose proof (frame_lists op s) as F. unfold lists_agree in *.
  destruct op;
    try (lazymatch type of F with
         | _ /\ _ => destruct F as [F1 F2]; rewrite F1, F2; exact H
         end); simpl.
  - revert s H. induction paths as [|p paths IH]; intros s H; simpl; [exact H|].
    apply IH. destruct (isfile p); [apply add_file_agree|]; exact H.
  - revert s H. induction file_paths as [|p paths IH]; intros s H; simpl; [exact H|].
    apply IH. apply add_file_agree; exact H.
  - rewrite toggle_row_text. exact H.
  - rewrite map_map. simpl. exact H.
  - rewrite map_map. simpl. exact H.
  - reflexivity.
  - unfold MainWindow.delete_selected_files.
    destruct (delete_rows_perm (MainWindow.file_list s) [] (MainWindow.input_paths s) H)
      as (items' & paths' & -> & HP). simpl. exact HP.
Qed.

Lemma run_ops_agree ops : forall s, lists_agree s -> lists_agree (MainWindow.run_ops ops s).
Proof.
  induction ops as [|op ops IH]; intros s H; [exact H|].
  simpl. apply IH, step_agree, H.
Qed.

(** X15: whatever the user does and whatever the workers signal,
    [input_paths] holds exactly the paths the list shows, each as often;
    so [delete_selected_files] always finds the text it removes and never
    raises. *)
Theorem lists_stay_in_step ops :
  let s := MainWindow.run_ops ops MainWindow.initial in
  Permutation (map MainWindow.text (MainWindow.file_list s)) (MainWindow.input_paths s) /\
  fst (MainWindow.delete_selected_files s) = Ok tt.
Proof.
  cbv zeta.
  assert (H : lists_agree (MainWindow.run_ops ops MainWindow.initial))
    by (apply run_ops_agree; apply perm_nil).
  split; [exact H|].
  unfold MainWindow.delete_selected_files.
  destruct (delete_rows_perm _ [] _ H) as (items' & paths' & -> & _). reflexivity.
Qed.

Lemma list_remove_middle x pre post :
  ~ In x pre -> MainWindow.list_remove x (pre ++ x :: post) = Some (pre ++ post)%list.
Proof.
  induction pre as [|y pre IH]; simpl; intros H.
  - rewrite String.eqb_refl. reflexivity.
  - destruct (String.eqb x y) eqn:E.
    + apply String.eqb_eq in E. exfalso. apply H. left. symmetry. exact E.
    + rewrite IH by (intros Hin; apply H; right; exact Hin). reflexivity.
Qed.

Lemma delete_rows_distinct items : forall kept,
  List.NoDup (kept ++ map MainWindow.text items) ->
  MainWindow.delete_rows items (kept ++ map MainWindow.text items) =
  (Ok tt, List.filter unselected items,
   (kept ++ map MainWindow.text (List.filter unselected items))%list).
Proof.
  induction items as [|it items IH]; intros kept HN; [reflexivity|].
  cbn [MainWindow.delete_rows map List.filter].
  change (unselected it) with (negb (MainWindow.selected it)).
  destruct (MainWindow.selected it); cbn [negb map].
  - rewrite list_remove_middle.
    + apply IH. exact (List.NoDup_remove_1 _ _ _ HN).
    + intros Hin. apply List.NoDup_remove_2 in HN. apply HN.
      apply in_or_app. left. exact Hin.
  - specialize (IH (kept ++ [MainWindow.text it])%list).
    rewrite <- !app_assoc in IH. cbn [app] in IH. rewrite (IH HN). reflexivity.
Qed.

(** X16: when the paths of the list are distinct and [input_paths] lists
    them in the order of the rows, [delete_selected_files] leaves exactly
    the rows that were not selected, and [input_paths] still lists them in
    the order of the rows. *)
Theorem delete_selected_keeps_order s :
  map MainWindow.text (MainWindow.file_list s) = MainWindow.input_paths s ->
  List.NoDup (MainWindow.input_paths s) ->
  let s' := snd (MainWindow.delete_selected_files s) in
  fst (MainWindow.delete_selected_files s) = Ok tt /\
  MainWindow.file_list s' = List.filter unselected (MainWindow.file_list s) /\
  MainWindow.input_paths s' = map MainWindow.text (MainWindow.file_list s').
Proof.
  intros E HN. cbv zeta. unfold MainWindow.delete_selected_files.
  rewrite <- E in *.
  pose proof (delete_rows_distinct (MainWindow.file_list s) [] HN) as D.
  cbn [app] in D. rewrite D. simpl. auto.
Qed.

Lemma delete_selected_keeps_order_witness :
  List.NoDup (MainWindow.input_paths two_rows) /\
  MainWindow.input_paths (snd (MainWindow.delete_selected_files two_rows)) = ["/v/b.mp4"].
Proof.
  assert (HN : List.NoDup (MainWindow.input_paths two_rows)).
  { simpl. repeat constructor; simpl; intuition discriminate. }
  split; [exact HN|].
  destruct (delete_selected_keeps_order two_rows eq_refl HN) as (_ & Hl & Hp).
  rewrite Hp, Hl. reflexivity.
Defined.

(** With the same path on two rows the order can part: removing the
    second of the two rows takes the first occurrence out of
    [input_paths]. *)
Lemma delete_selected_duplicate :
  let s := MainWindow.step (MainWindow.ClickRow 2)
             (MainWindow.select_input_files ["/v/a.mp4"; "/v/b.mp4"; "/v/a.mp4"]
                MainWindow.initial) in
  let s' := snd (MainWindow.delete_selected_files s) in
  map MainWindow.text (MainWindow.file_list s') = ["/v/a.mp4"; "/v/b.mp4"] /\
  MainWindow.input_paths s' = ["/v/b.mp4"; "/v/a.mp4"].
Proof. split; reflexivity. Qed.

(** ** Selection *)

Lemma set_selected_twice it :
  MainWindow.set_selected (negb (MainWindow.selected
     (MainWindow.set_selected (negb (MainWindow.selected it)) it)))
     (MainWindow.set_selected (negb (MainWindow.selected it)) it) = it.
Proof. destruct it as [t [|] r]; reflexivity. Qed.

Lemma invert_twice items :
  map (fun it => MainWindow.set_selected (negb (MainWindow.selected it)) it)
      (map (fun it => MainWindow.set_selected (negb (MainWindow.selected it)) it) items)
  = items.
Proof.
  induction items as [|it l IH]; [reflexivity|].
  cbn [map]. rewrite set_selected_twice, IH. reflexivity.
Qed.

(** X17: [select_none_files] inverts the selection, it does not clear it:
    done twice it gives the window back as it was, and it leaves no row
    selected only after [select_all_files] (or when every row was
    selected). *)
Theorem select_none_inverts s :
  MainWindow.select_none_files (MainWindow.select_none_files s) = s /\
  map MainWindow.selected (MainWindow.file_list (MainWindow.select_none_files s))
  = map negb (map MainWindow.selected (MainWindow.file_list s)) /\
  List.filter MainWindow.selected
    (MainWindow.file_list (MainWindow.select_none_files (MainWindow.select_all_files s)))
  = [].
Proof.
  split; [|split].
  - destruct s as [items e oe lc pb pf st ip od ul at' tf cp tp lt sf].
    unfold MainWindow.select_none_files, MainWindow.set_file_list.
    cbn [MainWindow.file_list]. rewrite invert_twice. reflexivity.
  - simpl. rewrite !map_map. reflexivity.
  - simpl. rewrite map_map. induction (MainWindow.file_list s) as [|it l IH];
      [reflexivity|exact IH].
Qed.

(** ** Cancelling a batch *)

Lemma worker_cancel_spec w :
  _is_cancelled (snd (MainWindow.worker_cancel w)) = true /\
  (_process w = None ->
   exists e, fst (MainWindow.worker_cancel w) = Raise e) /\
  (_process w <> None -> fst (MainWindow.worker_cancel w) = Ok tt).
Proof.
  unfold MainWindow.worker_cancel, cancel, start. monad_unfold. simpl.
  destruct (_process w) as [p|]; simpl.
  - destruct (state p); simpl; repeat split; try discriminate; reflexivity.
  - repeat split; eauto. intros H. exfalso. apply H. reflexivity.
Qed.

Lemma kill_if_running_process w :
  _process (MainWindow.kill_if_running w) = None <-> _process w = None.
Proof.
  unfold MainWindow.kill_if_running.
  destruct (_process w) as [p|] eqn:E; [|rewrite E; tauto].
  destruct (state p); simpl; rewrite ?E; split; discriminate.
Qed.

(** X18: when some worker has not started a subprocess yet (it has no
    [_process]), [cancel_conversion] raises at the first such worker: the
    workers before it and that worker have their flag set, the workers
    after it are not touched, and the window keeps all its threads. *)
Theorem cancel_conversion_stops_early s before w after :
  MainWindow.active_threads s = (before ++ w :: after)%list ->
  Forall (fun v => _process v <> None) before ->
  _process w = None ->
  exists e s' before' w',
    MainWindow.cancel_conversion s = (Raise e, s', (before' ++ w' :: after)%list) /\
    length before' = length before /\
    Forall (fun v => _is_cancelled v = true) (before' ++ [w']) /\
    MainWindow.active_threads s' = (before ++ w :: after)%list.
Proof.
  intros E Hb Hw.
  assert (L : exists e before' w',
    MainWindow.cancel_workers (before ++ w :: after)
    = (Raise e, (before' ++ w' :: after)%list) /\
    length before' = length before /\
    Forall (fun v => _is_cancelled v = true) (before' ++ [w'])).
  { clear E. induction Hb as [|v before Hv Hb IH]; cbn [app MainWindow.cancel_workers].
    - destruct (worker_cancel_spec (MainWindow.kill_if_running w)) as (Hc & Hr & _).
      destruct (Hr (proj2 (kill_if_running_process w) Hw)) as [e He].
      destruct (MainWindow.worker_cancel (MainWindow.kill_if_running w)) as [r w'].
      simpl in *. subst r. exists e, [], w'. repeat split. repeat constructor. exact Hc.
    - destruct (worker_cancel_spec (MainWindow.kill_if_running v)) as (Hc & _ & Ho).
      assert (Hk : _process (MainWindow.kill_if_running v) <> None)
        by (intros K; apply Hv, kill_if_running_process, K).
      specialize (Ho Hk).
      destruct (MainWindow.worker_cancel (MainWindow.kill_if_running v)) as [r v'].
      simpl in *. subst r.
      destruct IH as (e0 & bf & w0 & Hcw & Hl & Hf). rewrite Hcw.
      exists e0, (v' :: bf), w0. split; [reflexivity|]. split.
      + simpl. rewrite Hl. reflexivity.
      + constructor; assumption. }
  destruct L as (e & before' & w' & Hcw & Hl & Hf).
  unfold MainWindow.cancel_conversion, MainWindow.setValue. cbn.
  rewrite E, Hcw. exists e. eexists. exists before', w'.
  split; [reflexivity|]. split; [exact Hl|]. split; [exact Hf|]. exact E.
Qed.

(** X19: when every worker has started a subprocess, [cancel_conversion]
    returns normally: every worker has its flag set, every process that
    was running is killed, the window is left without threads, its bar at
    0 and its list enabled. *)
Theorem cancel_conversion_cancels_all s :
  Forall (fun v => _process v <> None) (MainWindow.active_threads s) ->
  exists s' workers,
    MainWindow.cancel_conversion s = (Ok tt, s', workers) /\
    length workers = length (MainWindow.active_threads s) /\
    Forall (fun v => _is_cancelled v = true /\
                     forall p, _process v = Some p -> state p = Running ->
                               killed p = true) workers /\
    MainWindow.active_threads s' = [] /\
    MainWindow.progress_bar s' = 0%Z /\
    MainWindow.file_list_enabled s' = true.
Proof.
  intros H.
  assert (L : exists workers,
    MainWindow.cancel_workers (MainWindow.active_threads s) = (Ok tt, workers) /\
    length workers = length (MainWindow.active_threads s) /\
    Forall (fun v => _is_cancelled v = true /\
                     forall p, _process v = Some p -> state p = Running ->
                               killed p = true) workers).
  { induction H as [|v l Hv Hl (workers & E & Hlen & Hf)]; cbn [MainWindow.cancel_workers].
    - exists []. repeat split. constructor.
    - rewrite E.
      assert (Hone : exists v',
        MainWindow.worker_cancel (MainWindow.kill_if_running v) = (Ok tt, v') /\
        _is_cancelled v' = true /\
        forall p, _process v' = Some p -> state p = Running -> killed p = true).
      { unfold MainWindow.worker_cancel, MainWindow.kill_if_running, cancel, start.
        monad_unfold. simpl.
        destruct (_process v) as [p|] eqn:Ep; [|congruence].
        destruct (state p) eqn:Es; simpl; rewrite ?Ep, ?Es; simpl.
        - eexists; split; [reflexivity|]. split; [reflexivity|]. simpl.
          intros q Eq Hr. rewrite Ep in Eq. injection Eq as <-. congruence.
        - eexists; split; [reflexivity|]. split; [reflexivity|]. simpl.
          intros q Eq _. injection Eq as <-. reflexivity. }
      destruct Hone as (v' & -> & Hc & Hk).
      exists (v' :: workers). split; [reflexivity|].
      split; [simpl; rewrite Hlen; reflexivity|]. constructor; auto. }
  destruct L as (workers & E & Hlen & Hf).
  unfold MainWindow.cancel_conversion, MainWindow.setValue. cbn.
  rewrite E. eexists _, workers. repeat split; auto.
Qed.

Lemma cancel_conversion_stops_early_witness :
  _process sample_worker = None /\
  exists e s' before' w',
    MainWindow.cancel_conversion busy_window
    = (Raise e, s', (before' ++ w' :: [running_worker])%list) /\
    length before' = length [running_worker] /\
    Forall (fun v => _is_cancelled v = true) (before' ++ [w']) /\
    MainWindow.active_threads s' = ([running_worker] ++ sample_worker :: [running_worker])%list.
Proof.
  split; [reflexivity|].
  apply (cancel_conversion_stops_early busy_window [running_worker] sample_worker
           [running_worker]).
  - reflexivity.
  - repeat constructor. discriminate.
  - reflexivity.
Defined.

Lemma cancel_conversion_cancels_all_witness :
  Forall (fun v => _process v <> None) [running_worker; running_worker] /\
  exists s' workers,
    MainWindow.cancel_conversion
      (MainWindow.set_active_threads [running_worker; running_worker] MainWindow.initial)
    = (Ok tt, s', workers) /\
    length workers = 2%nat.
Proof.
  assert (H : Forall (fun v => _process v <> None) [running_worker; running_worker])
    by (repeat constructor; discriminate).
  split; [exact H|].
  destruct (cancel_conversion_cancels_all
              (MainWindow.set_active_threads [running_worker; running_worker]
                 MainWindow.initial) H) as (s' & workers & E & L & _).
  exists s', workers. split; [exact E|exact L].
Defined.

(** ** The bar at the end of a batch *)

Lemma py_int_of_Z q z : (q == inject_Z z)%Q -> MainWindow.py_int q = z.
Proof.
  unfold Qeq, MainWindow.py_int. simpl. rewrite Z.mul_1_r. intros ->.
  apply Z.quot_mul. discriminate.
Qed.

Lemma handle_counters now sig s :
  MainWindow.total_files (snd (MainWindow.handle now sig s)) = MainWindow.total_files s /\
  MainWindow.current_files_processed (snd (MainWindow.handle now sig s))
  = (MainWindow.current_files_processed s + if is_finished sig then 1 else 0)%Z.
Proof.
  destruct sig; simpl.
  - unfold MainWindow.on_finished, MainWindow.setValue. simpl.
    destruct (MainWindow.total_files s =? 0)%Z; simpl; [split; reflexivity|].
    destruct (_ && _); split; reflexivity.
  - unfold MainWindow.on_error, MainWindow.setValue. simpl. split; [reflexivity|lia].
  - unfold MainWindow.on_progress, MainWindow.setValue. simpl.
    destruct (MainWindow.Qltb _ _); simpl; [split; [reflexivity|lia]|].
    destruct (MainWindow.total_files s =? 0)%Z; simpl; [split; [reflexivity|lia]|].
    destruct (_ && _); split; try reflexivity; simpl; lia.
Qed.

Lemma handle_all_counters timed : forall s,
  MainWindow.total_files (MainWindow.handle_all timed s) = MainWindow.total_files s /\
  MainWindow.current_files_processed (MainWindow.handle_all timed s)
  = (MainWindow.current_files_processed s + count_finished timed)%Z.
Proof.
  induction timed as [|[now sig] timed IH]; intros s.
  - split; [reflexivity|]. unfold count_finished; simpl. lia.
  - cbn [MainWindow.handle_all]. destruct (IH (snd (MainWindow.handle now sig s))) as [-> ->].
    destruct (handle_counters now sig s) as [-> ->]. split; [reflexivity|].
    unfold count_finished. cbn [List.filter snd]. destruct (is_finished sig); simpl length; lia.
Qed.

Lemma handle_all_app t1 t2 s :
  MainWindow.handle_all (t1 ++ t2) s = MainWindow.handle_all t2 (MainWindow.handle_all t1 s).
Proof.
  revert s. induction t1 as [|[now sig] t1 IH]; intros s; [reflexivity|].
  simpl. apply IH.
Qed.

Lemma on_finished_last output_path duration s :
  (0 < MainWindow.total_files s)%Z ->
  (MainWindow.current_files_processed s + 1 = MainWindow.total_files s)%Z ->
  let s' := snd (MainWindow.on_finished output_path duration s) in
  fst (MainWindow.on_finished output_path duration s) = Ok tt /\
  MainWindow.progress_bar s' = 100%Z /\
  MainWindow.current_files_processed s' = MainWindow.total_files s' /\
  List.last (MainWindow.status_text s') MainWindow.NeedInput
  = MainWindow.Success output_path duration.
Proof.
  intros Hpos Hlast. cbv zeta. unfold MainWindow.on_finished. simpl.
  destruct (MainWindow.total_files s =? 0)%Z eqn:E0; [apply Z.eqb_eq in E0; lia|].
  simpl. rewrite Hlast.
  assert (E : MainWindow.py_int
                (inject_Z (MainWindow.total_files s)
                 / inject_Z (MainWindow.total_files s) * 100)%Q = 100%Z).
  { apply py_int_of_Z. change (inject_Z 100) with 100%Q. field.
    intros H. unfold Qeq in H. simpl in H. lia. }
  rewrite E. unfold MainWindow.setValue. simpl.
  rewrite last_last. auto.
Qed.

Lemma last_finished_fills_bar s timed now output_path duration :
  (0 < MainWindow.total_files s)%Z ->
  (MainWindow.current_files_processed s + count_finished timed + 1
   = MainWindow.total_files s)%Z ->
  let s' := MainWindow.handle_all
              (timed ++ [(now, finished_signal output_path duration)]) s in
  MainWindow.progress_bar s' = 100%Z /\
  MainWindow.current_files_processed s' = MainWindow.total_files s /\
  List.last (MainWindow.status_text s') MainWindow.NeedInput
  = MainWindow.Success output_path duration.
Proof.
  intros Hpos Hcount. cbv zeta. rewrite handle_all_app.
  destruct (handle_all_counters timed s) as [Ht Hp].
  cbn [MainWindow.handle_all MainWindow.handle].
  destruct (on_finished_last output_path duration (MainWindow.handle_all timed s))
    as (_ & Hbar & Hdone & Hlog); [lia|lia|].
  split; [exact Hbar|]. split; [|exact Hlog].
  rewrite Hdone.
  destruct (handle_counters now (finished_signal output_path duration)
              (MainWindow.handle_all timed s)) as [Ht' _].
  simpl in Ht'. rewrite Ht'. exact Ht.
Qed.

(** X20: in a batch of N files, when the N-th Finished signal is handled
    the bar shows 100 and all N files are counted, whatever Progress and
    Error signals came in between and whenever they came. *)
Theorem batch_reaches_100 s timed now output_path duration :
  (0 < MainWindow.total_files s)%Z ->
  (MainWindow.current_files_processed s + count_finished timed + 1
   = MainWindow.total_files s)%Z ->
  let s' := MainWindow.handle_all
              (timed ++ [(now, finished_signal output_path duration)]) s in
  MainWindow.progress_bar s' = 100%Z /\
  MainWindow.current_files_processed s' = MainWindow.total_files s /\
  List.last (MainWindow.status_text s') MainWindow.NeedInput
  = MainWindow.Success output_path duration.
Proof. exact (last_finished_fills_bar s timed now output_path duration). Qed.

Lemma batch_reaches_100_witness :
  (MainWindow.current_files_processed batch_of_two + count_finished first_signals + 1
   = MainWindow.total_files batch_of_two)%Z /\
  MainWindow.progress_bar
    (MainWindow.handle_all
       (first_signals ++ [(12%Q, finished_signal "/out/b.mp3" 4)])%list batch_of_two)
  = 100%Z.
Proof.
  split; [reflexivity|].
  apply (batch_reaches_100 batch_of_two first_signals 12 "/out/b.mp3" 4);
    reflexivity.
Defined.

(** ** A job and the window *)

Lemma emitted_ends_with_finished env w files :
  input_path w ∈ files -> makedirs_error env = None ->
  job_probe_error env = None ->
  _is_cancelled (self (after_run env w files)) = false ->
  pr_exit (encode_run env) = 0%Z ->
  (job_sibling env w files = true ->
   job_merged_ts w ∈ files_after_extract env w files /\
   isdir (files_after_extract env w files) (job_merged_ts w) = false) ->
  remove_error env = None ->
  exists A, emitted env w files = (A ++ [job_finished env w])%list /\
            List.filter is_finished A = [].
Proof.
  intros Hi Hm Hp Hnc He Hs Hre. pose proof (bool_decide_eq_true_2 _ Hi) as Hb.
  assert (Hno : forall pr, List.filter is_finished (job_signals env w pr) = [])
    by (intros pr; apply event_signals_no_finished).
  assert (Hr : job_sibling env w files = true ->
               remove_failure env (job_merged_ts w) (files_after_extract env w files)
               = None).
  { intros H. destruct (Hs H) as [Hthere Hfile]. unfold remove_failure.
    rewrite (bool_decide_eq_true_2 _ Hthere), Hfile. exact Hre. }
  revert Hnc Hr. revert Hb Hm Hp.
  run_cases env w files; intros Hb Hm Hp Hnc Hr; try congruence;
    try (rewrite He in Hexit; discriminate);
    try (specialize (Hr eq_refl); congruence).
  - eexists; split; [reflexivity|]. rewrite List.filter_app, !Hno. reflexivity.
  - eexists; split; [reflexivity|]. apply Hno.
Qed.

Lemma window_signals_app_last (l : list (Signal Float.t)) x (l' : list (Signal Q)) :
  map window_signal (l ++ [x]) = map Some l' ->
  exists A' x', l' = (A' ++ [x'])%list /\
                map window_signal l = map Some A' /\ window_signal x = Some x'.
Proof.
  revert l'. induction l as [|y l IH]; intros l' H.
  - destruct l' as [|x' [|? ?]]; try discriminate H.
    simpl in H. injection H as H. exists [], x'. auto.
  - destruct l' as [|y' l']; [discriminate H|].
    simpl in H. injection H as Hy H.
    destruct (IH l' H) as (A' & x' & -> & HA & Hx).
    exists (y' :: A'), x'. simpl. rewrite Hy, HA. auto.
Qed.

Lemma window_signal_finished sig sig' :
  window_signal sig = Some sig' -> is_finished sig' = is_finished sig.
Proof.
  destruct sig as [o d|m|p f]; simpl.
  - intros H; injection H as <-. reflexivity.
  - intros H; injection H as <-. reflexivity.
  - destruct (Float.to_Q p); simpl; [|discriminate]. intros H; injection H as <-.
    reflexivity.
Qed.

Lemma window_signals_no_finished (l : list (Signal Float.t)) (l' : list (Signal Q)) :
  map window_signal l = map Some l' ->
  List.filter is_finished l = [] -> List.filter is_finished l' = [].
Proof.
  revert l'. induction l as [|y l IH]; intros l' H Hf.
  - destruct l'; [reflexivity|discriminate H].
  - destruct l' as [|y' l']; [discriminate H|].
    simpl in H. injection H as Hy H. simpl in Hf |- *.
    rewrite (window_signal_finished _ _ Hy).
    destruct (is_finished y); [discriminate Hf|]. exact (IH l' H Hf).
Qed.

Lemma map_snd_app_last {A B} (timed : list (A * B)) (l : list B) (x : B) :
  map snd timed = (l ++ [x])%list ->
  exists t1 a, timed = (t1 ++ [(a, x)])%list /\ map snd t1 = l.
Proof.
  revert timed. induction l as [|y l IH]; intros timed H.
  - destruct timed as [|[a b] [|? ?]]; try discriminate H.
    injection H as ->. exists [], a. auto.
  - destruct timed as [|[a b] timed]; [discriminate H|].
    simpl in H. injection H as -> H.
    destruct (IH timed H) as (t1 & a' & -> & <-).
    exists ((a, y) :: t1), a'. auto.
Qed.

Lemma count_finished_none (timed : list (Q * Signal Q)) :
  List.filter is_finished (map snd timed) = [] -> count_finished timed = 0%Z.
Proof.
  unfold count_finished. intros H.
  assert (E : List.filter (fun ts => is_finished (snd ts)) timed = []).
  { induction timed as [|[a b] timed IH]; [reflexivity|].
    simpl in *. destruct (is_finished b); [discriminate H|exact (IH H)]. }
  rewrite E. reflexivity.
Qed.

(** X21: the window of a batch of one file, fed with what a job emits
    that succeeds without being cancelled, ends with its bar at 100 and
    one file counted, at whatever times the signals are handled and
    whatever the subprocesses wrote on their error channel.  The job's
    probed duration is read without an exception, no slot of the worker
    raises, the merged intermediate of a merge is there, a file and not a
    directory, the operating system lets it be removed, and every Progress
    fraction the window is given is a finite number. *)
Theorem single_job_fills_bar s env w files timed :
  MainWindow.total_files s = 1%Z -> MainWindow.current_files_processed s = 0%Z ->
  input_path w ∈ files -> makedirs_error env = None ->
  job_probe_error env = None -> slots_return env = true ->
  _is_cancelled (self (after_run env w files)) = false ->
  pr_exit (encode_run env) = 0%Z ->
  (job_sibling env w files = true ->
   job_merged_ts w ∈ files_after_extract env w files /\
   isdir (files_after_extract env w files) (job_merged_ts w) = false) ->
  remove_error env = None ->
  map window_signal (emitted env w files) = map Some (map snd timed) ->
  MainWindow.progress_bar (MainWindow.handle_all timed s) = 100%Z /\
  MainWindow.current_files_processed (MainWindow.handle_all timed s) = 1%Z.
Proof.
  intros Ht Hp Hi Hm Hpe _ Hnc He Hs Hre Hsig.
  destruct (emitted_ends_with_finished env w files Hi Hm Hpe Hnc He Hs Hre)
    as (A & E & HA).
  rewrite E in Hsig. unfold job_finished in Hsig.
  apply window_signals_app_last in Hsig as (A' & x' & Hsnd & HA' & Hx).
  simpl in Hx. injection Hx as <-.
  pose proof (window_signals_no_finished _ _ HA' HA) as Hnone.
  apply map_snd_app_last in Hsnd as (t1 & now & -> & <-).
  destruct (last_finished_fills_bar s t1 now (job_output_path w)
              (clock_end env - clock_start env)%Q) as (Hbar & Hdone & _).
  - lia.
  - rewrite (count_finished_none t1 Hnone). lia.
  - split; [exact Hbar|]. rewrite Hdone. exact Ht.
Qed.

Lemma single_job_fills_bar_witness :
  map window_signal (emitted chatty_env sample_worker direct_files)
  = map Some
      (map snd [ (10, error_signal
                   "⚠️ FFmpeg 输出: size=     235kB time=00:00:10.00 bitrate= 192.6kbits/s speed=41.2x");
                 (11, finished_signal "/out/clip one.mp3" (112 - 100)) ]%Q) /\
  MainWindow.progress_bar
    (MainWindow.handle_all
       [ (10, error_signal
                "⚠️ FFmpeg 输出: size=     235kB time=00:00:10.00 bitrate= 192.6kbits/s speed=41.2x");
         (11, finished_signal "/out/clip one.mp3" (112 - 100)) ]%Q
       (MainWindow.set_total_files 1 MainWindow.initial)) = 100%Z.
Proof.
  assert (E : map window_signal (emitted chatty_env sample_worker direct_files)
    = map Some
      (map snd [ (10, error_signal
                   "⚠️ FFmpeg 输出: size=     235kB time=00:00:10.00 bitrate= 192.6kbits/s speed=41.2x");
                 (11, finished_signal "/out/clip one.mp3" (112 - 100)) ]%Q))
    by (vm_compute; reflexivity).
  split; [exact E|].
  refine (proj1 (single_job_fills_bar (MainWindow.set_total_files 1 MainWindow.initial)
                   chatty_env sample_worker direct_files _ eq_refl eq_refl _ eq_refl
                   eq_refl eq_refl eq_refl eq_refl _ eq_refl E)).
  - unfold direct_files; simpl. set_solver.
  - intros H. discriminate H.
Defined.

(** A removal the operating system refuses: the Error that follows
    Finished sets the bar of the window back to 0. *)
Lemma refused_removal_resets_bar :
  map window_signal (emitted refusing_env sample_worker sibling_files)
  = map Some
      (map snd [ (10, finished_signal "/out/clip one.mp3" (103.5 - 100));
                 (11, error_signal
                        "❌ 线程运行异常: [Errno 13] Permission denied: '/videos/clip one_merged.ts'") ]%Q) /\
  MainWindow.progress_bar
    (MainWindow.handle_all
       [ (10, finished_signal "/out/clip one.mp3" (103.5 - 100));
         (11, error_signal
                "❌ 线程运行异常: [Errno 13] Permission denied: '/videos/clip one_merged.ts'") ]%Q
       (MainWindow.set_total_files 1 MainWindow.initial)) = 0%Z.
Proof. split; vm_compute; reflexivity. Qed.

(** ** Starting a batch *)

Lemma make_workers_home h files ffprobe output loudnorm paths :
  exists ws,
    MainWindow.make_workers (Some h) files ffprobe output loudnorm paths = (Ok tt, ws) /\
    map input_path ws = paths /\
    Forall (fun w => output_dir w = output /\ use_loudnorm w = loudnorm /\
                     _is_cancelled w = false /\ _process w = None /\
                     _total_duration w = Float.zero /\
                     find_ffmpeg (Some h) files = Ok (_ffmpeg_path w)) ws.
Proof.
  induction paths as [|p paths (ws & E & Hm & Hf)]; cbn [MainWindow.make_workers].
  - exists []. repeat split. constructor.
  - rewrite E. unfold __init__, find_ffmpeg. cbv zeta.
    eexists; split; [reflexivity|]. split; [simpl; rewrite Hm; reflexivity|].
    constructor; [|exact Hf]. simpl. repeat split.
Qed.

(** X22: with input files, an output directory and [HOME] set,
    [start_conversion] returns normally with one worker per input path,
    in the order of [input_paths]; every worker writes to the window's
    output directory, normalizes as the check box says and is not
    cancelled; the batch counts that many files, none of them done, the
    bar is at 0 and the list is disabled. *)
Theorem start_conversion_spec s h files ffprobe :
  MainWindow.input_paths s <> [] ->
  Py.truthy (MainWindow.output_dir s) = true ->
  exists s',
    MainWindow.start_conversion (Some h) files ffprobe s = (Ok tt, s') /\
    map input_path (MainWindow.active_threads s') = MainWindow.input_paths s /\
    Forall (fun w => output_dir w = MainWindow.output_dir s /\
                     use_loudnorm w = MainWindow.loudnorm_checkbox s /\
                     _is_cancelled w = false /\ _process w = None /\
                     _total_duration w = Float.zero /\
                     find_ffmpeg (Some h) files = Ok (_ffmpeg_path w))
           (MainWindow.active_threads s') /\
    MainWindow.total_files s' = Z.of_nat (length (MainWindow.input_paths s)) /\
    MainWindow.current_files_processed s' = 0%Z /\
    MainWindow.progress_bar s' = 0%Z /\
    MainWindow.file_list_enabled s' = false.
Proof.
  intros Hin Hout. unfold MainWindow.start_conversion.
  destruct (MainWindow.input_paths s) as [|p paths] eqn:E; [congruence|].
  rewrite Hout. cbn [negb]. unfold MainWindow.setValue. cbn.
  rewrite E.
  destruct (make_workers_home h files ffprobe (MainWindow.output_dir s)
              (MainWindow.loudnorm_checkbox s) (p :: paths)) as (ws & Ew & Hm & Hf).
  rewrite Ew. eexists; split; [reflexivity|]. cbn. auto 10.
Qed.

(** X23: with [HOME] not set [start_conversion] raises at the first
    worker it constructs: no worker is started, and the window is left
    with its list disabled. *)
Theorem start_conversion_without_home s files ffprobe :
  MainWindow.input_paths s <> [] ->
  Py.truthy (MainWindow.output_dir s) = true ->
  exists e s',
    MainWindow.start_conversion None files ffprobe s = (Raise e, s') /\
    MainWindow.active_threads s' = [] /\
    MainWindow.file_list_enabled s' = false /\
    MainWindow.input_paths s' = MainWindow.input_paths s.
Proof.
  intros Hin Hout. unfold MainWindow.start_conversion.
  destruct (MainWindow.input_paths s) as [|p paths] eqn:E; [congruence|].
  rewrite Hout. cbn [negb]. unfold MainWindow.setValue. cbn. rewrite E.
  cbn. eexists _, _. split; [reflexivity|]. cbn. auto.
Qed.

Lemma start_conversion_spec_witness :
  MainWindow.input_paths ready_window <> [] /\
  exists s',
    MainWindow.start_conversion (Some "/home/u") ∅ (fun _ => "") ready_window
    = (Ok tt, s') /\
    map input_path (MainWindow.active_threads s') = ["/v/a.mp4"; "/v/b.mp4"].
Proof.
  assert (H : MainWindow.input_paths ready_window <> []) by discriminate.
  split; [exact H|].
  destruct (start_conversion_spec ready_window "/home/u" ∅ (fun _ => "") H eq_refl)
    as (s' & E & Hm & _).
  exists s'. split; [exact E|exact Hm].
Defined.

Lemma start_conversion_without_home_witness :
  MainWindow.input_paths ready_window <> [] /\
  exists e s',
    MainWindow.start_conversion None {[ "ffmpeg" ]} (fun _ => "") ready_window
    = (Raise e, s') /\
    MainWindow.active_threads s' = [].
Proof.
  assert (H : MainWindow.input_paths ready_window <> []) by discriminate.
  split; [exact H|].
  destruct (start_conversion_without_home ready_window {[ "ffmpeg" ]} (fun _ => "")
              H eq_refl) as (e & s' & E & Ha & _).
  exists e, s'. split; [exact E|exact Ha].
Defined.

(** ** Signals while a batch is active *)






Lemma home_candidates_coincide_witness :
  Py.endswith_char "/" "/home/u" = false /\
  expanduser_home "/home/u" "/ffmpeg" = OsPath.join "/home/u" "ffmpeg".
Proof.
  split; [reflexivity|].
  destruct (home_candidates_coincide "/home/u" eq_refl eq_refl) as [E1 E2].
  rewrite E1, E2. reflexivity.
Defined.
